(** * Ray tracing callable shaders sample: a model of
      examples/raytracingcallable/raytracingcallable.cpp

    The sample is a sequence of calls into the Vulkan API and into the
    sample framework (VulkanRaytracingSample, VulkanExampleBase, vks).
    The model keeps the host state of [class VulkanExample], the mapped
    memory the sample writes with [memcpy], and the list of API calls a
    run issues.  What the driver and the framework answer is an input of
    the model (a [Host]). *)

From Stdlib Require Import ZArith List String Ascii Bool Lia PeanoNat.
From Stdlib Require Import Floats.SpecFloat.
Import ListNotations.

Local Open Scope string_scope.
Local Open Scope list_scope.
Local Open Scope Z_scope.

Set Implicit Arguments.

(* Lists are the default; strings are only file names. *)
Local Abbreviation length := List.length.
Local Notation "a +++ b" := (String.append a b) (at level 60, right associativity).

(* ================================================================== *)
(** ** Machine integers and single precision floats *)

(** [uint32_t] arithmetic wraps around modulo 2^32. *)
Definition u32 (z : Z) : Z := z mod 2 ^ 32.

(** C [float] is IEEE binary32: 24 bits of precision, emax = 128. *)
Definition float32 : Type := spec_float.
Definition f32_of_Z (z : Z) : float32 := binary_normalize 24 128 z 0 false.
Definition f32_mul (x y : float32) : float32 := SFmul 24 128 x y.
Definition f32_sub (x y : float32) : float32 := SFsub 24 128 x y.

(** [std::to_string] on an unsigned value: decimal digits, no sign.  The
    fuel bounds the number of digits (a value below 2^k has at most k). *)
Definition digit_char (d : Z) : ascii := ascii_of_nat (48 + Z.to_nat d).

Fixpoint to_string_fuel (fuel : nat) (z : Z) (acc : string) : string :=
  match fuel with
  | O => acc
  | S fuel' =>
      let acc' := String (digit_char (z mod 10)) acc in
      if z / 10 =? 0 then acc' else to_string_fuel fuel' (z / 10) acc'
  end.

Definition to_string (z : Z) : string :=
  to_string_fuel (S (Z.to_nat (Z.log2 z))) z "".

(* ================================================================== *)
(** ** Vulkan and framework data used by the sample *)

Definition VkResult : Type := Z.
Definition VK_SUCCESS : VkResult := 0.
Definition VK_ERROR_OUT_OF_HOST_MEMORY : VkResult := -1.
Definition VK_ERROR_DEVICE_LOST : VkResult := -4.
Definition VK_SHADER_UNUSED_KHR : Z := 4294967295.
Definition VK_WHOLE_SIZE : Z := 18446744073709551615.
Definition UINT64_MAX : Z := 18446744073709551615.

(** [VkTransformMatrixKHR] is [float matrix[3][4]], row major. *)
Definition VkTransformMatrixKHR : Type := list (list float32).
Definition sizeof_VkTransformMatrixKHR : Z := 48.
Definition sizeof_VkAccelerationStructureInstanceKHR : Z := 64.
Definition sizeof_Vertex : Z := 12.
Definition sizeof_uint32_t : Z := 4.

(** [glm::mat4]: sixteen floats. *)
Definition mat4 : Type := list float32.

Record UniformData := mkUniformData {
  viewInverse : mat4;
  projInverse : mat4
}.
Definition sizeof_uniformData : Z := 128.

Inductive VkGeometryTypeKHR :=
| VK_GEOMETRY_TYPE_TRIANGLES_KHR
| VK_GEOMETRY_TYPE_INSTANCES_KHR.

Inductive VkAccelerationStructureTypeKHR :=
| VK_ACCELERATION_STRUCTURE_TYPE_TOP_LEVEL_KHR
| VK_ACCELERATION_STRUCTURE_TYPE_BOTTOM_LEVEL_KHR.

Inductive VkRayTracingShaderGroupTypeKHR :=
| VK_RAY_TRACING_SHADER_GROUP_TYPE_GENERAL_KHR
| VK_RAY_TRACING_SHADER_GROUP_TYPE_TRIANGLES_HIT_GROUP_KHR.

Inductive VkShaderStageFlagBits :=
| VK_SHADER_STAGE_RAYGEN_BIT_KHR
| VK_SHADER_STAGE_MISS_BIT_KHR
| VK_SHADER_STAGE_CLOSEST_HIT_BIT_KHR
| VK_SHADER_STAGE_CALLABLE_BIT_KHR.

Inductive VkDescriptorType :=
| VK_DESCRIPTOR_TYPE_ACCELERATION_STRUCTURE_KHR
| VK_DESCRIPTOR_TYPE_STORAGE_IMAGE
| VK_DESCRIPTOR_TYPE_UNIFORM_BUFFER
| VK_DESCRIPTOR_TYPE_STORAGE_BUFFER.

Inductive VkImageLayout :=
| VK_IMAGE_LAYOUT_UNDEFINED
| VK_IMAGE_LAYOUT_GENERAL
| VK_IMAGE_LAYOUT_TRANSFER_SRC_OPTIMAL
| VK_IMAGE_LAYOUT_TRANSFER_DST_OPTIMAL
| VK_IMAGE_LAYOUT_PRESENT_SRC_KHR.

(** The part of [VkAccelerationStructureGeometryKHR] the sample fills in. *)
Record VkAccelerationStructureGeometryKHR := mkGeometry {
  geometryType : VkGeometryTypeKHR;
  geom_opaque : bool;              (* flags = VK_GEOMETRY_OPAQUE_BIT_KHR *)
  vertexData : Z;
  maxVertex : Z;
  vertexStride : Z;
  indexData : Z;
  transformData : Z;
  instancesData : Z
}.

Record VkAccelerationStructureBuildGeometryInfoKHR := mkBuildInfo {
  bi_type : VkAccelerationStructureTypeKHR;
  dstAccelerationStructure : Z;
  geometryCount : Z;
  pGeometries : list VkAccelerationStructureGeometryKHR;
  scratchData : Z
}.

Record VkAccelerationStructureBuildRangeInfoKHR := mkRange {
  primitiveCount : Z;
  primitiveOffset : Z;
  firstVertex : Z;
  transformOffset : Z
}.

Record VkAccelerationStructureInstanceKHR := mkInstance {
  inst_transform : VkTransformMatrixKHR;
  instanceCustomIndex : Z;
  inst_mask : Z;
  instanceShaderBindingTableRecordOffset : Z;
  accelerationStructureReference : Z
}.

Record VkRayTracingShaderGroupCreateInfoKHR := mkGroup {
  sg_type : VkRayTracingShaderGroupTypeKHR;
  generalShader : Z;
  closestHitShader : Z;
  anyHitShader : Z;
  intersectionShader : Z
}.

(** Framework records ([VulkanRaytracingSample.h], [VulkanBuffer.h]):
    the fields the sample reads or writes. *)
Record AccelerationStructure := mkAS {
  as_handle : Z;
  as_deviceAddress : Z
}.

Record Buffer := mkBuffer {
  buf_buffer : Z;                  (* VkBuffer handle *)
  buf_memory : option nat;         (* VkDeviceMemory: a cell of the heap *)
  buf_mapped : option nat          (* mapped pointer, null until mapped *)
}.

Record VkAccelerationStructureBuildSizesInfoKHR := mkSizes {
  accelerationStructureSize : Z;
  buildScratchSize : Z
}.

Record ScratchBuffer := mkScratch {
  scratch_deviceAddress : Z
}.

Record FrameObjects := mkFrame {
  commandBuffer : Z;               (* VulkanFrameObjects *)
  renderCompleteFence : Z;         (* VulkanFrameObjects *)
  ubo : Buffer;
  storageImage : Z;                (* StorageImage: image and view *)
  descriptorSet : Z
}.

Record ShaderBindingTables := mkSBTs {
  raygen : Buffer;
  miss : Buffer;
  hit : Buffer;
  callable : Buffer
}.

Record Camera := mkCamera {
  cam_updated : bool;
  cam_perspective : mat4;
  cam_view : mat4
}.

(** State inherited from [VulkanRaytracingSample] and [VulkanExampleBase]
    that the sample reads (and, for [descriptorPool], [prepared] and
    [currentBuffer], that is written).  [accelerationStructureHostCommands]
    is [accelerationStructureFeatures.accelerationStructureHostCommands];
    the two handle sizes are fields of [rayTracingPipelineProperties]. *)
Record VulkanExampleBase := mkBase {
  prepared : bool;
  resized : bool;
  paused : bool;
  camera : Camera;
  currentBuffer : Z;
  swapChain_imageCount : Z;
  swapChain_images : list Z;
  width : Z;
  height : Z;
  descriptorPool : Z;
  accelerationStructureHostCommands : bool;
  shaderGroupHandleSize : Z;
  shaderGroupHandleAlignment : Z
}.

(** [class VulkanExample]: its data members, [objectCount] included (a
    plain [uint32_t] member initialised to 3). *)
Record VulkanExample := mkExample {
  base : VulkanExampleBase;
  bottomLevelAS : AccelerationStructure;
  topLevelAS : AccelerationStructure;
  shaderGroups : list VkRayTracingShaderGroupCreateInfoKHR;
  shaderBindingTables : ShaderBindingTables;
  uniformData : UniformData;
  frameObjects : list FrameObjects;
  pipeline : Z;
  pipelineLayout : Z;
  descriptorSetLayout : Z;
  vertexBuffer : Buffer;
  indexBuffer : Buffer;
  transformBuffer : Buffer;
  objectCount : Z
}.

(** Field updates. *)
Definition set_prepared (v : bool) (b : VulkanExampleBase) : VulkanExampleBase :=
  {| prepared := v;
     resized := resized b;
     paused := paused b;
     camera := camera b;
     currentBuffer := currentBuffer b;
     swapChain_imageCount := swapChain_imageCount b;
     swapChain_images := swapChain_images b;
     width := width b;
     height := height b;
     descriptorPool := descriptorPool b;
     accelerationStructureHostCommands := accelerationStructureHostCommands b;
     shaderGroupHandleSize := shaderGroupHandleSize b;
     shaderGroupHandleAlignment := shaderGroupHandleAlignment b |}.
Definition set_currentBuffer (v : Z) (b : VulkanExampleBase) : VulkanExampleBase :=
  {| prepared := prepared b;
     resized := resized b;
     paused := paused b;
     camera := camera b;
     currentBuffer := v;
     swapChain_imageCount := swapChain_imageCount b;
     swapChain_images := swapChain_images b;
     width := width b;
     height := height b;
     descriptorPool := descriptorPool b;
     accelerationStructureHostCommands := accelerationStructureHostCommands b;
     shaderGroupHandleSize := shaderGroupHandleSize b;
     shaderGroupHandleAlignment := shaderGroupHandleAlignment b |}.
Definition set_descriptorPool (v : Z) (b : VulkanExampleBase) : VulkanExampleBase :=
  {| prepared := prepared b;
     resized := resized b;
     paused := paused b;
     camera := camera b;
     currentBuffer := currentBuffer b;
     swapChain_imageCount := swapChain_imageCount b;
     swapChain_images := swapChain_images b;
     width := width b;
     height := height b;
     descriptorPool := v;
     accelerationStructureHostCommands := accelerationStructureHostCommands b;
     shaderGroupHandleSize := shaderGroupHandleSize b;
     shaderGroupHandleAlignment := shaderGroupHandleAlignment b |}.
Definition set_base (v : VulkanExampleBase) (s : VulkanExample) : VulkanExample :=
  {| base := v;
     bottomLevelAS := bottomLevelAS s;
     topLevelAS := topLevelAS s;
     shaderGroups := shaderGroups s;
     shaderBindingTables := shaderBindingTables s;
     uniformData := uniformData s;
     frameObjects := frameObjects s;
     pipeline := pipeline s;
     pipelineLayout := pipelineLayout s;
     descriptorSetLayout := descriptorSetLayout s;
     vertexBuffer := vertexBuffer s;
     indexBuffer := indexBuffer s;
     transformBuffer := transformBuffer s;
     objectCount := objectCount s |}.
Definition set_bottomLevelAS (v : AccelerationStructure) (s : VulkanExample) : VulkanExample :=
  {| base := base s;
     bottomLevelAS := v;
     topLevelAS := topLevelAS s;
     shaderGroups := shaderGroups s;
     shaderBindingTables := shaderBindingTables s;
     uniformData := uniformData s;
     frameObjects := frameObjects s;
     pipeline := pipeline s;
     pipelineLayout := pipelineLayout s;
     descriptorSetLayout := descriptorSetLayout s;
     vertexBuffer := vertexBuffer s;
     indexBuffer := indexBuffer s;
     transformBuffer := transformBuffer s;
     objectCount := objectCount s |}.
Definition set_topLevelAS (v : AccelerationStructure) (s : VulkanExample) : VulkanExample :=
  {| base := base s;
     bottomLevelAS := bottomLevelAS s;
     topLevelAS := v;
     shaderGroups := shaderGroups s;
     shaderBindingTables := shaderBindingTables s;
     uniformData := uniformData s;
     frameObjects := frameObjects s;
     pipeline := pipeline s;
     pipelineLayout := pipelineLayout s;
     descriptorSetLayout := descriptorSetLayout s;
     vertexBuffer := vertexBuffer s;
     indexBuffer := indexBuffer s;
     transformBuffer := transformBuffer s;
     objectCount := objectCount s |}.
Definition set_shaderGroups (v : list VkRayTracingShaderGroupCreateInfoKHR) (s : VulkanExample) : VulkanExample :=
  {| base := base s;
     bottomLevelAS := bottomLevelAS s;
     topLevelAS := topLevelAS s;
     shaderGroups := v;
     shaderBindingTables := shaderBindingTables s;
     uniformData := uniformData s;
     frameObjects := frameObjects s;
     pipeline := pipeline s;
     pipelineLayout := pipelineLayout s;
     descriptorSetLayout := descriptorSetLayout s;
     vertexBuffer := vertexBuffer s;
     indexBuffer := indexBuffer s;
     transformBuffer := transformBuffer s;
     objectCount := objectCount s |}.
Definition set_shaderBindingTables (v : ShaderBindingTables) (s : VulkanExample) : VulkanExample :=
  {| base := base s;
     bottomLevelAS := bottomLevelAS s;
     topLevelAS := topLevelAS s;
     shaderGroups := shaderGroups s;
     shaderBindingTables := v;
     uniformData := uniformData s;
     frameObjects := frameObjects s;
     pipeline := pipeline s;
     pipelineLayout := pipelineLayout s;
     descriptorSetLayout := descriptorSetLayout s;
     vertexBuffer := vertexBuffer s;
     indexBuffer := indexBuffer s;
     transformBuffer := transformBuffer s;
     objectCount := objectCount s |}.
Definition set_uniformData (v : UniformData) (s : VulkanExample) : VulkanExample :=
  {| base := base s;
     bottomLevelAS := bottomLevelAS s;
     topLevelAS := topLevelAS s;
     shaderGroups := shaderGroups s;
     shaderBindingTables := shaderBindingTables s;
     uniformData := v;
     frameObjects := frameObjects s;
     pipeline := pipeline s;
     pipelineLayout := pipelineLayout s;
     descriptorSetLayout := descriptorSetLayout s;
     vertexBuffer := vertexBuffer s;
     indexBuffer := indexBuffer s;
     transformBuffer := transformBuffer s;
     objectCount := objectCount s |}.
Definition set_frameObjects (v : list FrameObjects) (s : VulkanExample) : VulkanExample :=
  {| base := base s;
     bottomLevelAS := bottomLevelAS s;
     topLevelAS := topLevelAS s;
     shaderGroups := shaderGroups s;
     shaderBindingTables := shaderBindingTables s;
     uniformData := uniformData s;
     frameObjects := v;
     pipeline := pipeline s;
     pipelineLayout := pipelineLayout s;
     descriptorSetLayout := descriptorSetLayout s;
     vertexBuffer := vertexBuffer s;
     indexBuffer := indexBuffer s;
     transformBuffer := transformBuffer s;
     objectCount := objectCount s |}.
Definition set_pipeline (v : Z) (s : VulkanExample) : VulkanExample :=
  {| base := base s;
     bottomLevelAS := bottomLevelAS s;
     topLevelAS := topLevelAS s;
     shaderGroups := shaderGroups s;
     shaderBindingTables := shaderBindingTables s;
     uniformData := uniformData s;
     frameObjects := frameObjects s;
     pipeline := v;
     pipelineLayout := pipelineLayout s;
     descriptorSetLayout := descriptorSetLayout s;
     vertexBuffer := vertexBuffer s;
     indexBuffer := indexBuffer s;
     transformBuffer := transformBuffer s;
     objectCount := objectCount s |}.
Definition set_pipelineLayout (v : Z) (s : VulkanExample) : VulkanExample :=
  {| base := base s;
     bottomLevelAS := bottomLevelAS s;
     topLevelAS := topLevelAS s;
     shaderGroups := shaderGroups s;
     shaderBindingTables := shaderBindingTables s;
     uniformData := uniformData s;
     frameObjects := frameObjects s;
     pipeline := pipeline s;
     pipelineLayout := v;
     descriptorSetLayout := descriptorSetLayout s;
     vertexBuffer := vertexBuffer s;
     indexBuffer := indexBuffer s;
     transformBuffer := transformBuffer s;
     objectCount := objectCount s |}.
Definition set_descriptorSetLayout (v : Z) (s : VulkanExample) : VulkanExample :=
  {| base := base s;
     bottomLevelAS := bottomLevelAS s;
     topLevelAS := topLevelAS s;
     shaderGroups := shaderGroups s;
     shaderBindingTables := shaderBindingTables s;
     uniformData := uniformData s;
     frameObjects := frameObjects s;
     pipeline := pipeline s;
     pipelineLayout := pipelineLayout s;
     descriptorSetLayout := v;
     vertexBuffer := vertexBuffer s;
     indexBuffer := indexBuffer s;
     transformBuffer := transformBuffer s;
     objectCount := objectCount s |}.
Definition set_vertexBuffer (v : Buffer) (s : VulkanExample) : VulkanExample :=
  {| base := base s;
     bottomLevelAS := bottomLevelAS s;
     topLevelAS := topLevelAS s;
     shaderGroups := shaderGroups s;
     shaderBindingTables := shaderBindingTables s;
     uniformData := uniformData s;
     frameObjects := frameObjects s;
     pipeline := pipeline s;
     pipelineLayout := pipelineLayout s;
     descriptorSetLayout := descriptorSetLayout s;
     vertexBuffer := v;
     indexBuffer := indexBuffer s;
     transformBuffer := transformBuffer s;
     objectCount := objectCount s |}.
Definition set_indexBuffer (v : Buffer) (s : VulkanExample) : VulkanExample :=
  {| base := base s;
     bottomLevelAS := bottomLevelAS s;
     topLevelAS := topLevelAS s;
     shaderGroups := shaderGroups s;
     shaderBindingTables := shaderBindingTables s;
     uniformData := uniformData s;
     frameObjects := frameObjects s;
     pipeline := pipeline s;
     pipelineLayout := pipelineLayout s;
     descriptorSetLayout := descriptorSetLayout s;
     vertexBuffer := vertexBuffer s;
     indexBuffer := v;
     transformBuffer := transformBuffer s;
     objectCount := objectCount s |}.
Definition set_transformBuffer (v : Buffer) (s : VulkanExample) : VulkanExample :=
  {| base := base s;
     bottomLevelAS := bottomLevelAS s;
     topLevelAS := topLevelAS s;
     shaderGroups := shaderGroups s;
     shaderBindingTables := shaderBindingTables s;
     uniformData := uniformData s;
     frameObjects := frameObjects s;
     pipeline := pipeline s;
     pipelineLayout := pipelineLayout s;
     descriptorSetLayout := descriptorSetLayout s;
     vertexBuffer := vertexBuffer s;
     indexBuffer := indexBuffer s;
     transformBuffer := v;
     objectCount := objectCount s |}.

(* ================================================================== *)
(** ** API calls, the host, and the monad of the sample *)

(** Which [vks::Buffer] a [createBuffer] call fills in. *)
Inductive BufferName :=
| B_transformBuffer | B_vertexBuffer | B_indexBuffer
| B_instancesBuffer | B_ubo (frame : nat).

(** Which shader binding table a [createShaderBindingTable] call fills in. *)
Inductive SbtName := SBT_raygen | SBT_miss | SBT_hit | SBT_callable.

(** The initial data handed to [createBuffer]. *)
Inductive BufferData :=
| D_transforms (ms : list VkTransformMatrixKHR)
| D_vertices (vs : list (list float32))
| D_indices (is_ : list Z)
| D_instance (i : VkAccelerationStructureInstanceKHR)
| D_uniform (u : UniformData).

Record VkWriteDescriptorSet := mkWrite {
  dstSet : Z;
  descriptorType : VkDescriptorType;
  dstBinding : Z;
  resource : Z     (* the acceleration structure, image view or buffer *)
}.

(** One constructor per function of the Vulkan API or of the sample
    framework that the sample calls, with the arguments the sample
    computes. *)
Inductive Call :=
| C_createBuffer (target : BufferName) (size : Z) (data : BufferData)
| C_getBufferDeviceAddress (buffer : Z)
| C_vkGetAccelerationStructureBuildSizesKHR
    (info : VkAccelerationStructureBuildGeometryInfoKHR) (counts : list Z)
| C_createAccelerationStructure (ty : VkAccelerationStructureTypeKHR)
| C_createScratchBuffer (size : Z)
| C_vkBuildAccelerationStructuresKHR (infoCount : Z)
    (info : VkAccelerationStructureBuildGeometryInfoKHR)
    (ppBuildRangeInfos : list (list VkAccelerationStructureBuildRangeInfoKHR))
| C_createCommandBuffer
| C_vkCmdBuildAccelerationStructuresKHR (cb : Z) (infoCount : Z)
    (info : VkAccelerationStructureBuildGeometryInfoKHR)
    (ppBuildRangeInfos : list (list VkAccelerationStructureBuildRangeInfoKHR))
| C_flushCommandBuffer (cb : Z)
| C_deleteScratchBuffer
| C_Buffer_destroy (buffer : Z)
| C_Buffer_map (buffer : Z)
| C_vkGetRayTracingShaderGroupHandlesKHR
    (pipeline_ : Z) (firstGroup groupCount dataSize : Z)
| C_createShaderBindingTable (table : SbtName) (handleCount : Z)
| C_vkCreateDescriptorPool (poolSizes : list (VkDescriptorType * Z)) (maxSets : Z)
| C_vkAllocateDescriptorSets (pool layout : Z)
| C_vkUpdateDescriptorSets (writes : list VkWriteDescriptorSet)
| C_vkCreateDescriptorSetLayout (bindings : list (VkDescriptorType * Z))
| C_vkCreatePipelineLayout (setLayout : Z)
| C_loadShader (fileName : string) (stage : VkShaderStageFlagBits)
| C_vkCreateRayTracingPipelinesKHR (stageCount groupCount : Z)
    (groups : list VkRayTracingShaderGroupCreateInfoKHR) (layout : Z)
| C_VulkanRaytracingSample_prepare
| C_createFrameObjects
| C_createStorageImage (w h : Z)
| C_buildCommandBuffers
| C_vkDeviceWaitIdle
| C_prepareFrame
| C_vkWaitForFences (fenceCount : Z) (fence : Z) (timeout : Z)
| C_vkResetFences (fenceCount : Z) (fence : Z)
| C_vkBeginCommandBuffer (cb : Z)
| C_vkCmdBindPipeline (cb : Z) (pipeline_ : Z)
| C_vkCmdBindDescriptorSets (cb : Z) (layout : Z) (set : Z)
| C_vkCmdTraceRaysKHR (cb : Z) (rg ms ht cl : Z) (w h d : Z)
| C_setImageLayout (cb : Z) (image : Z) (oldLayout newLayout : VkImageLayout)
| C_vkCmdCopyImage (cb : Z) (src dst : Z) (w h : Z)
| C_vkEndCommandBuffer (cb : Z)
| C_submitFrame.

(** The declared return type of each function: [true] when it is
    [VkResult].  These declarations live in the Vulkan headers and in the
    framework headers, outside this file's source; every function the
    sample wraps in [VK_CHECK_RESULT] is one of them, and so are
    [vkBuildAccelerationStructuresKHR] and [vkDeviceWaitIdle]
    ([VkResult vkBuildAccelerationStructuresKHR(VkDevice,
    VkDeferredOperationKHR, uint32_t, ...)], [VkResult
    vkDeviceWaitIdle(VkDevice)]). *)
Definition returnsVkResult (c : Call) : bool :=
  match c with
  | C_createBuffer _ _ _ => true
  | C_vkBuildAccelerationStructuresKHR _ _ _ => true
  | C_Buffer_map _ => true
  | C_vkGetRayTracingShaderGroupHandlesKHR _ _ _ _ => true
  | C_vkCreateDescriptorPool _ _ => true
  | C_vkAllocateDescriptorSets _ _ => true
  | C_vkCreateDescriptorSetLayout _ => true
  | C_vkCreatePipelineLayout _ => true
  | C_vkCreateRayTracingPipelinesKHR _ _ _ _ => true
  | C_vkDeviceWaitIdle => true
  | C_vkWaitForFences _ _ _ => true
  | C_vkResetFences _ _ => true
  | C_vkBeginCommandBuffer _ => true
  | C_vkEndCommandBuffer _ => true
  | _ => false
  end.

(** A call together with the result code the host gave it (looked at only
    by the functions of [returnsVkResult]). *)
Record Event := mkEvent {
  ev_call : Call;
  ev_result : Z
}.

(** The contents of one allocation of host visible memory: raw bytes (a
    shader binding table) or the object a buffer was created from. *)
Inductive MemVal :=
| MBytes (bs : list Z)
| MObject (d : BufferData).

(** Everything outside the sample.  [answer k j] is what the [k]-th API
    call of the run produces: [j = 0] is its return value (a [VkResult]
    for the functions of [returnsVkResult]), [j > 0] its further outputs
    (handles, addresses, sizes).  [shaderGroupHandles] are the bytes the
    driver writes for [vkGetRayTracingShaderGroupHandlesKHR];
    [glm_inverse] is [glm::inverse] on [glm::mat4]; [getShadersPath] is
    the framework's shader directory. *)
Record Host := mkHost {
  answer : nat -> nat -> Z;
  shaderGroupHandles : list Z;
  glm_inverse : mat4 -> mat4;
  getShadersPath : string
}.

Record World := mkWorld {
  tick : nat;                      (* number of API calls made so far *)
  app : VulkanExample;
  heap : list MemVal               (* mapped memory, by cell index *)
}.

(** How a run ends: it returns, [VK_CHECK_RESULT] aborts the program, or
    it leaves defined behaviour (an access out of bounds). *)
Inductive Outcome (A : Type) :=
| Done (a : A)
| Abort
| Fault.
Arguments Abort {A}.
Arguments Fault {A}.

Record Result (A : Type) := mkResult {
  outcome : Outcome A;
  events : list Event;             (* the calls issued, oldest first *)
  world : World
}.

Definition M (A : Type) : Type := Host -> World -> Result A.

Definition ret {A} (a : A) : M A := fun _ w => mkResult (Done a) [] w.

Definition bind {A B} (m : M A) (f : A -> M B) : M B := fun h w =>
  match m h w with
  | mkResult (Done a) es w1 =>
      match f a h w1 with
      | mkResult o es' w2 => mkResult o (es ++ es') w2
      end
  | mkResult Abort es w1 => mkResult Abort es w1
  | mkResult Fault es w1 => mkResult Fault es w1
  end.

Notation "x <- c1 ;; c2" := (bind c1 (fun x => c2))
  (at level 61, c1 at next level, right associativity).
Notation "c1 ;; c2" := (bind c1 (fun _ => c2))
  (at level 61, right associativity).

Definition abort {A} : M A := fun _ w => mkResult Abort [] w.
Definition fault {A} : M A := fun _ w => mkResult Fault [] w.
Definition get : M VulkanExample := fun _ w => mkResult (Done (app w)) [] w.
Definition modify (f : VulkanExample -> VulkanExample) : M unit := fun _ w =>
  mkResult (Done tt) [] (mkWorld (tick w) (f (app w)) (heap w)).
Definition ask : M Host := fun h w => mkResult (Done h) [] w.

(** An API call: the host answers, the call is recorded. *)
Definition api (c : Call) : M (nat -> Z) := fun h w =>
  let a := answer h (tick w) in
  mkResult (Done a) [mkEvent c (a 0%nat)] (mkWorld (S (tick w)) (app w) (heap w)).

(** Heap cells. *)
Definition alloc (v : MemVal) : M nat := fun _ w =>
  mkResult (Done (length (heap w))) [] (mkWorld (tick w) (app w) (heap w ++ [v])).

Fixpoint set_nth {A} (l : list A) (i : nat) (x : A) : list A :=
  match l, i with
  | [], _ => []
  | _ :: t, O => x :: t
  | y :: t, S i' => y :: set_nth t i' x
  end.

Definition store (p : nat) (v : MemVal) : M unit := fun _ w =>
  mkResult (Done tt) [] (mkWorld (tick w) (app w) (set_nth (heap w) p v)).

Definition load (p : nat) : M (option MemVal) := fun _ w =>
  mkResult (Done (nth_error (heap w) p)) [] w.

(** Modelled from the spec: the macro [VK_CHECK_RESULT] of the framework
    header is not part of the source file.  The spec describes it as a
    fail-fast check that aborts the program on any non-success return
    code.  A checked call hands its outputs on when it succeeds. *)
Definition VK_CHECK_RESULT {A} (f : M (VkResult * A)) : M A :=
  ra <- f ;;
  if fst ra =? VK_SUCCESS then ret (snd ra) else abort.

(** [for (x : xs) body]. *)
Fixpoint for_each {A} (xs : list A) (body : A -> M unit) : M unit :=
  match xs with
  | [] => ret tt
  | x :: xs' => body x ;; for_each xs' body
  end.

(** The values [i] takes in [for (uint32_t i = 0; i < n; i++)]. *)
Definition range_u32 (n : Z) : list Z := map Z.of_nat (seq 0 (Z.to_nat n)).

(** [memcpy(dst, src + offset, len)] from a local byte vector into a mapped
    table.  Reading past the end of the vector, writing through a null
    pointer or writing past the end of the allocation is a [Fault]. *)
Definition slice (src : list Z) (offset len : Z) : list Z :=
  firstn (Z.to_nat len) (skipn (Z.to_nat offset) src).

Definition write_prefix (dst src : list Z) : list Z :=
  src ++ skipn (length src) dst.

Definition memcpy_bytes (dst : option nat) (src : list Z) (offset len : Z) : M unit :=
  match dst with
  | None => fault
  | Some p =>
      cell <- load p ;;
      match cell with
      | Some (MBytes bs) =>
          if (offset + len <=? Z.of_nat (length src)) && (len <=? Z.of_nat (length bs))
          then store p (MBytes (write_prefix bs (slice src offset len)))
          else fault
      | _ => fault
      end
  end.

(** [memcpy(dst, &uniformData, sizeof(uniformData))] into a mapped uniform
    buffer, which was created with room for one [UniformData]. *)
Definition memcpy_uniform (dst : option nat) (u : UniformData) : M unit :=
  match dst with
  | None => fault
  | Some p =>
      cell <- load p ;;
      match cell with
      | Some (MObject (D_uniform _)) => store p (MObject (D_uniform u))
      | _ => fault
      end
  end.

(* ================================================================== *)
(** ** The functions the sample calls

    The Vulkan entry points and the framework functions are outside the
    source file.  Each is an [api] call; what it returns and what it
    writes through its out-parameters are the host's answers, handed back
    to the caller. *)

Definition createBuffer (target : BufferName) (size : Z) (data : BufferData)
  : M (VkResult * Buffer) :=
  a <- api (C_createBuffer target size data) ;;
  m <- alloc (MObject data) ;;
  ret (a 0%nat, mkBuffer (a 1%nat) (Some m) None).

Definition Buffer_map (b : Buffer) : M (VkResult * Buffer) :=
  a <- api (C_Buffer_map (buf_buffer b)) ;;
  ret (a 0%nat, mkBuffer (buf_buffer b) (buf_memory b) (buf_memory b)).

Definition Buffer_destroy (b : Buffer) : M unit :=
  api (C_Buffer_destroy (buf_buffer b)) ;; ret tt.

Definition getBufferDeviceAddress (buffer : Z) : M Z :=
  a <- api (C_getBufferDeviceAddress buffer) ;; ret (a 1%nat).

Definition vkGetAccelerationStructureBuildSizesKHR
    (info : VkAccelerationStructureBuildGeometryInfoKHR) (counts : list Z)
  : M VkAccelerationStructureBuildSizesInfoKHR :=
  a <- api (C_vkGetAccelerationStructureBuildSizesKHR info counts) ;;
  ret (mkSizes (a 1%nat) (a 2%nat)).

Definition createAccelerationStructure (ty : VkAccelerationStructureTypeKHR)
    (sizes : VkAccelerationStructureBuildSizesInfoKHR) : M AccelerationStructure :=
  a <- api (C_createAccelerationStructure ty) ;;
  ret (mkAS (a 1%nat) (a 2%nat)).

Definition createScratchBuffer (size : Z) : M ScratchBuffer :=
  a <- api (C_createScratchBuffer size) ;; ret (mkScratch (a 1%nat)).

Definition deleteScratchBuffer (sb : ScratchBuffer) : M unit :=
  api C_deleteScratchBuffer ;; ret tt.

Definition vkBuildAccelerationStructuresKHR (infoCount : Z)
    (info : VkAccelerationStructureBuildGeometryInfoKHR)
    (ppBuildRangeInfos : list (list VkAccelerationStructureBuildRangeInfoKHR))
  : M (VkResult * unit) :=
  a <- api (C_vkBuildAccelerationStructuresKHR infoCount info ppBuildRangeInfos) ;;
  ret (a 0%nat, tt).

Definition createCommandBuffer : M Z :=
  a <- api C_createCommandBuffer ;; ret (a 1%nat).

Definition vkCmdBuildAccelerationStructuresKHR (cb infoCount : Z)
    (info : VkAccelerationStructureBuildGeometryInfoKHR)
    (ppBuildRangeInfos : list (list VkAccelerationStructureBuildRangeInfoKHR))
  : M unit :=
  api (C_vkCmdBuildAccelerationStructuresKHR cb infoCount info ppBuildRangeInfos) ;;
  ret tt.

Definition flushCommandBuffer (cb : Z) : M unit :=
  api (C_flushCommandBuffer cb) ;; ret tt.

(* ================================================================== *)
(** ** createBottomLevelAccelerationStructure *)

Definition f0 : float32 := f32_of_Z 0.
Definition f1 : float32 := f32_of_Z 1.
Definition f3 : float32 := f32_of_Z 3.

(** The initialiser of [transformMatrices[i]]:
    [(float)i * 3.0f - 3.0f] is the x translation. *)
Definition transformMatrix_at (i : Z) : VkTransformMatrixKHR :=
  [ [f1; f0; f0; f32_sub (f32_mul (f32_of_Z i) f3) f3];
    [f0; f1; f0; f0];
    [f0; f0; f1; f0] ].

(** [std::vector<VkTransformMatrixKHR> transformMatrices(objectCount)]
    (value-initialised), then the loop assigning each index. *)
Definition zeroTransformMatrix : VkTransformMatrixKHR :=
  [ [f0; f0; f0; f0]; [f0; f0; f0; f0]; [f0; f0; f0; f0] ].

Definition transformMatrices (objectCount : Z) : list VkTransformMatrixKHR :=
  fold_left (fun v i => set_nth v (Z.to_nat i) (transformMatrix_at i))
            (range_u32 objectCount)
            (repeat zeroTransformMatrix (Z.to_nat objectCount)).

Definition vertices : list (list float32) :=
  [ [f1; f1; f0]; [f32_of_Z (-1); f1; f0]; [f0; f32_of_Z (-1); f0] ].

Definition indices : list Z := [0; 1; 2].

(** The loop that pushes one triangle geometry per object. *)
Definition triangleGeometry (vertexAddr indexAddr transformAddr : Z)
  : VkAccelerationStructureGeometryKHR :=
  {| geometryType := VK_GEOMETRY_TYPE_TRIANGLES_KHR;
     geom_opaque := true;
     vertexData := vertexAddr;
     maxVertex := 3;
     vertexStride := sizeof_Vertex;
     indexData := indexAddr;
     transformData := transformAddr;
     instancesData := 0 |}.

Definition accelerationStructureGeometries (objectCount : Z)
    (vertexAddr indexAddr transformAddr : Z)
  : list VkAccelerationStructureGeometryKHR :=
  fold_left (fun v _ => v ++ [triangleGeometry vertexAddr indexAddr transformAddr])
            (range_u32 objectCount) [].

Definition geometryCounts (objectCount : Z) : list Z :=
  fold_left (fun v _ => v ++ [1]) (range_u32 objectCount) [].

(** The loop that pushes one build range per object;
    [transformOffset] is a [uint32_t]. *)
Definition buildRangeInfo_at (numTriangles i : Z)
  : VkAccelerationStructureBuildRangeInfoKHR :=
  {| primitiveCount := numTriangles;
     primitiveOffset := 0;
     firstVertex := 0;
     transformOffset := u32 (i * sizeof_VkTransformMatrixKHR) |}.

Definition accelerationStructureBuildRangeInfos (objectCount numTriangles : Z)
  : list VkAccelerationStructureBuildRangeInfoKHR :=
  fold_left (fun v i => v ++ [buildRangeInfo_at numTriangles i])
            (range_u32 objectCount) [].

(** [&v[i]]: a pointer into the vector, seen by the driver as the array
    that starts there.  Indexing past the end has no defined result. *)
Definition address_of {A} (v : list A) (i : nat) : option (list A) :=
  if (i <? length v)%nat then Some (skipn i v) else None.

(** [{ &v[0], &v[1], &v[2] }]. *)
Definition accelerationBuildStructureRangeInfos {A} (v : list A)
  : option (list (list A)) :=
  match address_of v 0, address_of v 1, address_of v 2 with
  | Some p0, Some p1, Some p2 => Some [p0; p1; p2]
  | _, _, _ => None
  end.

Definition createBottomLevelAccelerationStructure : M unit :=
  s <- get ;;
  let n := objectCount s in
  let indexCount := u32 (Z.of_nat (length indices)) in
  b <- VK_CHECK_RESULT (createBuffer B_transformBuffer
         (n * sizeof_VkTransformMatrixKHR) (D_transforms (transformMatrices n))) ;;
  modify (set_transformBuffer b) ;;
  b <- VK_CHECK_RESULT (createBuffer B_vertexBuffer
         (Z.of_nat (length vertices) * sizeof_Vertex) (D_vertices vertices)) ;;
  modify (set_vertexBuffer b) ;;
  b <- VK_CHECK_RESULT (createBuffer B_indexBuffer
         (Z.of_nat (length indices) * sizeof_uint32_t) (D_indices indices)) ;;
  modify (set_indexBuffer b) ;;
  s <- get ;;
  vertexBufferDeviceAddress <- getBufferDeviceAddress (buf_buffer (vertexBuffer s)) ;;
  indexBufferDeviceAddress <- getBufferDeviceAddress (buf_buffer (indexBuffer s)) ;;
  transformBufferDeviceAddress <- getBufferDeviceAddress (buf_buffer (transformBuffer s)) ;;
  let numTriangles := 1 in
  let geometries := accelerationStructureGeometries n vertexBufferDeviceAddress
                      indexBufferDeviceAddress transformBufferDeviceAddress in
  let accelerationStructureBuildGeometryInfo :=
    {| bi_type := VK_ACCELERATION_STRUCTURE_TYPE_BOTTOM_LEVEL_KHR;
       dstAccelerationStructure := 0;
       geometryCount := u32 (Z.of_nat (length geometries));
       pGeometries := geometries;
       scratchData := 0 |} in
  accelerationStructureBuildSizesInfo <-
    vkGetAccelerationStructureBuildSizesKHR accelerationStructureBuildGeometryInfo
      (geometryCounts n) ;;
  blas <- createAccelerationStructure VK_ACCELERATION_STRUCTURE_TYPE_BOTTOM_LEVEL_KHR
            accelerationStructureBuildSizesInfo ;;
  modify (set_bottomLevelAS blas) ;;
  scratchBuffer <- createScratchBuffer (buildScratchSize accelerationStructureBuildSizesInfo) ;;
  s <- get ;;
  let accelerationBuildGeometryInfo :=
    {| bi_type := VK_ACCELERATION_STRUCTURE_TYPE_BOTTOM_LEVEL_KHR;
       dstAccelerationStructure := as_handle (bottomLevelAS s);
       geometryCount := u32 (Z.of_nat (length geometries));
       pGeometries := geometries;
       scratchData := scratch_deviceAddress scratchBuffer |} in
  match accelerationBuildStructureRangeInfos
          (accelerationStructureBuildRangeInfos n numTriangles) with
  | None => fault
  | Some rangeInfos =>
      (if accelerationStructureHostCommands (base s)
       then
         vkBuildAccelerationStructuresKHR 1 accelerationBuildGeometryInfo rangeInfos ;;
         ret tt
       else
         commandBuffer <- createCommandBuffer ;;
         vkCmdBuildAccelerationStructuresKHR commandBuffer 1
           accelerationBuildGeometryInfo rangeInfos ;;
         flushCommandBuffer commandBuffer) ;;
      deleteScratchBuffer scratchBuffer
  end.

(* ================================================================== *)
(** ** createTopLevelAccelerationStructure *)

Definition identityTransformMatrix : VkTransformMatrixKHR :=
  [ [f1; f0; f0; f0]; [f0; f1; f0; f0]; [f0; f0; f1; f0] ].

Definition createTopLevelAccelerationStructure : M unit :=
  s <- get ;;
  let transformMatrix := identityTransformMatrix in
  let instance :=
    {| inst_transform := transformMatrix;
       instanceCustomIndex := 0;
       inst_mask := 255;
       instanceShaderBindingTableRecordOffset := 0;
       accelerationStructureReference := as_deviceAddress (bottomLevelAS s) |} in
  instancesBuffer <- VK_CHECK_RESULT (createBuffer B_instancesBuffer
         sizeof_VkAccelerationStructureInstanceKHR (D_instance instance)) ;;
  instanceDataDeviceAddress <- getBufferDeviceAddress (buf_buffer instancesBuffer) ;;
  let accelerationStructureGeometry :=
    {| geometryType := VK_GEOMETRY_TYPE_INSTANCES_KHR;
       geom_opaque := true;
       vertexData := 0; maxVertex := 0; vertexStride := 0;
       indexData := 0; transformData := 0;
       instancesData := instanceDataDeviceAddress |} in
  let accelerationStructureBuildGeometryInfo :=
    {| bi_type := VK_ACCELERATION_STRUCTURE_TYPE_TOP_LEVEL_KHR;
       dstAccelerationStructure := 0;
       geometryCount := 1;
       pGeometries := [accelerationStructureGeometry];
       scratchData := 0 |} in
  let primitive_count := 1 in
  accelerationStructureBuildSizesInfo <-
    vkGetAccelerationStructureBuildSizesKHR accelerationStructureBuildGeometryInfo
      [primitive_count] ;;
  tlas <- createAccelerationStructure VK_ACCELERATION_STRUCTURE_TYPE_TOP_LEVEL_KHR
            accelerationStructureBuildSizesInfo ;;
  modify (set_topLevelAS tlas) ;;
  scratchBuffer <- createScratchBuffer (buildScratchSize accelerationStructureBuildSizesInfo) ;;
  s <- get ;;
  let accelerationBuildGeometryInfo :=
    {| bi_type := VK_ACCELERATION_STRUCTURE_TYPE_TOP_LEVEL_KHR;
       dstAccelerationStructure := as_handle (topLevelAS s);
       geometryCount := 1;
       pGeometries := [accelerationStructureGeometry];
       scratchData := scratch_deviceAddress scratchBuffer |} in
  let accelerationStructureBuildRangeInfo :=
    {| primitiveCount := 1; primitiveOffset := 0;
       firstVertex := 0; transformOffset := 0 |} in
  let rangeInfos := [ [accelerationStructureBuildRangeInfo] ] in
  (if accelerationStructureHostCommands (base s)
   then
     vkBuildAccelerationStructuresKHR 1 accelerationBuildGeometryInfo rangeInfos ;;
     ret tt
   else
     commandBuffer <- createCommandBuffer ;;
     vkCmdBuildAccelerationStructuresKHR commandBuffer 1
       accelerationBuildGeometryInfo rangeInfos ;;
     flushCommandBuffer commandBuffer) ;;
  deleteScratchBuffer scratchBuffer ;;
  Buffer_destroy instancesBuffer.

(* ================================================================== *)
(** ** createShaderBindingTables *)

(** Modelled from the spec: [vks::tools::alignedSize] is a framework
    helper outside the source file.  The handle size is "rounded up to"
    the handle alignment: the least multiple of [alignment] that is not
    below [value], in [uint32_t]. *)
Definition alignedSize (value alignment : Z) : Z :=
  u32 ((value + alignment - 1) / alignment * alignment).

(** The driver fills the caller's storage with at most [dataSize] bytes of
    shader group handles. *)
Definition vkGetRayTracingShaderGroupHandlesKHR
    (pipeline_ firstGroup groupCount dataSize : Z) (pData : list Z)
  : M (VkResult * list Z) :=
  a <- api (C_vkGetRayTracingShaderGroupHandlesKHR pipeline_ firstGroup groupCount dataSize) ;;
  h <- ask ;;
  ret (a 0%nat,
       write_prefix pData (firstn (Nat.min (Z.to_nat dataSize) (length pData))
                                  (shaderGroupHandles h))).

(** Modelled from the spec: [createShaderBindingTable] is a framework
    function outside the source file.  It creates a table "sized for"
    [handleCount] entries of [shaderGroupHandleSize] bytes (a [uint32_t]
    product) and maps it. *)
Definition createShaderBindingTable (table : SbtName) (handleCount : Z) : M Buffer :=
  a <- api (C_createShaderBindingTable table handleCount) ;;
  s <- get ;;
  m <- alloc (MBytes (repeat 0
         (Z.to_nat (u32 (shaderGroupHandleSize (base s) * handleCount))))) ;;
  ret (mkBuffer (a 1%nat) (Some m) (Some m)).

Definition set_raygen (b : Buffer) (s : VulkanExample) : VulkanExample :=
  let t := shaderBindingTables s in
  set_shaderBindingTables (mkSBTs b (miss t) (hit t) (callable t)) s.
Definition set_miss (b : Buffer) (s : VulkanExample) : VulkanExample :=
  let t := shaderBindingTables s in
  set_shaderBindingTables (mkSBTs (raygen t) b (hit t) (callable t)) s.
Definition set_hit (b : Buffer) (s : VulkanExample) : VulkanExample :=
  let t := shaderBindingTables s in
  set_shaderBindingTables (mkSBTs (raygen t) (miss t) b (callable t)) s.
Definition set_callable (b : Buffer) (s : VulkanExample) : VulkanExample :=
  let t := shaderBindingTables s in
  set_shaderBindingTables (mkSBTs (raygen t) (miss t) (hit t) b) s.

Definition createShaderBindingTables : M unit :=
  s <- get ;;
  let handleSize := shaderGroupHandleSize (base s) in
  let handleSizeAligned :=
    alignedSize (shaderGroupHandleSize (base s)) (shaderGroupHandleAlignment (base s)) in
  let groupCount := u32 (Z.of_nat (length (shaderGroups s))) in
  let sbtSize := u32 (groupCount * handleSizeAligned) in
  shaderHandleStorage <- VK_CHECK_RESULT (vkGetRayTracingShaderGroupHandlesKHR
         (pipeline s) 0 groupCount sbtSize (repeat 0 (Z.to_nat sbtSize))) ;;
  t <- createShaderBindingTable SBT_raygen 1 ;; modify (set_raygen t) ;;
  t <- createShaderBindingTable SBT_miss 1 ;; modify (set_miss t) ;;
  t <- createShaderBindingTable SBT_hit 1 ;; modify (set_hit t) ;;
  t <- createShaderBindingTable SBT_callable (objectCount s) ;; modify (set_callable t) ;;
  s <- get ;;
  let tables := shaderBindingTables s in
  memcpy_bytes (buf_mapped (raygen tables)) shaderHandleStorage 0 handleSize ;;
  memcpy_bytes (buf_mapped (miss tables)) shaderHandleStorage handleSizeAligned handleSize ;;
  memcpy_bytes (buf_mapped (hit tables)) shaderHandleStorage
    (u32 (handleSizeAligned * 2)) handleSize ;;
  memcpy_bytes (buf_mapped (callable tables)) shaderHandleStorage
    (u32 (handleSizeAligned * 3)) (u32 (handleSize * 3)).

(* ================================================================== *)
(** ** createDescriptorSets *)

Definition vkCreateDescriptorPool (poolSizes : list (VkDescriptorType * Z)) (maxSets : Z)
  : M (VkResult * Z) :=
  a <- api (C_vkCreateDescriptorPool poolSizes maxSets) ;; ret (a 0%nat, a 1%nat).

Definition vkAllocateDescriptorSets (pool layout : Z) : M (VkResult * Z) :=
  a <- api (C_vkAllocateDescriptorSets pool layout) ;; ret (a 0%nat, a 1%nat).

Definition vkUpdateDescriptorSets (writes : list VkWriteDescriptorSet) : M unit :=
  api (C_vkUpdateDescriptorSets writes) ;; ret tt.

Definition set_base_descriptorPool (v : Z) (s : VulkanExample) : VulkanExample :=
  set_base (set_descriptorPool v (base s)) s.

(** [for (FrameObjects& frame : frameObjects)]: the body works on the
    element in place. *)
Definition set_frame (i : nat) (f : FrameObjects) (s : VulkanExample) : VulkanExample :=
  set_frameObjects (set_nth (frameObjects s) i f) s.

Definition for_frames (body : nat -> FrameObjects -> M unit) : M unit :=
  s <- get ;;
  for_each (seq 0 (length (frameObjects s))) (fun i =>
    s <- get ;;
    match nth_error (frameObjects s) i with
    | Some frame => body i frame
    | None => fault
    end).

(** The body of the loop over the frames in createDescriptorSets. *)
Definition allocateFrameDescriptorSet (i : nat) (frame : FrameObjects) : M unit :=
  s <- get ;;
  set <- VK_CHECK_RESULT (vkAllocateDescriptorSets (descriptorPool (base s))
           (descriptorSetLayout s)) ;;
  modify (set_frame i (mkFrame (commandBuffer frame) (renderCompleteFence frame)
                         (ubo frame) (storageImage frame) set)) ;;
  let accelerationStructureWrite :=
    mkWrite set VK_DESCRIPTOR_TYPE_ACCELERATION_STRUCTURE_KHR 0
            (as_handle (topLevelAS s)) in
  let writeDescriptorSets :=
    [ accelerationStructureWrite;
      mkWrite set VK_DESCRIPTOR_TYPE_STORAGE_IMAGE 1 (storageImage frame);
      mkWrite set VK_DESCRIPTOR_TYPE_UNIFORM_BUFFER 2 (buf_buffer (ubo frame));
      mkWrite set VK_DESCRIPTOR_TYPE_STORAGE_BUFFER 3 (buf_buffer (vertexBuffer s));
      mkWrite set VK_DESCRIPTOR_TYPE_STORAGE_BUFFER 4 (buf_buffer (indexBuffer s)) ] in
  vkUpdateDescriptorSets writeDescriptorSets.

Definition createDescriptorSets : M unit :=
  s <- get ;;
  let frameCount := u32 (Z.of_nat (length (frameObjects s))) in
  let poolSizes :=
    [ (VK_DESCRIPTOR_TYPE_ACCELERATION_STRUCTURE_KHR, u32 (1 * frameCount));
      (VK_DESCRIPTOR_TYPE_STORAGE_IMAGE, u32 (1 * frameCount));
      (VK_DESCRIPTOR_TYPE_UNIFORM_BUFFER, u32 (1 * frameCount));
      (VK_DESCRIPTOR_TYPE_STORAGE_BUFFER, u32 (2 * frameCount)) ] in
  pool <- VK_CHECK_RESULT (vkCreateDescriptorPool poolSizes frameCount) ;;
  modify (set_base_descriptorPool pool) ;;
  for_frames allocateFrameDescriptorSet.

(* ================================================================== *)
(** ** createRayTracingPipeline *)

Record VkPipelineShaderStageCreateInfo := mkStage {
  pss_stage : VkShaderStageFlagBits;
  pss_module : Z
}.

Definition vkCreateDescriptorSetLayout (bindings : list (VkDescriptorType * Z))
  : M (VkResult * Z) :=
  a <- api (C_vkCreateDescriptorSetLayout bindings) ;; ret (a 0%nat, a 1%nat).

Definition vkCreatePipelineLayout (setLayout : Z) : M (VkResult * Z) :=
  a <- api (C_vkCreatePipelineLayout setLayout) ;; ret (a 0%nat, a 1%nat).

Definition loadShader (fileName : string) (stage : VkShaderStageFlagBits)
  : M VkPipelineShaderStageCreateInfo :=
  a <- api (C_loadShader fileName stage) ;; ret (mkStage stage (a 1%nat)).

Definition vkCreateRayTracingPipelinesKHR (stageCount groupCount : Z)
    (groups : list VkRayTracingShaderGroupCreateInfoKHR) (layout : Z)
  : M (VkResult * Z) :=
  a <- api (C_vkCreateRayTracingPipelinesKHR stageCount groupCount groups layout) ;;
  ret (a 0%nat, a 1%nat).

(** [shaderGroups.push_back(shaderGroup)] on the member vector. *)
Definition push_shaderGroup (g : VkRayTracingShaderGroupCreateInfoKHR) : M unit :=
  modify (fun s => set_shaderGroups (shaderGroups s ++ [g]) s).

(** [static_cast<uint32_t>(shaderStages.size()) - 1]: the index of the
    stage pushed last. *)
Definition lastStage (shaderStages : list VkPipelineShaderStageCreateInfo) : Z :=
  u32 (u32 (Z.of_nat (length shaderStages)) - 1).

(** A general group (raygen, miss, callable) and a triangles hit group. *)
Definition generalGroup (shader : Z) : VkRayTracingShaderGroupCreateInfoKHR :=
  {| sg_type := VK_RAY_TRACING_SHADER_GROUP_TYPE_GENERAL_KHR;
     generalShader := shader;
     closestHitShader := VK_SHADER_UNUSED_KHR;
     anyHitShader := VK_SHADER_UNUSED_KHR;
     intersectionShader := VK_SHADER_UNUSED_KHR |}.

Definition closestHitGroup (shader : Z) : VkRayTracingShaderGroupCreateInfoKHR :=
  {| sg_type := VK_RAY_TRACING_SHADER_GROUP_TYPE_TRIANGLES_HIT_GROUP_KHR;
     generalShader := VK_SHADER_UNUSED_KHR;
     closestHitShader := shader;
     anyHitShader := VK_SHADER_UNUSED_KHR;
     intersectionShader := VK_SHADER_UNUSED_KHR |}.

(** A loop that carries a local variable. *)
Fixpoint fold_each {A S} (xs : list A) (acc : S) (body : S -> A -> M S) : M S :=
  match xs with
  | [] => ret acc
  | x :: xs' => acc' <- body acc x ;; fold_each xs' acc' body
  end.

Definition setLayoutBindings : list (VkDescriptorType * Z) :=
  [ (VK_DESCRIPTOR_TYPE_ACCELERATION_STRUCTURE_KHR, 0);
    (VK_DESCRIPTOR_TYPE_STORAGE_IMAGE, 1);
    (VK_DESCRIPTOR_TYPE_UNIFORM_BUFFER, 2);
    (VK_DESCRIPTOR_TYPE_STORAGE_BUFFER, 3);
    (VK_DESCRIPTOR_TYPE_STORAGE_BUFFER, 4) ].

(** The file name of the callable shader of loop index [i]; [i + 1] is
    [uint32_t] arithmetic. *)
Definition callableShaderFile (shadersPath : string) (i : Z) : string :=
  shadersPath +++ "raytracingcallable/callable" +++ to_string (u32 (i + 1))
              +++ ".rcall.spv".

(** The body of the loop over the callable shaders. *)
Definition pushCallableShaderGroup (shadersPath : string)
    (shaderStages : list VkPipelineShaderStageCreateInfo) (i : Z)
  : M (list VkPipelineShaderStageCreateInfo) :=
  stage <- loadShader (callableShaderFile shadersPath i)
             VK_SHADER_STAGE_CALLABLE_BIT_KHR ;;
  let shaderStages := shaderStages ++ [stage] in
  push_shaderGroup (generalGroup (lastStage shaderStages)) ;;
  ret shaderStages.

Definition createRayTracingPipeline : M unit :=
  h <- ask ;;
  layout <- VK_CHECK_RESULT (vkCreateDescriptorSetLayout setLayoutBindings) ;;
  modify (set_descriptorSetLayout layout) ;;
  s <- get ;;
  layout <- VK_CHECK_RESULT (vkCreatePipelineLayout (descriptorSetLayout s)) ;;
  modify (set_pipelineLayout layout) ;;
  let shaderStages : list VkPipelineShaderStageCreateInfo := [] in
  (* Ray generation shader group *)
  stage <- loadShader (getShadersPath h +++ "raytracingcallable/raygen.rgen.spv")
             VK_SHADER_STAGE_RAYGEN_BIT_KHR ;;
  let shaderStages := shaderStages ++ [stage] in
  push_shaderGroup (generalGroup (lastStage shaderStages)) ;;
  (* Miss shader group *)
  stage <- loadShader (getShadersPath h +++ "raytracingcallable/miss.rmiss.spv")
             VK_SHADER_STAGE_MISS_BIT_KHR ;;
  let shaderStages := shaderStages ++ [stage] in
  push_shaderGroup (generalGroup (lastStage shaderStages)) ;;
  (* Closest hit shader group *)
  stage <- loadShader (getShadersPath h +++ "raytracingcallable/closesthit.rchit.spv")
             VK_SHADER_STAGE_CLOSEST_HIT_BIT_KHR ;;
  let shaderStages := shaderStages ++ [stage] in
  push_shaderGroup (closestHitGroup (lastStage shaderStages)) ;;
  (* Callable shader groups *)
  s <- get ;;
  shaderStages <- fold_each (range_u32 (objectCount s)) shaderStages
                    (pushCallableShaderGroup (getShadersPath h)) ;;
  s <- get ;;
  p <- VK_CHECK_RESULT (vkCreateRayTracingPipelinesKHR
         (u32 (Z.of_nat (length shaderStages)))
         (u32 (Z.of_nat (length (shaderGroups s))))
         (shaderGroups s) (pipelineLayout s)) ;;
  modify (set_pipeline p).

(* ================================================================== *)
(** ** prepare *)

Definition createFrameObjects (frame : FrameObjects) : M FrameObjects :=
  a <- api C_createFrameObjects ;;
  ret (mkFrame (a 1%nat) (a 2%nat) (ubo frame) (storageImage frame) (descriptorSet frame)).

Definition createStorageImage (w h : Z) : M Z :=
  a <- api (C_createStorageImage w h) ;; ret (a 1%nat).

Definition buildCommandBuffers : M unit := api C_buildCommandBuffers ;; ret tt.

(** A value-initialised [FrameObjects], as [std::vector::resize] adds. *)
Definition emptyBuffer : Buffer := mkBuffer 0 None None.
Definition emptyFrame : FrameObjects := mkFrame 0 0 emptyBuffer 0 0.

Definition resize {A} (v : list A) (n : nat) (d : A) : list A :=
  firstn n v ++ repeat d (n - length v).

Definition set_base_prepared (v : bool) (s : VulkanExample) : VulkanExample :=
  set_base (set_prepared v (base s)) s.

Definition set_frame_ubo (b : Buffer) (f : FrameObjects) : FrameObjects :=
  mkFrame (commandBuffer f) (renderCompleteFence f) b (storageImage f) (descriptorSet f).

Definition set_frame_storageImage (img : Z) (f : FrameObjects) : FrameObjects :=
  mkFrame (commandBuffer f) (renderCompleteFence f) (ubo f) img (descriptorSet f).

(** The body of the loop over the frames in prepare. *)
Definition prepareFrameResources (i : nat) (frame : FrameObjects) : M unit :=
  frame <- createFrameObjects frame ;;
  modify (set_frame i frame) ;;
  s <- get ;;
  img <- createStorageImage (width (base s)) (height (base s)) ;;
  let frame := set_frame_storageImage img frame in
  modify (set_frame i frame) ;;
  b <- VK_CHECK_RESULT (createBuffer (B_ubo i) sizeof_uniformData
         (D_uniform (uniformData s))) ;;
  let frame := set_frame_ubo b frame in
  modify (set_frame i frame) ;;
  b <- VK_CHECK_RESULT (Buffer_map (ubo frame)) ;;
  modify (set_frame i (set_frame_ubo b frame)).

(** The first block of prepare: the base class and the per-frame
    resources. *)
Definition prepareFrameObjects : M unit :=
  api C_VulkanRaytracingSample_prepare ;;
  s <- get ;;
  modify (set_frameObjects
            (resize (frameObjects s) (Z.to_nat (swapChain_imageCount (base s))) emptyFrame)) ;;
  for_frames prepareFrameResources.

Definition prepare : M unit :=
  prepareFrameObjects ;;
  createBottomLevelAccelerationStructure ;;
  createTopLevelAccelerationStructure ;;
  createRayTracingPipeline ;;
  createShaderBindingTables ;;
  createDescriptorSets ;;
  buildCommandBuffers ;;
  modify (set_base_prepared true).

(* ================================================================== *)
(** ** draw and render *)

Definition vkDeviceWaitIdle : M (VkResult * unit) :=
  a <- api C_vkDeviceWaitIdle ;; ret (a 0%nat, tt).

Definition set_base_currentBuffer (v : Z) (s : VulkanExample) : VulkanExample :=
  set_base (set_currentBuffer v (base s)) s.

(** Modelled from the spec: [prepareFrame] is a method of the base class,
    part of the sample framework (swapchain, frame synchronization)
    outside the source file.  It acquires the next swap chain image; the
    index it leaves in [currentBuffer] is the host's answer. *)
Definition prepareFrame (frame : FrameObjects) : M unit :=
  a <- api C_prepareFrame ;;
  modify (set_base_currentBuffer (u32 (a 1%nat))).

(** Modelled from the spec: [submitFrame] is a method of the base class,
    outside the source file.  It submits the frame's command buffer and
    presents the image; it is one call that leaves the state of the sample
    as it is. *)
Definition submitFrame (frame : FrameObjects) : M unit := api C_submitFrame ;; ret tt.

Definition vkWaitForFences (fenceCount fence timeout : Z) : M (VkResult * unit) :=
  a <- api (C_vkWaitForFences fenceCount fence timeout) ;; ret (a 0%nat, tt).

Definition vkResetFences (fenceCount fence : Z) : M (VkResult * unit) :=
  a <- api (C_vkResetFences fenceCount fence) ;; ret (a 0%nat, tt).

Definition vkBeginCommandBuffer (cb : Z) : M (VkResult * unit) :=
  a <- api (C_vkBeginCommandBuffer cb) ;; ret (a 0%nat, tt).

Definition vkEndCommandBuffer (cb : Z) : M (VkResult * unit) :=
  a <- api (C_vkEndCommandBuffer cb) ;; ret (a 0%nat, tt).

Definition vkCmdBindPipeline (cb pipeline_ : Z) : M unit :=
  api (C_vkCmdBindPipeline cb pipeline_) ;; ret tt.

Definition vkCmdBindDescriptorSets (cb layout set : Z) : M unit :=
  api (C_vkCmdBindDescriptorSets cb layout set) ;; ret tt.

Definition vkCmdTraceRaysKHR (cb rg ms ht cl w h d : Z) : M unit :=
  api (C_vkCmdTraceRaysKHR cb rg ms ht cl w h d) ;; ret tt.

Definition setImageLayout (cb image : Z) (oldLayout newLayout : VkImageLayout) : M unit :=
  api (C_setImageLayout cb image oldLayout newLayout) ;; ret tt.

Definition vkCmdCopyImage (cb src dst w h : Z) : M unit :=
  api (C_vkCmdCopyImage cb src dst w h) ;; ret tt.

Definition set_projInverse (m : mat4) (s : VulkanExample) : VulkanExample :=
  set_uniformData (mkUniformData (viewInverse (uniformData s)) m) s.

Definition set_viewInverse (m : mat4) (s : VulkanExample) : VulkanExample :=
  set_uniformData (mkUniformData m (projInverse (uniformData s))) s.

(** The body of the loop over the frames after a resize. *)
Definition recreateStorageImage (i : nat) (frame : FrameObjects) : M unit :=
  s <- get ;;
  img <- createStorageImage (width (base s)) (height (base s)) ;;
  let frame := set_frame_storageImage img frame in
  modify (set_frame i frame) ;;
  let resultImageWrite :=
    mkWrite (descriptorSet frame) VK_DESCRIPTOR_TYPE_STORAGE_IMAGE 1
            (storageImage frame) in
  vkUpdateDescriptorSets [resultImageWrite].

Definition draw : M unit :=
  s <- get ;;
  (if resized (base s)
   then
     vkDeviceWaitIdle ;;
     for_frames recreateStorageImage
   else ret tt) ;;
  s <- get ;;
  match nth_error (frameObjects s) (Z.to_nat (currentBuffer (base s))) with
  | None => fault
  | Some currentFrame =>
      prepareFrame currentFrame ;;
      VK_CHECK_RESULT (vkWaitForFences 1 (renderCompleteFence currentFrame) UINT64_MAX) ;;
      VK_CHECK_RESULT (vkResetFences 1 (renderCompleteFence currentFrame)) ;;
      s <- get ;;
      (if negb (paused (base s)) || cam_updated (camera (base s))
       then
         h <- ask ;;
         modify (set_projInverse (glm_inverse h (cam_perspective (camera (base s))))) ;;
         modify (set_viewInverse (glm_inverse h (cam_view (camera (base s))))) ;;
         s <- get ;;
         memcpy_uniform (buf_mapped (ubo currentFrame)) (uniformData s)
       else ret tt) ;;
      s <- get ;;
      let commandBuffer := commandBuffer currentFrame in
      match nth_error (swapChain_images (base s)) (Z.to_nat (currentBuffer (base s))) with
      | None => fault
      | Some swapChainImage =>
          VK_CHECK_RESULT (vkBeginCommandBuffer commandBuffer) ;;
          vkCmdBindPipeline commandBuffer (pipeline s) ;;
          vkCmdBindDescriptorSets commandBuffer (pipelineLayout s)
            (descriptorSet currentFrame) ;;
          let tables := shaderBindingTables s in
          vkCmdTraceRaysKHR commandBuffer
            (buf_buffer (raygen tables)) (buf_buffer (miss tables))
            (buf_buffer (hit tables)) (buf_buffer (callable tables))
            (width (base s)) (height (base s)) 1 ;;
          setImageLayout commandBuffer swapChainImage
            VK_IMAGE_LAYOUT_UNDEFINED VK_IMAGE_LAYOUT_TRANSFER_DST_OPTIMAL ;;
          setImageLayout commandBuffer (storageImage currentFrame)
            VK_IMAGE_LAYOUT_GENERAL VK_IMAGE_LAYOUT_TRANSFER_SRC_OPTIMAL ;;
          vkCmdCopyImage commandBuffer (storageImage currentFrame) swapChainImage
            (width (base s)) (height (base s)) ;;
          setImageLayout commandBuffer swapChainImage
            VK_IMAGE_LAYOUT_TRANSFER_DST_OPTIMAL VK_IMAGE_LAYOUT_PRESENT_SRC_KHR ;;
          setImageLayout commandBuffer (storageImage currentFrame)
            VK_IMAGE_LAYOUT_TRANSFER_SRC_OPTIMAL VK_IMAGE_LAYOUT_GENERAL ;;
          VK_CHECK_RESULT (vkEndCommandBuffer commandBuffer) ;;
          submitFrame currentFrame
      end
  end.

Definition render : M unit :=
  s <- get ;;
  if prepared (base s) then draw else ret tt.

(* ================================================================== *)
(** ** Reading a run *)

Definition completed {A} (r : Result A) : bool :=
  match outcome r with Done _ => true | _ => false end.

Definition aborted {A} (r : Result A) : bool :=
  match outcome r with Abort => true | _ => false end.

Definition faulted {A} (r : Result A) : bool :=
  match outcome r with Fault => true | _ => false end.

Definition calls {A} (r : Result A) : list Call := map ev_call (events r).

(** The name of the function a call invokes. *)
Definition callee (c : Call) : string :=
  match c with
  | C_createBuffer _ _ _ => "createBuffer"
  | C_getBufferDeviceAddress _ => "getBufferDeviceAddress"
  | C_vkGetAccelerationStructureBuildSizesKHR _ _ => "vkGetAccelerationStructureBuildSizesKHR"
  | C_createAccelerationStructure _ => "createAccelerationStructure"
  | C_createScratchBuffer _ => "createScratchBuffer"
  | C_vkBuildAccelerationStructuresKHR _ _ _ => "vkBuildAccelerationStructuresKHR"
  | C_createCommandBuffer => "createCommandBuffer"
  | C_vkCmdBuildAccelerationStructuresKHR _ _ _ _ => "vkCmdBuildAccelerationStructuresKHR"
  | C_flushCommandBuffer _ => "flushCommandBuffer"
  | C_deleteScratchBuffer => "deleteScratchBuffer"
  | C_Buffer_destroy _ => "Buffer::destroy"
  | C_Buffer_map _ => "Buffer::map"
  | C_vkGetRayTracingShaderGroupHandlesKHR _ _ _ _ => "vkGetRayTracingShaderGroupHandlesKHR"
  | C_createShaderBindingTable _ _ => "createShaderBindingTable"
  | C_vkCreateDescriptorPool _ _ => "vkCreateDescriptorPool"
  | C_vkAllocateDescriptorSets _ _ => "vkAllocateDescriptorSets"
  | C_vkUpdateDescriptorSets _ => "vkUpdateDescriptorSets"
  | C_vkCreateDescriptorSetLayout _ => "vkCreateDescriptorSetLayout"
  | C_vkCreatePipelineLayout _ => "vkCreatePipelineLayout"
  | C_loadShader _ _ => "loadShader"
  | C_vkCreateRayTracingPipelinesKHR _ _ _ _ => "vkCreateRayTracingPipelinesKHR"
  | C_VulkanRaytracingSample_prepare => "VulkanRaytracingSample::prepare"
  | C_createFrameObjects => "createFrameObjects"
  | C_createStorageImage _ _ => "createStorageImage"
  | C_buildCommandBuffers => "buildCommandBuffers"
  | C_vkDeviceWaitIdle => "vkDeviceWaitIdle"
  | C_prepareFrame => "prepareFrame"
  | C_vkWaitForFences _ _ _ => "vkWaitForFences"
  | C_vkResetFences _ _ => "vkResetFences"
  | C_vkBeginCommandBuffer _ => "vkBeginCommandBuffer"
  | C_vkCmdBindPipeline _ _ => "vkCmdBindPipeline"
  | C_vkCmdBindDescriptorSets _ _ _ => "vkCmdBindDescriptorSets"
  | C_vkCmdTraceRaysKHR _ _ _ _ _ _ _ _ => "vkCmdTraceRaysKHR"
  | C_setImageLayout _ _ _ _ => "setImageLayout"
  | C_vkCmdCopyImage _ _ _ _ _ => "vkCmdCopyImage"
  | C_vkEndCommandBuffer _ => "vkEndCommandBuffer"
  | C_submitFrame => "submitFrame"
  end.

Definition callees {A} (r : Result A) : list string := map callee (calls r).

(* ================================================================== *)
(** ** A concrete machine, used to run the model *)

(** The sample as its constructor and the framework leave it before
    [prepare]: three objects, no shader groups yet, a swap chain of three
    images, 32 byte shader group handles aligned to 64 bytes. *)
Definition exampleBase : VulkanExampleBase :=
  {| prepared := false; resized := false; paused := false;
     camera := mkCamera false (repeat f1 16) (repeat f1 16);
     currentBuffer := 0;
     swapChain_imageCount := 3;
     swapChain_images := [501; 502; 503];
     width := 1280; height := 720;
     descriptorPool := 0;
     accelerationStructureHostCommands := false;
     shaderGroupHandleSize := 32;
     shaderGroupHandleAlignment := 64 |}.

Definition exampleApp : VulkanExample :=
  {| base := exampleBase;
     bottomLevelAS := mkAS 0 0; topLevelAS := mkAS 0 0;
     shaderGroups := [];
     shaderBindingTables := mkSBTs emptyBuffer emptyBuffer emptyBuffer emptyBuffer;
     uniformData := mkUniformData (repeat f0 16) (repeat f0 16);
     frameObjects := [];
     pipeline := 0; pipelineLayout := 0; descriptorSetLayout := 0;
     vertexBuffer := emptyBuffer; indexBuffer := emptyBuffer;
     transformBuffer := emptyBuffer;
     objectCount := 3 |}.

Definition exampleWorld : World := mkWorld 0 exampleApp [].

(** A host on which every call succeeds; the outputs of call [k] are
    distinct numbers, and the driver's handle bytes count upwards. *)
Definition okHost : Host :=
  {| answer := fun k j =>
       match j with O => VK_SUCCESS | _ => 1000 + 10 * Z.of_nat k + Z.of_nat j end;
     shaderGroupHandles := map Z.of_nat (seq 1 200);
     glm_inverse := fun m => rev m;
     getShadersPath := "shaders/glsl/" |}.


(* ================================================================== *)
(** ** Observations on runs and states used in the statements *)

Unset Implicit Arguments.

(** The integer a float denotes, when it is one. *)
Definition f32_exact_Z (x : float32) : option Z :=
  match x with
  | S754_zero _ => Some 0
  | S754_finite s m e =>
      let v := if s then - Z.pos m else Z.pos m in
      if 0 <=? e then Some (v * 2 ^ e)
      else if (Z.pos m mod 2 ^ (- e) =? 0) then Some (v / 2 ^ (- e))
      else None
  | _ => None
  end.

(** A transform that only translates along x by [tx]. *)
Definition xTranslation (tx : float32) : VkTransformMatrixKHR :=
  [ [f1; f0; f0; tx]; [f0; f1; f0; f0]; [f0; f0; f1; f0] ].

(** The shader files a run loads, in order. *)
Definition loadedShaders {A} (r : Result A) : list string :=
  flat_map (fun c => match c with C_loadShader f _ => [f] | _ => [] end) (calls r).

(** The example machine with host builds of acceleration structures. *)
Definition with_hostCommands (v : bool) (w : World) : World :=
  let b := base (app w) in
  mkWorld (tick w)
    (set_base
       {| prepared := prepared b; resized := resized b; paused := paused b;
          camera := camera b; currentBuffer := currentBuffer b;
          swapChain_imageCount := swapChain_imageCount b;
          swapChain_images := swapChain_images b;
          width := width b; height := height b;
          descriptorPool := descriptorPool b;
          accelerationStructureHostCommands := v;
          shaderGroupHandleSize := shaderGroupHandleSize b;
          shaderGroupHandleAlignment := shaderGroupHandleAlignment b |} (app w))
    (heap w).

Definition hostBuildWorld : World := with_hostCommands true exampleWorld.

(** A host whose tenth call fails with [VK_ERROR_OUT_OF_HOST_MEMORY] and
    whose other calls succeed. *)
Definition failingBuildHost : Host :=
  {| answer := fun k j =>
       match j with
       | O => if (k =? 9)%nat then VK_ERROR_OUT_OF_HOST_MEMORY else VK_SUCCESS
       | _ => 1000 + 10 * Z.of_nat k + Z.of_nat j
       end;
     shaderGroupHandles := shaderGroupHandles okHost;
     glm_inverse := glm_inverse okHost;
     getShadersPath := getShadersPath okHost |}.

(** An event of a [VkResult] function that did not return [VK_SUCCESS]. *)
Definition failedCall (e : Event) : bool :=
  returnsVkResult (ev_call e) && negb (ev_result e =? VK_SUCCESS).

(** The callable groups the pipeline loop pushes when it starts with
    [stagesBefore] stages and runs [count] times. *)
Definition callableGroups (stagesBefore count : nat)
  : list VkRayTracingShaderGroupCreateInfoKHR :=
  map (fun k => generalGroup (u32 (u32 (Z.of_nat (stagesBefore + S k)) - 1)))
      (seq 0 count).

Definition callableLoads (shadersPath : string) (xs : list Z) : list Call :=
  map (fun i => C_loadShader (callableShaderFile shadersPath i)
                             VK_SHADER_STAGE_CALLABLE_BIT_KHR) xs.

(** The arguments createBottomLevelAccelerationStructure builds for its
    calls when it starts in world [w] on host [h]: the host answers the
    [k]-th call of the function at index [k + tick w]. *)
Definition blasGeometries (h : Host) (w : World)
  : list VkAccelerationStructureGeometryKHR :=
  accelerationStructureGeometries (objectCount (app w))
    (answer h (3 + tick w)%nat 1%nat)
    (answer h (4 + tick w)%nat 1%nat)
    (answer h (5 + tick w)%nat 1%nat).

Definition blasSizesInfo (h : Host) (w : World)
  : VkAccelerationStructureBuildGeometryInfoKHR :=
  {| bi_type := VK_ACCELERATION_STRUCTURE_TYPE_BOTTOM_LEVEL_KHR;
     dstAccelerationStructure := 0;
     geometryCount := u32 (Z.of_nat (length (blasGeometries h w)));
     pGeometries := blasGeometries h w;
     scratchData := 0 |}.

Definition blasBuildInfo (h : Host) (w : World)
  : VkAccelerationStructureBuildGeometryInfoKHR :=
  {| bi_type := VK_ACCELERATION_STRUCTURE_TYPE_BOTTOM_LEVEL_KHR;
     dstAccelerationStructure := answer h (7 + tick w)%nat 1%nat;
     geometryCount := u32 (Z.of_nat (length (blasGeometries h w)));
     pGeometries := blasGeometries h w;
     scratchData := answer h (8 + tick w)%nat 1%nat |}.

Definition blasRanges (w : World)
  : list (list VkAccelerationStructureBuildRangeInfoKHR) :=
  let v := accelerationStructureBuildRangeInfos (objectCount (app w)) 1 in
  [v; skipn 1 v; skipn 2 v].

(** The build step of both acceleration structures: on the host, or
    recorded into a command buffer and flushed. *)
Definition buildCalls (hostCommands : bool) (cb : Z)
    (info : VkAccelerationStructureBuildGeometryInfoKHR)
    (ranges : list (list VkAccelerationStructureBuildRangeInfoKHR)) : list Call :=
  if hostCommands
  then [ C_vkBuildAccelerationStructuresKHR 1 info ranges ]
  else [ C_createCommandBuffer;
         C_vkCmdBuildAccelerationStructuresKHR cb 1 info ranges;
         C_flushCommandBuffer cb ].

Definition blasCalls (h : Host) (w : World) : list Call :=
  let n := objectCount (app w) in
  [ C_createBuffer B_transformBuffer (n * sizeof_VkTransformMatrixKHR)
      (D_transforms (transformMatrices n));
    C_createBuffer B_vertexBuffer (Z.of_nat (length vertices) * sizeof_Vertex)
      (D_vertices vertices);
    C_createBuffer B_indexBuffer (Z.of_nat (length indices) * sizeof_uint32_t)
      (D_indices indices);
    C_getBufferDeviceAddress (answer h (1 + tick w)%nat 1%nat);
    C_getBufferDeviceAddress (answer h (2 + tick w)%nat 1%nat);
    C_getBufferDeviceAddress (answer h (tick w) 1%nat);
    C_vkGetAccelerationStructureBuildSizesKHR (blasSizesInfo h w)
      (geometryCounts n);
    C_createAccelerationStructure VK_ACCELERATION_STRUCTURE_TYPE_BOTTOM_LEVEL_KHR;
    C_createScratchBuffer (answer h (6 + tick w)%nat 2%nat) ]
  ++ buildCalls (accelerationStructureHostCommands (base (app w)))
       (answer h (9 + tick w)%nat 1%nat) (blasBuildInfo h w) (blasRanges w)
  ++ [ C_deleteScratchBuffer ].

(** The geometry lists handed to acceleration structure builds. *)
Definition builtGeometries {A} (r : Result A)
  : list (list VkAccelerationStructureGeometryKHR) :=
  flat_map (fun c =>
    match c with
    | C_vkBuildAccelerationStructuresKHR _ info _ => [pGeometries info]
    | C_vkCmdBuildAccelerationStructuresKHR _ _ info _ => [pGeometries info]
    | _ => []
    end) (calls r).

(** The handle counts of the callable shader binding tables created. *)
Definition callableTableHandleCounts {A} (r : Result A) : list Z :=
  flat_map (fun c =>
    match c with
    | C_createShaderBindingTable SBT_callable k => [k]
    | _ => []
    end) (calls r).

Definition isTriangles (g : VkAccelerationStructureGeometryKHR) : bool :=
  match geometryType g with
  | VK_GEOMETRY_TYPE_TRIANGLES_KHR => true
  | _ => false
  end.

Definition isGeneralGroup (g : VkRayTracingShaderGroupCreateInfoKHR) : bool :=
  match sg_type g with
  | VK_RAY_TRACING_SHADER_GROUP_TYPE_GENERAL_KHR => true
  | _ => false
  end.

(** The locals of createShaderBindingTables in world [w]. *)
Definition sbtHandleSize (w : World) : Z := shaderGroupHandleSize (base (app w)).

Definition sbtHandleSizeAligned (w : World) : Z :=
  alignedSize (shaderGroupHandleSize (base (app w)))
              (shaderGroupHandleAlignment (base (app w))).

Definition sbtGroupCount (w : World) : Z :=
  u32 (Z.of_nat (length (shaderGroups (app w)))).

Definition sbtSize (w : World) : Z :=
  u32 (sbtGroupCount w * sbtHandleSizeAligned w).

(** [shaderHandleStorage] after the driver has filled it. *)
Definition shaderHandleStorage (h : Host) (w : World) : list Z :=
  let zeros := repeat 0 (Z.to_nat (sbtSize w)) in
  write_prefix zeros
    (firstn (Nat.min (Z.to_nat (sbtSize w)) (length zeros)) (shaderGroupHandles h)).

(** A shader binding table of [handleCount] entries, as created. *)
Definition freshTable (w : World) (handleCount : Z) : list Z :=
  repeat 0 (Z.to_nat (u32 (sbtHandleSize w * handleCount))).

(** The bytes behind a mapped buffer. *)
Definition tableBytes (w : World) (b : Buffer) : option (list Z) :=
  match buf_mapped b with
  | Some p =>
      match nth_error (heap w) p with
      | Some (MBytes bs) => Some bs
      | _ => None
      end
  | None => None
  end.

(** The bounds test of one [memcpy]: the source range lies inside the
    storage and the length fits the destination. *)
Definition sourceInBounds (src : list Z) (offset len : Z) : bool :=
  offset + len <=? Z.of_nat (length src).

Definition fitsDestination (len : Z) (dst : list Z) : bool :=
  len <=? Z.of_nat (length dst).

Definition copyInBounds (src : list Z) (offset len : Z) (dst : list Z) : bool :=
  sourceInBounds src offset len && fitsDestination len dst.

(** The four copies of createShaderBindingTables, in order. *)
Definition raygenCopyInBounds (h : Host) (w : World) : bool :=
  copyInBounds (shaderHandleStorage h w) 0 (sbtHandleSize w) (freshTable w 1).
Definition missCopyInBounds (h : Host) (w : World) : bool :=
  copyInBounds (shaderHandleStorage h w) (sbtHandleSizeAligned w) (sbtHandleSize w)
    (freshTable w 1).
Definition hitCopyInBounds (h : Host) (w : World) : bool :=
  copyInBounds (shaderHandleStorage h w) (u32 (sbtHandleSizeAligned w * 2))
    (sbtHandleSize w) (freshTable w 1).
Definition callableCopyInBounds (h : Host) (w : World) : bool :=
  copyInBounds (shaderHandleStorage h w) (u32 (sbtHandleSizeAligned w * 3))
    (u32 (sbtHandleSize w * 3)) (freshTable w (objectCount (app w))).

Definition sbtCalls (w : World) : list Call :=
  [ C_vkGetRayTracingShaderGroupHandlesKHR (pipeline (app w)) 0
      (sbtGroupCount w) (sbtSize w);
    C_createShaderBindingTable SBT_raygen 1;
    C_createShaderBindingTable SBT_miss 1;
    C_createShaderBindingTable SBT_hit 1;
    C_createShaderBindingTable SBT_callable (objectCount (app w)) ].

(** The heap cells the four tables occupy once the copies are done. *)
Definition sbtCells (h : Host) (w : World) : list MemVal :=
  let st := shaderHandleStorage h w in
  [ MBytes (write_prefix (freshTable w 1) (slice st 0 (sbtHandleSize w)));
    MBytes (write_prefix (freshTable w 1)
              (slice st (sbtHandleSizeAligned w) (sbtHandleSize w)));
    MBytes (write_prefix (freshTable w 1)
              (slice st (u32 (sbtHandleSizeAligned w * 2)) (sbtHandleSize w)));
    MBytes (write_prefix (freshTable w (objectCount (app w)))
              (slice st (u32 (sbtHandleSizeAligned w * 3))
                        (u32 (sbtHandleSize w * 3)))) ].

Definition sbtTables (h : Host) (w : World) : ShaderBindingTables :=
  let p := length (heap w) in
  mkSBTs
    (mkBuffer (answer h (1 + tick w)%nat 1%nat) (Some p) (Some p))
    (mkBuffer (answer h (2 + tick w)%nat 1%nat) (Some (p + 1)%nat) (Some (p + 1)%nat))
    (mkBuffer (answer h (3 + tick w)%nat 1%nat) (Some (p + 2)%nat) (Some (p + 2)%nat))
    (mkBuffer (answer h (4 + tick w)%nat 1%nat) (Some (p + 3)%nat) (Some (p + 3)%nat)).

(** The machine after createRayTracingPipeline has run on the example. *)
Definition pipelineWorld : World :=
  world (createRayTracingPipeline okHost exampleWorld).

(** One iteration of [for_frames]: the element is read from the vector,
    then the body runs on it. *)
Definition frameBody (body : nat -> FrameObjects -> M unit) (i : nat) : M unit :=
  s <- get ;;
  match nth_error (frameObjects s) i with
  | Some frame => body i frame
  | None => fault
  end.

(** The parts of a frame that recreating its storage image leaves alone. *)
Definition frameCore (f : FrameObjects) : Z * Z * Buffer * Z :=
  (commandBuffer f, renderCompleteFence f, ubo f, descriptorSet f).

(** [w'] differs from [w] at most in the call count and in the storage
    images of the frames. *)
Definition sameButStorageImages (w w' : World) : Prop :=
  exists frames' t',
    w' = mkWorld t' (set_frameObjects frames' (app w)) (heap w)
    /\ map frameCore frames' = map frameCore (frameObjects (app w)).

(** Calls that synchronise a frame: fence waits and resets, the begin and
    end of command buffer recording, and the submission. *)
Definition frameSync (c : Call) : bool :=
  match c with
  | C_vkWaitForFences _ _ _ | C_vkResetFences _ _
  | C_vkBeginCommandBuffer _ | C_vkEndCommandBuffer _ | C_submitFrame => true
  | _ => false
  end.

Definition isFenceWait (c : Call) : bool :=
  match c with C_vkWaitForFences _ _ _ => true | _ => false end.

Definition isSubmit (c : Call) : bool :=
  match c with C_submitFrame => true | _ => false end.

Definition isBegin (c : Call) : bool :=
  match c with C_vkBeginCommandBuffer _ => true | _ => false end.

(** The command buffer a call records into. *)
Definition recordedInto (c : Call) : option Z :=
  match c with
  | C_vkBeginCommandBuffer cb | C_vkCmdBindPipeline cb _
  | C_vkCmdBindDescriptorSets cb _ _ | C_vkCmdTraceRaysKHR cb _ _ _ _ _ _ _
  | C_setImageLayout cb _ _ _ | C_vkCmdCopyImage cb _ _ _ _
  | C_vkEndCommandBuffer cb => Some cb
  | _ => None
  end.

(** A call of the resize loop: it neither synchronises the frame nor
    records into a command buffer. *)
Definition quietCall (e : Event) : Prop :=
  frameSync (ev_call e) = false /\ recordedInto (ev_call e) = None.

(** The frame [draw] works on. *)
Definition currentFrameOf (w : World) : option FrameObjects :=
  nth_error (frameObjects (app w)) (Z.to_nat (currentBuffer (base (app w)))).

(** The machine after prepare has run on the example, and a host on
    which every call succeeds and every output is 0. *)
Definition preparedWorld : World := world (prepare okHost exampleWorld).

Definition zeroHost : Host :=
  {| answer := fun _ _ => 0;
     shaderGroupHandles := [];
     glm_inverse := fun m => rev m;
     getShadersPath := "shaders/glsl/" |}.

(** The prepared machine, paused. *)
Definition pausedWorld : World :=
  let w := preparedWorld in
  let b := base (app w) in
  mkWorld (tick w)
    (set_base
       {| prepared := prepared b; resized := resized b; paused := true;
          camera := camera b; currentBuffer := currentBuffer b;
          swapChain_imageCount := swapChain_imageCount b;
          swapChain_images := swapChain_images b;
          width := width b; height := height b;
          descriptorPool := descriptorPool b;
          accelerationStructureHostCommands := accelerationStructureHostCommands b;
          shaderGroupHandleSize := shaderGroupHandleSize b;
          shaderGroupHandleAlignment := shaderGroupHandleAlignment b |} (app w))
    (heap w).

(** What no setup function touches: the [prepared] flag and
    [objectCount]. *)
Definition stable (w w' : World) : Prop :=
  prepared (base (app w')) = prepared (base (app w))
  /\ objectCount (app w') = objectCount (app w).

(** The acceleration structures are left as they are. *)
Definition sameAS (w w' : World) : Prop :=
  bottomLevelAS (app w') = bottomLevelAS (app w)
  /\ topLevelAS (app w') = topLevelAS (app w).

(** The instance createTopLevelAccelerationStructure uploads. *)
Definition tlasInstance (w : World) : VkAccelerationStructureInstanceKHR :=
  {| inst_transform := identityTransformMatrix;
     instanceCustomIndex := 0;
     inst_mask := 255;
     instanceShaderBindingTableRecordOffset := 0;
     accelerationStructureReference := as_deviceAddress (bottomLevelAS (app w)) |}.

(** A descriptor update whose first write, if any, binds the acceleration
    structure [tlas]. *)
Definition bindsAccelerationStructure (tlas : Z) (e : Event) : Prop :=
  match ev_call e with
  | C_vkUpdateDescriptorSets (wr :: _) =>
      descriptorType wr = VK_DESCRIPTOR_TYPE_ACCELERATION_STRUCTURE_KHR
      /\ dstBinding wr = 0 /\ resource wr = tlas
  | C_vkUpdateDescriptorSets [] => False
  | _ => True
  end.

(** The worlds prepare passes through. *)
Definition afterFrames (h : Host) (w : World) : World :=
  world (prepareFrameObjects h w).
Definition afterBLAS (h : Host) (w : World) : World :=
  world (createBottomLevelAccelerationStructure h (afterFrames h w)).
Definition afterTLAS (h : Host) (w : World) : World :=
  world (createTopLevelAccelerationStructure h (afterBLAS h w)).
Definition afterPipeline (h : Host) (w : World) : World :=
  world (createRayTracingPipeline h (afterTLAS h w)).
Definition afterSBT (h : Host) (w : World) : World :=
  world (createShaderBindingTables h (afterPipeline h w)).
Definition afterDescriptorSets (h : Host) (w : World) : World :=
  world (createDescriptorSets h (afterSBT h w)).

(** The prepared machine after a window resize. *)
Definition resizedWorld : World :=
  let w := preparedWorld in
  let b := base (app w) in
  mkWorld (tick w)
    (set_base
       {| prepared := prepared b; resized := true; paused := paused b;
          camera := camera b; currentBuffer := currentBuffer b;
          swapChain_imageCount := swapChain_imageCount b;
          swapChain_images := swapChain_images b;
          width := width b; height := height b;
          descriptorPool := descriptorPool b;
          accelerationStructureHostCommands := accelerationStructureHostCommands b;
          shaderGroupHandleSize := shaderGroupHandleSize b;
          shaderGroupHandleAlignment := shaderGroupHandleAlignment b |} (app w))
    (heap w).

(** The components of the sample. *)
Inductive Component :=
| FrameResources | BottomLevelAS | TopLevelAS | Pipeline
| BindingTables | DescriptorSets | Frame.

Definition runOf (c : Component) : M unit :=
  match c with
  | FrameResources => prepareFrameObjects
  | BottomLevelAS => createBottomLevelAccelerationStructure
  | TopLevelAS => createTopLevelAccelerationStructure
  | Pipeline => createRayTracingPipeline
  | BindingTables => createShaderBindingTables
  | DescriptorSets => createDescriptorSets
  | Frame => draw
  end.

(** The runtime conditions the call sequences depend on. *)
Record Conditions := mkConditions {
  hostBuild : bool;        (* accelerationStructureHostCommands *)
  windowResized : bool;    (* resized *)
  objects : nat;           (* objectCount *)
  frames : nat;            (* frameObjects.size() *)
  images : nat             (* swapChain.imageCount *)
}.

Definition conditions (w : World) : Conditions :=
  {| hostBuild := accelerationStructureHostCommands (base (app w));
     windowResized := resized (base (app w));
     objects := Z.to_nat (objectCount (app w));
     frames := length (frameObjects (app w));
     images := Z.to_nat (swapChain_imageCount (base (app w))) |}.

Definition buildCallees (host : bool) : list string :=
  if host then [ "vkBuildAccelerationStructuresKHR" ]
  else [ "createCommandBuffer"; "vkCmdBuildAccelerationStructuresKHR";
         "flushCommandBuffer" ].

(** The functions a component calls, in order, under given conditions. *)
Definition expectedCallees (c : Component) (k : Conditions) : list string :=
  match c with
  | FrameResources =>
      "VulkanRaytracingSample::prepare"
      :: List.concat
           (repeat ["createFrameObjects"; "createStorageImage"; "createBuffer";
                    "Buffer::map"] (images k))
  | BottomLevelAS =>
      [ "createBuffer"; "createBuffer"; "createBuffer";
        "getBufferDeviceAddress"; "getBufferDeviceAddress"; "getBufferDeviceAddress";
        "vkGetAccelerationStructureBuildSizesKHR"; "createAccelerationStructure";
        "createScratchBuffer" ]
      ++ buildCallees (hostBuild k) ++ [ "deleteScratchBuffer" ]
  | TopLevelAS =>
      [ "createBuffer"; "getBufferDeviceAddress";
        "vkGetAccelerationStructureBuildSizesKHR"; "createAccelerationStructure";
        "createScratchBuffer" ]
      ++ buildCallees (hostBuild k) ++ [ "deleteScratchBuffer"; "Buffer::destroy" ]
  | Pipeline =>
      [ "vkCreateDescriptorSetLayout"; "vkCreatePipelineLayout";
        "loadShader"; "loadShader"; "loadShader" ]
      ++ repeat "loadShader" (objects k) ++ [ "vkCreateRayTracingPipelinesKHR" ]
  | BindingTables =>
      [ "vkGetRayTracingShaderGroupHandlesKHR"; "createShaderBindingTable";
        "createShaderBindingTable"; "createShaderBindingTable";
        "createShaderBindingTable" ]
  | DescriptorSets =>
      "vkCreateDescriptorPool"
      :: List.concat (repeat ["vkAllocateDescriptorSets"; "vkUpdateDescriptorSets"]
                        (frames k))
  | Frame =>
      (if windowResized k
       then "vkDeviceWaitIdle"
            :: List.concat (repeat ["createStorageImage"; "vkUpdateDescriptorSets"]
                              (frames k))
       else [])
      ++ [ "prepareFrame"; "vkWaitForFences"; "vkResetFences";
           "vkBeginCommandBuffer"; "vkCmdBindPipeline"; "vkCmdBindDescriptorSets";
           "vkCmdTraceRaysKHR"; "setImageLayout"; "setImageLayout"; "vkCmdCopyImage";
           "setImageLayout"; "setImageLayout"; "vkEndCommandBuffer"; "submitFrame" ]
  end.

(** [l1] is an initial segment of [l2]. *)
Definition isPrefix (l1 l2 : list string) : Prop := exists rest, l2 = l1 ++ rest.

Fixpoint prefixb (l1 l2 : list string) : bool :=
  match l1, l2 with
  | [], _ => true
  | a :: l1', b :: l2' => String.eqb a b && prefixb l1' l2'
  | _ :: _, [] => false
  end.

(** A host on which every call succeeds and every output is 1. *)
Definition oneHost : Host :=
  {| answer := fun _ j => match j with O => VK_SUCCESS | _ => 1 end;
     shaderGroupHandles := [];
     glm_inverse := fun m => m;
     getShadersPath := "shaders/glsl/" |}.

(** The two functions whose [VkResult] the sample does not look at. *)
Definition uncheckedCall (c : Call) : bool :=
  match c with
  | C_vkBuildAccelerationStructuresKHR _ _ _ | C_vkDeviceWaitIdle => true
  | _ => false
  end.

(** An event that is not a failure, or is a failure of an unchecked call. *)
Definition okEvent (e : Event) : bool :=
  negb (failedCall e) || uncheckedCall (ev_call e).

(* ================================================================== *)
(** ** Shader group handles in the queried storage *)



(* ================================================================== *)
(** ** Further observations: result codes *)

(** A failure of a call whose result the sample checks. *)
Definition checkedFailure (e : Event) : bool :=
  failedCall e && negb (uncheckedCall (ev_call e)).

(** The discipline of [VK_CHECK_RESULT] on a trace: no checked call fails
    before the last event; the last event is a failed checked call exactly
    when the run aborts ([ab]). *)
Fixpoint failFast (ab : bool) (es : list Event) : bool :=
  match es with
  | [] => negb ab
  | e :: es' =>
      if checkedFailure e
      then ab && match es' with [] => true | _ => false end
      else failFast ab es'
  end.

(** A host whose [k]-th call returns [VK_ERROR_OUT_OF_HOST_MEMORY] and
    whose other calls succeed with output 0. *)
Definition failingHostAt (k : nat) : Host :=
  {| answer := fun i j =>
       match j with
       | O => if (i =? k)%nat then VK_ERROR_OUT_OF_HOST_MEMORY else VK_SUCCESS
       | _ => 0
       end;
     shaderGroupHandles := [];
     glm_inverse := fun m => m;
     getShadersPath := "shaders/" |}.

(* ================================================================== *)
(** ** Further observations: the frame loop *)

(** The mapped pointer of a frame's uniform buffer leads to a cell of
    mapped memory that holds uniform data. *)
Definition uboMapped (hp : list MemVal) (f : FrameObjects) : bool :=
  match buf_mapped (ubo f) with
  | Some p =>
      match nth_error hp p with
      | Some (MObject (D_uniform _)) => true
      | _ => false
      end
  | None => false
  end.

(** What the framework owes the sample: [swapChain.images] has
    [swapChain.imageCount] entries and [currentBuffer] is one of its
    indices. *)
Definition swapChainReady (w : World) : Prop :=
  let b := base (app w) in
  length (swapChain_images b) = Z.to_nat (swapChain_imageCount b)
  /\ 0 <= currentBuffer b < swapChain_imageCount b.

(** What prepare sets up for draw: one frame per swap chain image, each
    with a mapped uniform buffer. *)
Definition framesReady (w : World) : Prop :=
  length (frameObjects (app w)) = Z.to_nat (swapChain_imageCount (base (app w)))
  /\ forallb (uboMapped (heap w)) (frameObjects (app w)) = true.

(** Among the calls [cs], made from tick [t] on, every prepareFrame leaves
    in [currentBuffer] an index of a swap chain of [imageCount] images:
    the index it leaves is output 1 of the host's answer to that call.
    The other calls are not constrained. *)
Fixpoint acquiresFrom (h : Host) (imageCount : Z) (t : nat) (cs : list Call) : bool :=
  match cs with
  | [] => true
  | c :: cs' =>
      match c with
      | C_prepareFrame => u32 (answer h t 1%nat) <? imageCount
      | _ => true
      end
      && acquiresFrom h imageCount (S t) cs'
  end.

(** Every prepareFrame of the run [r], which started in [w], leaves an
    index of the swap chain. *)
Definition acquiresInRange {A} (h : Host) (w : World) (r : Result A) : bool :=
  acquiresFrom h (swapChain_imageCount (base (app w))) (tick w) (calls r).

(** The clock counts the calls: a run that started in [w] ends at tick
    [tick w] plus the number of its calls. *)
Definition ticksFrom {A} (w : World) (r : Result A) : Prop :=
  tick (world r) = (tick w + length (events r))%nat.

(** A host with the handles of [okHost] that answers the calls [t0],
    [t0 + 14], [t0 + 28], ... with the swap chain indices 0, 1, 2, 0, ...
    When frames are drawn from tick [t0] on without a resize, fourteen
    calls each, these are the calls of prepareFrame. *)
Definition acquiringHost (t0 : nat) : Host :=
  {| answer := fun k j =>
       match j with
       | O => VK_SUCCESS
       | _ =>
           if ((t0 <=? k) && ((k - t0) mod 14 =? 0))%nat
           then Z.of_nat (((k - t0) / 14) mod 3)
           else answer okHost k j
       end;
     shaderGroupHandles := shaderGroupHandles okHost;
     glm_inverse := glm_inverse okHost;
     getShadersPath := getShadersPath okHost |}.

(** [n] consecutive calls of render, as the framework's render loop makes
    them. *)
Fixpoint renderFrames (n : nat) : M unit :=
  match n with
  | O => ret tt
  | S k => render ;; renderFrames k
  end.

(** The swap chain as the sample sees it. *)
Definition swapChainOf (w : World) : Z * list Z * Z :=
  let b := base (app w) in
  (swapChain_imageCount b, swapChain_images b, currentBuffer b).

(** [w'] has the swap chain and the frames' uniform buffers of [w], and
    its mapped memory is that of [w] with further cells behind it. *)
Definition extends (w w' : World) : Prop :=
  swapChainOf w' = swapChainOf w
  /\ map ubo (frameObjects (app w')) = map ubo (frameObjects (app w))
  /\ exists cells, heap w' = heap w ++ cells.

(* ================================================================== *)
(** ** Further observations: image layouts *)

(** The layout each image is in. *)
Definition Layouts : Type := Z -> VkImageLayout.

Definition layout_eqb (a b : VkImageLayout) : bool :=
  match a, b with
  | VK_IMAGE_LAYOUT_UNDEFINED, VK_IMAGE_LAYOUT_UNDEFINED
  | VK_IMAGE_LAYOUT_GENERAL, VK_IMAGE_LAYOUT_GENERAL
  | VK_IMAGE_LAYOUT_TRANSFER_SRC_OPTIMAL, VK_IMAGE_LAYOUT_TRANSFER_SRC_OPTIMAL
  | VK_IMAGE_LAYOUT_TRANSFER_DST_OPTIMAL, VK_IMAGE_LAYOUT_TRANSFER_DST_OPTIMAL
  | VK_IMAGE_LAYOUT_PRESENT_SRC_KHR, VK_IMAGE_LAYOUT_PRESENT_SRC_KHR => true
  | _, _ => false
  end.

Definition setLayout (L : Layouts) (image : Z) (l : VkImageLayout) : Layouts :=
  fun x => if x =? image then l else L x.

(** The effect of one recorded command on the layouts, when the command
    is consistent with them: a transition names as old layout the one the
    image is in, or UNDEFINED (the contents are discarded); a copy finds
    its source in TRANSFER_SRC_OPTIMAL and its destination in
    TRANSFER_DST_OPTIMAL, the layouts the call names. *)
Definition trackCall (L : Layouts) (c : Call) : option Layouts :=
  match c with
  | C_setImageLayout _ image oldLayout newLayout =>
      if layout_eqb oldLayout VK_IMAGE_LAYOUT_UNDEFINED || layout_eqb (L image) oldLayout
      then Some (setLayout L image newLayout)
      else None
  | C_vkCmdCopyImage _ src dst _ _ =>
      if layout_eqb (L src) VK_IMAGE_LAYOUT_TRANSFER_SRC_OPTIMAL
         && layout_eqb (L dst) VK_IMAGE_LAYOUT_TRANSFER_DST_OPTIMAL
      then Some L
      else None
  | _ => Some L
  end.

Fixpoint trackLayouts (L : Layouts) (cs : list Call) : option Layouts :=
  match cs with
  | [] => Some L
  | c :: cs' =>
      match trackCall L c with
      | Some L' => trackLayouts L' cs'
      | None => None
      end
  end.

(* ================================================================== *)
(** ** Further observations: descriptors *)

(** The binding a descriptor write goes to, with its type. *)
Definition writeKey (wr : VkWriteDescriptorSet) : VkDescriptorType * Z :=
  (descriptorType wr, dstBinding wr).

(** A descriptor update that writes exactly the bindings [bs], in order,
    all of one set. *)
Definition updatesAll (bs : list (VkDescriptorType * Z)) (c : Call) : Prop :=
  match c with
  | C_vkUpdateDescriptorSets ws =>
      map writeKey ws = bs
      /\ exists set, Forall (fun wr => dstSet wr = set) ws
  | _ => True
  end.

(** A descriptor update that writes something, and only bindings of
    [bs]. *)
Definition updatesWithin (bs : list (VkDescriptorType * Z)) (c : Call) : Prop :=
  match c with
  | C_vkUpdateDescriptorSets ws => ws <> [] /\ incl (map writeKey ws) bs
  | _ => True
  end.

(** The binding lists of the descriptor set layouts a run creates. *)
Definition declaredLayouts {A} (r : Result A) : list (list (VkDescriptorType * Z)) :=
  flat_map (fun c => match c with
                     | C_vkCreateDescriptorSetLayout bs => [bs]
                     | _ => []
                     end) (calls r).

Definition descriptorType_eqb (a b : VkDescriptorType) : bool :=
  match a, b with
  | VK_DESCRIPTOR_TYPE_ACCELERATION_STRUCTURE_KHR,
    VK_DESCRIPTOR_TYPE_ACCELERATION_STRUCTURE_KHR
  | VK_DESCRIPTOR_TYPE_STORAGE_IMAGE, VK_DESCRIPTOR_TYPE_STORAGE_IMAGE
  | VK_DESCRIPTOR_TYPE_UNIFORM_BUFFER, VK_DESCRIPTOR_TYPE_UNIFORM_BUFFER
  | VK_DESCRIPTOR_TYPE_STORAGE_BUFFER, VK_DESCRIPTOR_TYPE_STORAGE_BUFFER => true
  | _, _ => false
  end.

(** The descriptors of type [t] a pool created with [sizes] holds. *)
Definition poolCapacity (t : VkDescriptorType) (sizes : list (VkDescriptorType * Z)) : Z :=
  fold_right (fun p acc => if descriptorType_eqb (fst p) t then snd p + acc else acc)
             0 sizes.

(** The descriptors of type [t] one set of a layout with the bindings
    [bs] takes (each binding holds one descriptor). *)
Definition layoutDemand (t : VkDescriptorType) (bs : list (VkDescriptorType * Z)) : Z :=
  Z.of_nat (length (filter (fun b => descriptorType_eqb (fst b) t) bs)).

(** How often a run calls the function [name]. *)
Definition callCount {A} (name : string) (r : Result A) : nat :=
  length (filter (String.eqb name) (callees r)).

(* ================================================================== *)
(** ** Further observations: shader binding tables and shader groups *)

(** The machine with another shader group handle alignment. *)
Definition with_handleAlignment (al : Z) (w : World) : World :=
  let b := base (app w) in
  mkWorld (tick w)
    (set_base
       {| prepared := prepared b; resized := resized b; paused := paused b;
          camera := camera b; currentBuffer := currentBuffer b;
          swapChain_imageCount := swapChain_imageCount b;
          swapChain_images := swapChain_images b;
          width := width b; height := height b;
          descriptorPool := descriptorPool b;
          accelerationStructureHostCommands := accelerationStructureHostCommands b;
          shaderGroupHandleSize := shaderGroupHandleSize b;
          shaderGroupHandleAlignment := al |} (app w))
    (heap w).

(** The example after createRayTracingPipeline, on a device whose handle
    alignment equals the handle size. *)
Definition tightWorld : World := with_handleAlignment 32 pipelineWorld.

(** The stages of the shaders a run loads, in order: stage [k] of the
    pipeline is the [k]-th shader loaded. *)
Definition loadedStages {A} (r : Result A) : list VkShaderStageFlagBits :=
  flat_map (fun c => match c with C_loadShader _ s => [s] | _ => [] end) (calls r).

(** The stage index a group refers to. *)
Definition groupShader (g : VkRayTracingShaderGroupCreateInfoKHR) : Z :=
  match sg_type g with
  | VK_RAY_TRACING_SHADER_GROUP_TYPE_GENERAL_KHR => generalShader g
  | VK_RAY_TRACING_SHADER_GROUP_TYPE_TRIANGLES_HIT_GROUP_KHR => closestHitShader g
  end.

(** The pipelines a run creates: stage count, group count, groups and
    pipeline layout. *)
Definition createdPipelines {A} (r : Result A)
  : list (Z * Z * list VkRayTracingShaderGroupCreateInfoKHR * Z) :=
  flat_map (fun c =>
    match c with
    | C_vkCreateRayTracingPipelinesKHR sc gc gs layout => [(sc, gc, gs, layout)]
    | _ => []
    end) (calls r).

(* ================================================================== *)
(** ** Further observations: the resize block of draw *)

(** The descriptor writes of a trace, in order. *)
Definition writesOf (es : list Event) : list VkWriteDescriptorSet :=
  flat_map (fun e => match ev_call e with
                     | C_vkUpdateDescriptorSets ws => ws
                     | _ => []
                     end) es.

(** The extents of the storage images a trace creates, in order. *)
Definition storageImagesOf (es : list Event) : list (Z * Z) :=
  flat_map (fun e => match ev_call e with
                     | C_createStorageImage w h => [(w, h)]
                     | _ => []
                     end) es.

(** The write that points binding 1 of a frame's descriptor set at the
    frame's storage image. *)
Definition storageImageWrite (f : FrameObjects) : VkWriteDescriptorSet :=
  mkWrite (descriptorSet f) VK_DESCRIPTOR_TYPE_STORAGE_IMAGE 1 (storageImage f).

(* ================================================================== *)
(** ** Further observations: acceleration structure builds *)

(** The builds a run requests, on the host or recorded for the device:
    info count, build info and build ranges. *)
Definition buildRequests {A} (r : Result A)
  : list (Z * VkAccelerationStructureBuildGeometryInfoKHR
          * list (list VkAccelerationStructureBuildRangeInfoKHR)) :=
  flat_map (fun c =>
    match c with
    | C_vkBuildAccelerationStructuresKHR n info ranges => [(n, info, ranges)]
    | C_vkCmdBuildAccelerationStructuresKHR _ n info ranges => [(n, info, ranges)]
    | _ => []
    end) (calls r).

(** The build info createTopLevelAccelerationStructure hands to the build
    when it starts in world [w] on host [h]. *)
Definition tlasBuildInfo (h : Host) (w : World)
  : VkAccelerationStructureBuildGeometryInfoKHR :=
  {| bi_type := VK_ACCELERATION_STRUCTURE_TYPE_TOP_LEVEL_KHR;
     dstAccelerationStructure := answer h (3 + tick w)%nat 1%nat;
     geometryCount := 1;
     pGeometries :=
       [ {| geometryType := VK_GEOMETRY_TYPE_INSTANCES_KHR;
            geom_opaque := true;
            vertexData := 0; maxVertex := 0; vertexStride := 0;
            indexData := 0; transformData := 0;
            instancesData := answer h (1 + tick w)%nat 1%nat |} ];
     scratchData := answer h (4 + tick w)%nat 1%nat |}.

(** When the two build functions run to their end: the checked buffer
    creations succeed and, for the bottom level, the three build ranges
    exist. *)
Definition blasCompletes (h : Host) (w : World) : bool :=
  (answer h (tick w) 0%nat =? VK_SUCCESS)
  && (answer h (1 + tick w)%nat 0%nat =? VK_SUCCESS)
  && (answer h (2 + tick w)%nat 0%nat =? VK_SUCCESS)
  && (3 <=? objectCount (app w)).

Definition tlasCompletes (h : Host) (w : World) : bool :=
  answer h (tick w) 0%nat =? VK_SUCCESS.

(* ================================================================== *)
(** ** Further observations: the order of a frame *)

(** Where a frame stands. *)
Inductive FramePhase :=
| Idle            (* nothing done yet *)
| Drained         (* the device has been waited for *)
| Acquired        (* prepareFrame done *)
| Waited          (* the frame's fence has been waited for *)
| FenceReset
| Begun           (* recording has begun *)
| PipelineBound
| SetsBound
| Traced          (* the rays are traced; the image may be copied *)
| Ended           (* recording has ended *)
| Submitted.

(** The calls a frame may make in each phase.  Storage images are
    recreated and descriptors rewritten only once the device is idle and
    before the frame is acquired; commands are recorded only between the
    begin and the end of the recording, rays are traced only with the
    pipeline and the descriptor sets bound, images are transitioned and
    copied only after that; the frame is submitted only when the recording
    has ended. *)
Definition frameStep (p : FramePhase) (c : Call) : option FramePhase :=
  match p, c with
  | Idle, C_vkDeviceWaitIdle => Some Drained
  | Drained, C_createStorageImage _ _ => Some Drained
  | Drained, C_vkUpdateDescriptorSets _ => Some Drained
  | Idle, C_prepareFrame => Some Acquired
  | Drained, C_prepareFrame => Some Acquired
  | Acquired, C_vkWaitForFences _ _ _ => Some Waited
  | Waited, C_vkResetFences _ _ => Some FenceReset
  | FenceReset, C_vkBeginCommandBuffer _ => Some Begun
  | Begun, C_vkCmdBindPipeline _ _ => Some PipelineBound
  | PipelineBound, C_vkCmdBindDescriptorSets _ _ _ => Some SetsBound
  | SetsBound, C_vkCmdTraceRaysKHR _ _ _ _ _ _ _ _ => Some Traced
  | Traced, C_setImageLayout _ _ _ _ => Some Traced
  | Traced, C_vkCmdCopyImage _ _ _ _ _ => Some Traced
  | Traced, C_vkEndCommandBuffer _ => Some Ended
  | Ended, C_submitFrame => Some Submitted
  | _, _ => None
  end.

Fixpoint framePath (p : FramePhase) (cs : list Call) : option FramePhase :=
  match cs with
  | [] => Some p
  | c :: cs' =>
      match frameStep p c with
      | Some q => framePath q cs'
      | None => None
      end
  end.

(* ================================================================== *)
(** ** getEnabledFeatures

    The three feature structures and [deviceCreatepNextChain] are members
    of the base classes, declared outside the source file; the fields the
    function assigns are modelled here. *)

Inductive FeatureStruct :=
| BufferDeviceAddressFeatures
| RayTracingPipelineFeatures
| AccelerationStructureFeatures.

(** A [void*]: null, the address of one of the three structures, or some
    other address. *)
Inductive Pointer :=
| nullptr
| addressOf (f : FeatureStruct)
| elsewhere (a : Z).

Inductive VkStructureType :=
| VK_STRUCTURE_TYPE_APPLICATION_INFO   (* the value 0 of a zeroed structure *)
| VK_STRUCTURE_TYPE_PHYSICAL_DEVICE_BUFFER_DEVICE_ADDRESS_FEATURES
| VK_STRUCTURE_TYPE_PHYSICAL_DEVICE_RAY_TRACING_PIPELINE_FEATURES_KHR
| VK_STRUCTURE_TYPE_PHYSICAL_DEVICE_ACCELERATION_STRUCTURE_FEATURES_KHR.

(** One feature structure: its type tag, the feature flag the sample sets
    ([bufferDeviceAddress], [rayTracingPipeline], [accelerationStructure])
    and the chain pointer. *)
Record FeatureInfo := mkFeatureInfo {
  sType : VkStructureType;
  featureFlag : bool;
  pNext : Pointer
}.

Record DeviceFeatures := mkDeviceFeatures {
  enabledBufferDeviceAddresFeatures : FeatureInfo;
  enabledRayTracingPipelineFeatures : FeatureInfo;
  enabledAccelerationStructureFeatures : FeatureInfo;
  deviceCreatepNextChain : Pointer
}.

Definition getEnabledFeatures (d : DeviceFeatures) : DeviceFeatures :=
  let bda := enabledBufferDeviceAddresFeatures d in
  let bda := mkFeatureInfo
               VK_STRUCTURE_TYPE_PHYSICAL_DEVICE_BUFFER_DEVICE_ADDRESS_FEATURES
               (featureFlag bda) (pNext bda) in
  let bda := mkFeatureInfo (sType bda) true (pNext bda) in
  let rtp := enabledRayTracingPipelineFeatures d in
  let rtp := mkFeatureInfo
               VK_STRUCTURE_TYPE_PHYSICAL_DEVICE_RAY_TRACING_PIPELINE_FEATURES_KHR
               (featureFlag rtp) (pNext rtp) in
  let rtp := mkFeatureInfo (sType rtp) true (pNext rtp) in
  let rtp := mkFeatureInfo (sType rtp) (featureFlag rtp)
               (addressOf BufferDeviceAddressFeatures) in
  let asf := enabledAccelerationStructureFeatures d in
  let asf := mkFeatureInfo
               VK_STRUCTURE_TYPE_PHYSICAL_DEVICE_ACCELERATION_STRUCTURE_FEATURES_KHR
               (featureFlag asf) (pNext asf) in
  let asf := mkFeatureInfo (sType asf) true (pNext asf) in
  let asf := mkFeatureInfo (sType asf) (featureFlag asf)
               (addressOf RayTracingPipelineFeatures) in
  mkDeviceFeatures bda rtp asf (addressOf AccelerationStructureFeatures).

(** The structure a pointer to [f] leads to. *)
Definition deref (d : DeviceFeatures) (f : FeatureStruct) : FeatureInfo :=
  match f with
  | BufferDeviceAddressFeatures => enabledBufferDeviceAddresFeatures d
  | RayTracingPipelineFeatures => enabledRayTracingPipelineFeatures d
  | AccelerationStructureFeatures => enabledAccelerationStructureFeatures d
  end.

(** The tag each structure must carry. *)
Definition structureTypeOf (f : FeatureStruct) : VkStructureType :=
  match f with
  | BufferDeviceAddressFeatures =>
      VK_STRUCTURE_TYPE_PHYSICAL_DEVICE_BUFFER_DEVICE_ADDRESS_FEATURES
  | RayTracingPipelineFeatures =>
      VK_STRUCTURE_TYPE_PHYSICAL_DEVICE_RAY_TRACING_PIPELINE_FEATURES_KHR
  | AccelerationStructureFeatures =>
      VK_STRUCTURE_TYPE_PHYSICAL_DEVICE_ACCELERATION_STRUCTURE_FEATURES_KHR
  end.

(** The structures met when a [pNext] chain is followed from [p], as the
    device creation does; [None] when the chain leaves the three
    structures or does not end within [fuel] steps. *)
Fixpoint featureChain (fuel : nat) (d : DeviceFeatures) (p : Pointer)
  : option (list FeatureStruct) :=
  match p with
  | nullptr => Some []
  | elsewhere _ => None
  | addressOf f =>
      match fuel with
      | O => None
      | S k =>
          match featureChain k d (pNext (deref d f)) with
          | Some l => Some (f :: l)
          | None => None
          end
      end
  end.

(* ================================================================== *)
(** ** The destructor

    [~VulkanExample] releases what the sample owns.  The functions it
    calls return nothing and the object is gone afterwards, so the
    destructor is the list of its calls.  [device] is the [VkDevice] of
    the base class, null before the device exists. *)

Inductive Release :=
| Rel_vkDestroyPipeline (pipeline_ : Z)
| Rel_vkDestroyPipelineLayout (layout : Z)
| Rel_vkDestroyDescriptorSetLayout (layout : Z)
| Rel_deleteAccelerationStructure (a : AccelerationStructure)
| Rel_ShaderBindingTable_destroy (table : SbtName) (b : Buffer)
| Rel_Buffer_destroy (b : Buffer)
| Rel_deleteStorageImage (image : Z)
| Rel_destroyFrameObjects (commandBuffer_ fence : Z).

Definition destructor (device : Z) (s : VulkanExample) : list Release :=
  if device =? 0 then []
  else
    [ Rel_vkDestroyPipeline (pipeline s);
      Rel_vkDestroyPipelineLayout (pipelineLayout s);
      Rel_vkDestroyDescriptorSetLayout (descriptorSetLayout s);
      Rel_deleteAccelerationStructure (bottomLevelAS s);
      Rel_deleteAccelerationStructure (topLevelAS s);
      Rel_ShaderBindingTable_destroy SBT_raygen (raygen (shaderBindingTables s));
      Rel_ShaderBindingTable_destroy SBT_miss (miss (shaderBindingTables s));
      Rel_ShaderBindingTable_destroy SBT_hit (hit (shaderBindingTables s));
      Rel_ShaderBindingTable_destroy SBT_callable (callable (shaderBindingTables s));
      Rel_Buffer_destroy (vertexBuffer s);
      Rel_Buffer_destroy (indexBuffer s);
      Rel_Buffer_destroy (transformBuffer s) ]
    ++ flat_map (fun frame =>
         [ Rel_deleteStorageImage (storageImage frame);
           Rel_Buffer_destroy (ubo frame);
           Rel_destroyFrameObjects (commandBuffer frame) (renderCompleteFence frame) ])
       (frameObjects s).

(** The kinds of objects the sample's calls create and release. *)
Inductive Resource :=
| R_Buffer | R_ShaderBindingTable | R_AccelerationStructure | R_ScratchBuffer
| R_CommandBuffer | R_StorageImage | R_FrameObjects
| R_Pipeline | R_PipelineLayout | R_DescriptorSetLayout
| R_DescriptorPool | R_DescriptorSet | R_ShaderModule.

Definition resource_eqb (a b : Resource) : bool :=
  match a, b with
  | R_Buffer, R_Buffer | R_ShaderBindingTable, R_ShaderBindingTable
  | R_AccelerationStructure, R_AccelerationStructure
  | R_ScratchBuffer, R_ScratchBuffer | R_CommandBuffer, R_CommandBuffer
  | R_StorageImage, R_StorageImage | R_FrameObjects, R_FrameObjects
  | R_Pipeline, R_Pipeline | R_PipelineLayout, R_PipelineLayout
  | R_DescriptorSetLayout, R_DescriptorSetLayout
  | R_DescriptorPool, R_DescriptorPool | R_DescriptorSet, R_DescriptorSet
  | R_ShaderModule, R_ShaderModule => true
  | _, _ => false
  end.

(** What a function of the trace creates, by its name. *)
Definition createdBy (name : string) : option Resource :=
  if (name =? "createBuffer")%string then Some R_Buffer
  else if (name =? "createShaderBindingTable")%string then Some R_ShaderBindingTable
  else if (name =? "createAccelerationStructure")%string then Some R_AccelerationStructure
  else if (name =? "createScratchBuffer")%string then Some R_ScratchBuffer
  else if (name =? "createCommandBuffer")%string then Some R_CommandBuffer
  else if (name =? "createStorageImage")%string then Some R_StorageImage
  else if (name =? "createFrameObjects")%string then Some R_FrameObjects
  else if (name =? "vkCreateRayTracingPipelinesKHR")%string then Some R_Pipeline
  else if (name =? "vkCreatePipelineLayout")%string then Some R_PipelineLayout
  else if (name =? "vkCreateDescriptorSetLayout")%string then Some R_DescriptorSetLayout
  else if (name =? "vkCreateDescriptorPool")%string then Some R_DescriptorPool
  else if (name =? "vkAllocateDescriptorSets")%string then Some R_DescriptorSet
  else if (name =? "loadShader")%string then Some R_ShaderModule
  else None.

(** What a function of the trace releases; [flushCommandBuffer] frees the
    command buffer it submits. *)
Definition releasedBy (name : string) : option Resource :=
  if (name =? "Buffer::destroy")%string then Some R_Buffer
  else if (name =? "deleteScratchBuffer")%string then Some R_ScratchBuffer
  else if (name =? "flushCommandBuffer")%string then Some R_CommandBuffer
  else None.

(** What a call of the destructor releases. *)
Definition destroyedBy (x : Release) : Resource :=
  match x with
  | Rel_vkDestroyPipeline _ => R_Pipeline
  | Rel_vkDestroyPipelineLayout _ => R_PipelineLayout
  | Rel_vkDestroyDescriptorSetLayout _ => R_DescriptorSetLayout
  | Rel_deleteAccelerationStructure _ => R_AccelerationStructure
  | Rel_ShaderBindingTable_destroy _ _ => R_ShaderBindingTable
  | Rel_Buffer_destroy _ => R_Buffer
  | Rel_deleteStorageImage _ => R_StorageImage
  | Rel_destroyFrameObjects _ _ => R_FrameObjects
  end.

Definition isSome_eq (K : Resource) (o : option Resource) : bool :=
  match o with
  | Some K' => resource_eqb K K'
  | None => false
  end.

(** How many elements of [l] satisfy [f]. *)
Definition countWhere {A} (f : A -> bool) (l : list A) : Z :=
  Z.of_nat (length (filter f l)).

(** The objects the base class releases, not the sample: the descriptor
    pool with its sets, and the shader modules. *)
Definition ownedBySample (K : Resource) : bool :=
  match K with
  | R_DescriptorPool | R_DescriptorSet | R_ShaderModule => false
  | _ => true
  end.

(* ================================================================== *)
(** ** Further observations: what a frame leaves alone *)

(** Everything prepare sets up, but the storage images of the frames. *)
Definition setupOf (s : VulkanExample) :=
  (bottomLevelAS s, topLevelAS s, shaderGroups s, shaderBindingTables s,
   pipeline s, pipelineLayout s, descriptorSetLayout s,
   vertexBuffer s, indexBuffer s, transformBuffer s, objectCount s,
   map frameCore (frameObjects s)).

(* ================================================================== *)
(** ** Further observations: file names *)

(** Reading a decimal numeral, most significant digit first. *)
Fixpoint parse_decimal (acc : Z) (s : string) : Z :=
  match s with
  | EmptyString => acc
  | String c s' =>
      parse_decimal (acc * 10 + (Z.of_nat (nat_of_ascii c) - 48)) s'
  end.

(* ================================================================== *)
(** ** Float and integer facts *)

Lemma f32_small_integers :
  f32_exact_Z f0 = Some 0 /\ f32_exact_Z f1 = Some 1 /\ f32_exact_Z f3 = Some 3.
Proof. repeat split; reflexivity. Qed.

Lemma transformMatrices_three :
  transformMatrices 3 =
  [ xTranslation (f32_of_Z (-3)); xTranslation (f32_of_Z 0); xTranslation (f32_of_Z 3) ].
Proof. vm_compute. reflexivity. Qed.

(* ================================================================== *)
(** ** Running the monad symbolically *)

Arguments bind {A B} m f h w /.
Arguments ret {A} a _ w /.
Arguments get _ w /.
Arguments ask h w /.
Arguments modify f _ w /.
Arguments api c h w /.
Arguments alloc v _ w /.
Arguments store p v _ w /.
Arguments load p _ w /.
Arguments abort {A} _ w /.
Arguments fault {A} _ w /.
Arguments VK_CHECK_RESULT {A} f /.
Arguments createBuffer target size data /.
Arguments Buffer_map b /.
Arguments Buffer_destroy b /.
Arguments getBufferDeviceAddress buffer /.
Arguments vkGetAccelerationStructureBuildSizesKHR info counts /.
Arguments createAccelerationStructure ty sizes /.
Arguments createScratchBuffer size /.
Arguments deleteScratchBuffer sb /.
Arguments vkBuildAccelerationStructuresKHR /.
Arguments createCommandBuffer /.
Arguments vkCmdBuildAccelerationStructuresKHR /.
Arguments flushCommandBuffer /.
Arguments vkGetRayTracingShaderGroupHandlesKHR /.
Arguments createShaderBindingTable /.
Arguments vkCreateDescriptorPool /.
Arguments vkAllocateDescriptorSets /.
Arguments vkUpdateDescriptorSets /.
Arguments vkCreateDescriptorSetLayout /.
Arguments vkCreatePipelineLayout /.
Arguments loadShader /.
Arguments vkCreateRayTracingPipelinesKHR /.
Arguments push_shaderGroup /.
Arguments pushCallableShaderGroup shadersPath shaderStages i /.
Arguments fold_each : simpl never.
Arguments callableGroups : simpl never.
Arguments for_each : simpl never.
Arguments for_frames : simpl never.
Arguments createFrameObjects /.
Arguments createStorageImage /.
Arguments buildCommandBuffers /.
Arguments vkDeviceWaitIdle /.
Arguments prepareFrame /.
Arguments submitFrame /.
Arguments vkWaitForFences /.
Arguments vkResetFences /.
Arguments vkBeginCommandBuffer /.
Arguments vkEndCommandBuffer /.
Arguments vkCmdBindPipeline /.
Arguments vkCmdBindDescriptorSets /.
Arguments vkCmdTraceRaysKHR /.
Arguments setImageLayout /.
Arguments vkCmdCopyImage /.
Arguments memcpy_bytes /.
Arguments memcpy_uniform /.

Arguments u32 : simpl never.
Arguments alignedSize : simpl never.
Arguments transformMatrices : simpl never.
Arguments accelerationStructureGeometries : simpl never.
Arguments geometryCounts : simpl never.
Arguments accelerationStructureBuildRangeInfos : simpl never.
Arguments accelerationBuildStructureRangeInfos : simpl never.
Arguments callableShaderFile : simpl never.
Arguments range_u32 : simpl never.
Arguments resize : simpl never.
Arguments slice : simpl never.
Arguments write_prefix : simpl never.
Arguments Z.mul : simpl never.
Arguments Z.add : simpl never.
Arguments Z.sub : simpl never.
Arguments Z.of_nat : simpl never.
Arguments Z.to_nat : simpl never.
Arguments Z.leb : simpl never.
Arguments Z.eqb : simpl never.
Arguments String.append : simpl never.
Arguments f32_of_Z : simpl never.

(** Symbolic execution.  The world is first split into its fields, so
    that every record access meets a constructor; then the monad, the API
    wrappers and the record accesses are unfolded (call by need, nothing
    is evaluated twice), and appends of known lists are reduced. *)
Ltac split_world w :=
  let a := fresh "a" in
  let b := fresh "b" in
  destruct w as [? a ?]; destruct a as [b ? ? ? ? ? ? ? ? ? ? ? ? ?]; destruct b.

Ltac split_world_deep w :=
  let a := fresh "a" in
  let b := fresh "b" in
  destruct w as [? a ?];
  destruct a as [b [? ?] [? ?] ? [[? ? ?] [? ? ?] [? ? ?] [? ? ?]] [? ?] ? ? ? ?
                   [? ? ?] [? ? ?] [? ? ?] ?];
  destruct b as [? ? ? [? ? ?] ? ? ? ? ? ? ? ? ?].

Ltac split_frame f := destruct f as [? ? [? ? ?] ? ?].

Ltac msimpl :=
  lazy beta iota zeta delta [
       bind ret get ask modify api alloc store load abort fault
       VK_CHECK_RESULT createBuffer Buffer_map Buffer_destroy
       getBufferDeviceAddress vkGetAccelerationStructureBuildSizesKHR
       createAccelerationStructure createScratchBuffer
       deleteScratchBuffer vkBuildAccelerationStructuresKHR
       createCommandBuffer vkCmdBuildAccelerationStructuresKHR
       flushCommandBuffer vkGetRayTracingShaderGroupHandlesKHR
       createShaderBindingTable vkCreateDescriptorPool
       vkAllocateDescriptorSets vkUpdateDescriptorSets
       vkCreateDescriptorSetLayout vkCreatePipelineLayout loadShader
       vkCreateRayTracingPipelinesKHR push_shaderGroup createFrameObjects createStorageImage
       buildCommandBuffers vkDeviceWaitIdle prepareFrame submitFrame
       vkWaitForFences vkResetFences vkBeginCommandBuffer
       vkEndCommandBuffer vkCmdBindPipeline vkCmdBindDescriptorSets
       vkCmdTraceRaysKHR setImageLayout vkCmdCopyImage memcpy_uniform memcpy_bytes
       prepared resized paused camera currentBuffer swapChain_imageCount
       swapChain_images width height descriptorPool
       accelerationStructureHostCommands shaderGroupHandleSize
       shaderGroupHandleAlignment base bottomLevelAS topLevelAS
       shaderGroups shaderBindingTables uniformData frameObjects
       pipeline pipelineLayout descriptorSetLayout vertexBuffer
       indexBuffer transformBuffer objectCount tick app heap outcome
       events world buf_buffer buf_memory buf_mapped commandBuffer
       renderCompleteFence ubo storageImage descriptorSet raygen miss
       hit callable as_handle as_deviceAddress cam_updated
       cam_perspective cam_view viewInverse projInverse ev_call
       ev_result accelerationStructureSize buildScratchSize
       scratch_deviceAddress pss_stage pss_module set_prepared
       set_currentBuffer set_descriptorPool set_base set_bottomLevelAS
       set_topLevelAS set_shaderGroups set_shaderBindingTables
       set_uniformData set_frameObjects set_pipeline set_pipelineLayout
       set_descriptorSetLayout set_vertexBuffer set_indexBuffer
       set_transformBuffer set_raygen set_miss set_hit set_callable
       set_base_descriptorPool set_frame set_base_prepared set_frame_ubo
       set_frame_storageImage set_base_currentBuffer set_projInverse
       set_viewInverse fst snd negb orb ];
  cbn [List.app].

Ltac msimpl_in H :=
  lazy beta iota zeta delta [
       bind ret get ask modify api alloc store load abort fault
       VK_CHECK_RESULT createBuffer Buffer_map Buffer_destroy
       getBufferDeviceAddress vkGetAccelerationStructureBuildSizesKHR
       createAccelerationStructure createScratchBuffer
       deleteScratchBuffer vkBuildAccelerationStructuresKHR
       createCommandBuffer vkCmdBuildAccelerationStructuresKHR
       flushCommandBuffer vkGetRayTracingShaderGroupHandlesKHR
       createShaderBindingTable vkCreateDescriptorPool
       vkAllocateDescriptorSets vkUpdateDescriptorSets
       vkCreateDescriptorSetLayout vkCreatePipelineLayout loadShader
       vkCreateRayTracingPipelinesKHR push_shaderGroup createFrameObjects createStorageImage
       buildCommandBuffers vkDeviceWaitIdle prepareFrame submitFrame
       vkWaitForFences vkResetFences vkBeginCommandBuffer
       vkEndCommandBuffer vkCmdBindPipeline vkCmdBindDescriptorSets
       vkCmdTraceRaysKHR setImageLayout vkCmdCopyImage memcpy_uniform memcpy_bytes
       prepared resized paused camera currentBuffer swapChain_imageCount
       swapChain_images width height descriptorPool
       accelerationStructureHostCommands shaderGroupHandleSize
       shaderGroupHandleAlignment base bottomLevelAS topLevelAS
       shaderGroups shaderBindingTables uniformData frameObjects
       pipeline pipelineLayout descriptorSetLayout vertexBuffer
       indexBuffer transformBuffer objectCount tick app heap outcome
       events world buf_buffer buf_memory buf_mapped commandBuffer
       renderCompleteFence ubo storageImage descriptorSet raygen miss
       hit callable as_handle as_deviceAddress cam_updated
       cam_perspective cam_view viewInverse projInverse ev_call
       ev_result accelerationStructureSize buildScratchSize
       scratch_deviceAddress pss_stage pss_module set_prepared
       set_currentBuffer set_descriptorPool set_base set_bottomLevelAS
       set_topLevelAS set_shaderGroups set_shaderBindingTables
       set_uniformData set_frameObjects set_pipeline set_pipelineLayout
       set_descriptorSetLayout set_vertexBuffer set_indexBuffer
       set_transformBuffer set_raygen set_miss set_hit set_callable
       set_base_descriptorPool set_frame set_base_prepared set_frame_ubo
       set_frame_storageImage set_base_currentBuffer set_projInverse
       set_viewInverse fst snd negb orb ] in H;
  cbn [List.app] in H.

(** One step: reduce, then split on the first test the run is stuck on. *)
Ltac split_test :=
  match goal with
  | |- context [if ?c then _ else _] => destruct c eqn:?
  | |- context [match ?x with Some _ => _ | None => _ end] => destruct x eqn:?
  end.

Ltac run_all := cbn; repeat (split_test; cbn).

(** [bind] unfolded around an unevaluated first computation. *)
Lemma bind_run {A B} (m : M A) (f : A -> M B) (h : Host) (w : World) :
  bind m f h w =
  match outcome (m h w) with
  | Done a =>
      let r' := f a h (world (m h w)) in
      mkResult (outcome r') (events (m h w) ++ events r') (world r')
  | Abort => mkResult Abort (events (m h w)) (world (m h w))
  | Fault => mkResult Fault (events (m h w)) (world (m h w))
  end.
Proof.
  unfold bind. destruct (m h w) as [[a| |] es w1]; simpl; try reflexivity.
  destruct (f a h w1); reflexivity.
Qed.

(* ================================================================== *)
(** ** Sequencing and loops *)

Lemma bind_get {B} (f : VulkanExample -> M B) (h : Host) (w : World) :
  bind get f h w = f (app w) h w.
Proof. unfold bind, get. destruct (f (app w) h w); reflexivity. Qed.

Lemma world_bind {A B} (m : M A) (f : A -> M B) (h : Host) (w : World) :
  world (bind m f h w) =
  match outcome (m h w) with
  | Done a => world (f a h (world (m h w)))
  | _ => world (m h w)
  end.
Proof. rewrite bind_run. destruct (outcome (m h w)); reflexivity. Qed.

Lemma events_bind {A B} (m : M A) (f : A -> M B) (h : Host) (w : World) :
  events (bind m f h w) =
  events (m h w) ++
  match outcome (m h w) with
  | Done a => events (f a h (world (m h w)))
  | _ => []
  end.
Proof.
  rewrite bind_run. destruct (outcome (m h w)); cbn [events];
    now rewrite ?app_nil_r.
Qed.

Lemma completed_bind {A B} (m : M A) (f : A -> M B) (h : Host) (w : World) :
  completed (bind m f h w) = true ->
  exists a, outcome (m h w) = Done a
            /\ completed (f a h (world (m h w))) = true.
Proof.
  rewrite bind_run. unfold completed.
  destruct (outcome (m h w)) as [a| |]; cbn; try discriminate.
  intros H. now exists a.
Qed.

Lemma for_each_rel {A} (R : World -> World -> Prop) :
  (forall w, R w w) ->
  (forall a b c, R a b -> R b c -> R a c) ->
  forall (xs : list A) (body : A -> M unit),
    (forall x h w, R w (world (body x h w))) ->
    forall h w, R w (world (for_each xs body h w)).
Proof.
  intros Hrefl Htrans xs body Hbody.
  induction xs as [|x xs IH]; intros h w.
  - apply Hrefl.
  - change (for_each (x :: xs) body h w)
      with (bind (body x) (fun _ => for_each xs body) h w).
    rewrite world_bind.
    destruct (outcome (body x h w)); [|apply Hbody ..].
    eapply Htrans; [apply Hbody | apply IH].
Qed.

Lemma for_each_events {A} (P : Event -> Prop) (xs : list A) (body : A -> M unit) :
  (forall x h w, Forall P (events (body x h w))) ->
  forall h w, Forall P (events (for_each xs body h w)).
Proof.
  intros Hbody. induction xs as [|x xs IH]; intros h w.
  - constructor.
  - change (for_each (x :: xs) body h w)
      with (bind (body x) (fun _ => for_each xs body) h w).
    rewrite events_bind. apply Forall_app. split; [apply Hbody|].
    destruct (outcome (body x h w)); [apply IH | constructor ..].
Qed.

Lemma for_each_callees {A} (xs : list A) (body : A -> M unit) (per : list string) :
  (forall x h w, completed (body x h w) = true -> callees (body x h w) = per) ->
  forall h w,
    completed (for_each xs body h w) = true ->
    callees (for_each xs body h w) = List.concat (repeat per (length xs)).
Proof.
  intros Hbody. induction xs as [|x xs IH]; intros h w Hc.
  - reflexivity.
  - change (for_each (x :: xs) body h w)
      with (bind (body x) (fun _ => for_each xs body) h w) in *.
    destruct (completed_bind _ _ _ _ Hc) as (a & Ho & Hc').
    unfold callees, calls in *. rewrite events_bind, Ho, !map_app.
    rewrite (IH _ _ Hc'). cbn [length repeat List.concat]. f_equal.
    apply Hbody. unfold completed. now rewrite Ho.
Qed.

Lemma for_each_inv {A} (I : World -> Prop) (P : Event -> Prop)
    (xs : list A) (body : A -> M unit) :
  (forall x h w, I w -> I (world (body x h w)) /\ Forall P (events (body x h w))) ->
  forall h w,
    I w ->
    I (world (for_each xs body h w)) /\ Forall P (events (for_each xs body h w)).
Proof.
  intros Hbody. induction xs as [|x xs IH]; intros h w Hw.
  - split; [exact Hw | constructor].
  - change (for_each (x :: xs) body h w)
      with (bind (body x) (fun _ => for_each xs body) h w).
    rewrite world_bind, events_bind.
    destruct (Hbody x h w Hw) as [Hw' He].
    destruct (outcome (body x h w)).
    + destruct (IH h _ Hw') as [Hw'' He'].
      split; [exact Hw'' | apply Forall_app; now split].
    + split; [exact Hw' | now rewrite app_nil_r].
    + split; [exact Hw' | now rewrite app_nil_r].
Qed.

Lemma for_each_ok {A} (f : Event -> bool) (xs : list A) (body : A -> M unit) :
  (forall x h w, completed (body x h w) = true ->
                 forallb f (events (body x h w)) = true) ->
  forall h w,
    completed (for_each xs body h w) = true ->
    forallb f (events (for_each xs body h w)) = true.
Proof.
  intros Hbody. induction xs as [|x xs IH]; intros h w Hc.
  - reflexivity.
  - change (for_each (x :: xs) body h w)
      with (bind (body x) (fun _ => for_each xs body) h w) in *.
    destruct (completed_bind _ _ _ _ Hc) as (a & Ho & Hc').
    rewrite events_bind, Ho, forallb_app, (IH _ _ Hc'), andb_true_r.
    apply Hbody. unfold completed. now rewrite Ho.
Qed.

Lemma for_frames_unfold (body : nat -> FrameObjects -> M unit) (h : Host) (w : World) :
  for_frames body h w =
  for_each (seq 0 (length (frameObjects (app w)))) (frameBody body) h w.
Proof. unfold for_frames. now rewrite bind_get. Qed.

Lemma frameBody_unfold (body : nat -> FrameObjects -> M unit) (i : nat)
    (h : Host) (w : World) :
  frameBody body i h w =
  match nth_error (frameObjects (app w)) i with
  | Some frame => body i frame h w
  | None => mkResult Fault [] w
  end.
Proof.
  unfold frameBody. rewrite bind_get.
  destruct (nth_error (frameObjects (app w)) i); reflexivity.
Qed.

Lemma for_frames_rel (R : World -> World -> Prop) (body : nat -> FrameObjects -> M unit) :
  (forall w, R w w) ->
  (forall a b c, R a b -> R b c -> R a c) ->
  (forall i frame h w,
      nth_error (frameObjects (app w)) i = Some frame ->
      R w (world (body i frame h w))) ->
  forall h w, R w (world (for_frames body h w)).
Proof.
  intros Hrefl Htrans Hbody h w. rewrite for_frames_unfold.
  apply for_each_rel; try assumption.
  intros i h' w'. rewrite frameBody_unfold.
  destruct (nth_error (frameObjects (app w')) i) eqn:E; [now apply Hbody | apply Hrefl].
Qed.

Lemma for_frames_events (P : Event -> Prop) (body : nat -> FrameObjects -> M unit) :
  (forall i frame h w, Forall P (events (body i frame h w))) ->
  forall h w, Forall P (events (for_frames body h w)).
Proof.
  intros Hbody h w. rewrite for_frames_unfold. apply for_each_events.
  intros i h' w'. rewrite frameBody_unfold.
  destruct (nth_error (frameObjects (app w')) i); [apply Hbody | constructor].
Qed.

Lemma for_frames_inv (I : World -> Prop) (P : Event -> Prop)
    (body : nat -> FrameObjects -> M unit) :
  (forall i frame h w,
      nth_error (frameObjects (app w)) i = Some frame -> I w ->
      I (world (body i frame h w)) /\ Forall P (events (body i frame h w))) ->
  forall h w,
    I w ->
    I (world (for_frames body h w)) /\ Forall P (events (for_frames body h w)).
Proof.
  intros Hbody h w Hw. rewrite for_frames_unfold.
  apply for_each_inv; [|exact Hw].
  intros i h' w' Hw'. rewrite frameBody_unfold.
  destruct (nth_error (frameObjects (app w')) i) eqn:E;
    [now apply Hbody | split; [exact Hw' | constructor]].
Qed.

Lemma for_frames_ok (f : Event -> bool) (body : nat -> FrameObjects -> M unit) :
  (forall i frame h w, completed (body i frame h w) = true ->
                       forallb f (events (body i frame h w)) = true) ->
  forall h w,
    completed (for_frames body h w) = true ->
    forallb f (events (for_frames body h w)) = true.
Proof.
  intros Hbody h w. rewrite for_frames_unfold. apply for_each_ok.
  intros i h' w'. rewrite frameBody_unfold.
  destruct (nth_error (frameObjects (app w')) i); [apply Hbody | discriminate].
Qed.

Lemma for_frames_callees (body : nat -> FrameObjects -> M unit) (per : list string) :
  (forall i frame h w,
      completed (body i frame h w) = true -> callees (body i frame h w) = per) ->
  forall h w,
    completed (for_frames body h w) = true ->
    callees (for_frames body h w) =
    List.concat (repeat per (length (frameObjects (app w)))).
Proof.
  intros Hbody h w. rewrite for_frames_unfold. intros Hc.
  rewrite (for_each_callees _ (frameBody body) per); [now rewrite length_seq | | exact Hc].
  intros i h' w'. rewrite frameBody_unfold.
  destruct (nth_error (frameObjects (app w')) i); [apply Hbody | discriminate].
Qed.

Lemma isPrefix_refl (l : list string) : isPrefix l l.
Proof. exists []. now rewrite app_nil_r. Qed.

Lemma isPrefix_nil (l : list string) : isPrefix [] l.
Proof. now exists l. Qed.

Lemma isPrefix_app_r (a b c : list string) : isPrefix a b -> isPrefix a (b ++ c).
Proof. intros [r ->]. exists (r ++ c). now rewrite app_assoc. Qed.

Lemma isPrefix_app_same (p a b : list string) : isPrefix a b -> isPrefix (p ++ a) (p ++ b).
Proof. intros [r ->]. exists r. now rewrite app_assoc. Qed.

Lemma isPrefix_cons (x : string) (a b : list string) :
  isPrefix a b -> isPrefix (x :: a) (x :: b).
Proof. apply (isPrefix_app_same [x]). Qed.

Lemma prefixb_spec (l1 l2 : list string) : prefixb l1 l2 = true -> isPrefix l1 l2.
Proof.
  revert l2. induction l1 as [|a l1 IH]; intros l2 H.
  - apply isPrefix_nil.
  - destruct l2 as [|b l2]; cbn in H; [discriminate|].
    apply andb_prop in H. destruct H as [Hab H].
    apply String.eqb_eq in Hab. subst b. apply isPrefix_cons. now apply IH.
Qed.

Lemma for_each_prefix {A} (xs : list A) (body : A -> M unit) (per : list string) :
  (forall x h w,
      isPrefix (callees (body x h w)) per
      /\ (completed (body x h w) = true -> callees (body x h w) = per)) ->
  forall h w,
    isPrefix (callees (for_each xs body h w)) (List.concat (repeat per (length xs))).
Proof.
  intros Hbody. induction xs as [|x xs IH]; intros h w.
  - apply isPrefix_nil.
  - change (for_each (x :: xs) body h w)
      with (bind (body x) (fun _ => for_each xs body) h w).
    unfold callees, calls in *. rewrite events_bind, !map_app.
    cbn [length repeat List.concat].
    destruct (Hbody x h w) as [Hp He]. unfold completed in He.
    destruct (outcome (body x h w)).
    + rewrite (He eq_refl). apply isPrefix_app_same, IH.
    + cbn [map]. rewrite app_nil_r. now apply isPrefix_app_r.
    + cbn [map]. rewrite app_nil_r. now apply isPrefix_app_r.
Qed.

Lemma for_frames_prefix (body : nat -> FrameObjects -> M unit) (per : list string) :
  (forall i frame h w,
      isPrefix (callees (body i frame h w)) per
      /\ (completed (body i frame h w) = true -> callees (body i frame h w) = per)) ->
  forall h w,
    isPrefix (callees (for_frames body h w))
             (List.concat (repeat per (length (frameObjects (app w))))).
Proof.
  intros Hbody h w. rewrite for_frames_unfold.
  pose proof (for_each_prefix (seq 0 (length (frameObjects (app w))))
                (frameBody body) per) as H.
  rewrite length_seq in H. apply H.
  intros i h' w'. rewrite frameBody_unfold.
  destruct (nth_error (frameObjects (app w')) i);
    [apply Hbody | split; [apply isPrefix_nil | discriminate]].
Qed.

(* ================================================================== *)
(** ** The loops that fill local vectors *)

Lemma length_range_u32 (n : Z) : length (range_u32 n) = Z.to_nat n.
Proof. unfold range_u32. now rewrite length_map, length_seq. Qed.

Lemma push_back_loop {A B} (f : B -> A) (xs : list B) :
  forall acc, fold_left (fun v i => v ++ [f i]) xs acc = acc ++ map f xs.
Proof.
  induction xs as [|x xs IH]; intros acc; cbn.
  - now rewrite app_nil_r.
  - now rewrite IH, <- app_assoc.
Qed.

Lemma forallb_repeat {A} (f : A -> bool) (x : A) (k : nat) :
  f x = true -> forallb f (repeat x k) = true.
Proof. intros H. induction k; cbn; [reflexivity | now rewrite H]. Qed.

Lemma accelerationStructureGeometries_eq (n va ia ta : Z) :
  accelerationStructureGeometries n va ia ta =
  repeat (triangleGeometry va ia ta) (Z.to_nat n).
Proof.
  unfold accelerationStructureGeometries.
  rewrite (push_back_loop (fun _ => triangleGeometry va ia ta)). cbn.
  rewrite <- length_range_u32. induction (range_u32 n); cbn; congruence.
Qed.

Lemma accelerationStructureBuildRangeInfos_eq (n t : Z) :
  accelerationStructureBuildRangeInfos n t = map (buildRangeInfo_at t) (range_u32 n).
Proof.
  unfold accelerationStructureBuildRangeInfos. now rewrite push_back_loop.
Qed.

Lemma length_accelerationStructureBuildRangeInfos (n t : Z) :
  length (accelerationStructureBuildRangeInfos n t) = Z.to_nat n.
Proof.
  now rewrite accelerationStructureBuildRangeInfos_eq, length_map, length_range_u32.
Qed.

(** Taking the addresses of elements 0, 1 and 2 is defined exactly when
    the vector has at least three elements. *)
Lemma accelerationBuildStructureRangeInfos_spec {A} (v : list A) :
  (3 <= length v)%nat ->
  accelerationBuildStructureRangeInfos v = Some [v; skipn 1 v; skipn 2 v].
Proof.
  intros H. unfold accelerationBuildStructureRangeInfos, address_of.
  destruct v as [|a [|b [|c v]]]; cbn in H; try lia. reflexivity.
Qed.

Lemma accelerationBuildStructureRangeInfos_None {A} (v : list A) :
  (length v < 3)%nat -> accelerationBuildStructureRangeInfos v = None.
Proof.
  intros H. unfold accelerationBuildStructureRangeInfos, address_of.
  destruct v as [|a [|b [|c v]]]; cbn in H; try lia; reflexivity.
Qed.

(* ================================================================== *)
(** ** createBottomLevelAccelerationStructure: transform matrices *)

(** C9: for every i with 0 <= i < objectCount (= 3), the transform matrix
    of geometry i that createBottomLevelAccelerationStructure hands to the
    transform buffer is the identity rotation with an x translation of
    exactly 3*i - 3 and no y or z translation. *)
Theorem transformMatrix_translation :
  forall (h : Host) (w : World) (i : Z),
    objectCount (app w) = 3 ->
    0 <= i < objectCount (app w) ->
    nth_error (calls (createBottomLevelAccelerationStructure h w)) 0 =
      Some (C_createBuffer B_transformBuffer
              (objectCount (app w) * sizeof_VkTransformMatrixKHR)
              (D_transforms (transformMatrices (objectCount (app w)))))
    /\ nth_error (transformMatrices (objectCount (app w))) (Z.to_nat i) =
         Some (xTranslation (f32_of_Z (3 * i - 3)))
    /\ f32_exact_Z (f32_of_Z (3 * i - 3)) = Some (3 * i - 3)
    /\ f32_exact_Z f1 = Some 1 /\ f32_exact_Z f0 = Some 0.
Proof.
  intros h w i Hn Hi. split.
  - unfold createBottomLevelAccelerationStructure, calls. run_all; reflexivity.
  - rewrite Hn in *.
    assert (Hc : i = 0 \/ i = 1 \/ i = 2) by lia.
    destruct Hc as [-> | [-> | ->]]; repeat split; vm_compute; reflexivity.
Qed.

Lemma transformMatrix_translation_witness :
  objectCount (app exampleWorld) = 3 /\
  nth_error (transformMatrices (objectCount (app exampleWorld))) (Z.to_nat 2) =
    Some (xTranslation (f32_of_Z 3)).
Proof.
  split; [reflexivity |].
  apply (transformMatrix_translation okHost exampleWorld 2);
    [reflexivity | vm_compute; split; [discriminate | reflexivity]].
Defined.

(* ================================================================== *)
(** ** Unchecked result codes *)

(** C1 (evaluation at the failing input): with host builds enabled and a
    driver whose vkBuildAccelerationStructuresKHR returns
    VK_ERROR_OUT_OF_HOST_MEMORY, createBottomLevelAccelerationStructure
    runs to its end: the failed call is in the trace and nothing aborts. *)
Theorem host_build_failure_ignored :
  let r := createBottomLevelAccelerationStructure failingBuildHost hostBuildWorld in
  completed r = true
  /\ existsb failedCall (events r) = true
  /\ map callee (map ev_call (filter failedCall (events r))) =
       ["vkBuildAccelerationStructuresKHR"]
  /\ nth_error (callees r) 10 = Some "deleteScratchBuffer".
Proof. vm_compute. repeat split; reflexivity. Qed.

(* ================================================================== *)
(** ** createRayTracingPipeline *)

Lemma set_shaderGroups_twice l1 l2 s :
  set_shaderGroups l2 (set_shaderGroups l1 s) = set_shaderGroups l2 s.
Proof. destruct s; reflexivity. Qed.

Lemma set_shaderGroups_same s : set_shaderGroups (shaderGroups s) s = s.
Proof. destruct s; reflexivity. Qed.

Lemma callableGroups_succ a n :
  callableGroups a (S n) =
  generalGroup (u32 (u32 (Z.of_nat (S a)) - 1)) :: callableGroups (S a) n.
Proof.
  unfold callableGroups. simpl seq. simpl map. f_equal.
  - now rewrite Nat.add_1_r.
  - rewrite <- seq_shift, map_map. apply map_ext. intros k.
    now rewrite Nat.add_succ_r.
Qed.

(** The loop over the callable shaders never fails: it loads one file and
    pushes one general group per index. *)
Lemma callable_loop_run (p : string) (xs : list Z) :
  forall (stages : list VkPipelineShaderStageCreateInfo) (h : Host) (w : World),
    let r := fold_each xs stages (pushCallableShaderGroup p) h w in
    exists stages',
      outcome r = Done stages'
      /\ length stages' = (length stages + length xs)%nat
      /\ calls r = callableLoads p xs
      /\ app (world r) =
           set_shaderGroups
             (shaderGroups (app w) ++ callableGroups (length stages) (length xs)) (app w)
      /\ tick (world r) = (tick w + length xs)%nat
      /\ heap (world r) = heap w.
Proof.
  induction xs as [|x xs IH]; intros stages h w.
  - exists stages. unfold fold_each. cbn.
    rewrite !Nat.add_0_r, app_nil_r, set_shaderGroups_same.
    repeat split; reflexivity.
  - cbv zeta.
    change (fold_each (x :: xs) stages (pushCallableShaderGroup p) h w)
      with (bind (pushCallableShaderGroup p stages x)
                 (fun a => fold_each xs a (pushCallableShaderGroup p)) h w).
    cbn.
    match goal with
    | |- context [fold_each xs ?st _ h ?w1] =>
        destruct (IH st h w1) as (stages' & Ho & Hl & Hc & Ha & Ht & Hh);
        destruct (fold_each xs st (pushCallableShaderGroup p) h w1) as [o es wl]
    end.
    cbn in *. subst o. exists stages'. cbn.
    rewrite Hc, Ha, Ht, Hh, Hl, set_shaderGroups_twice, callableGroups_succ.
    rewrite length_app, <- app_assoc. cbn.
    unfold lastStage. rewrite length_app. cbn.
    rewrite !Nat.add_1_r.
    repeat split; try reflexivity; lia.
Qed.

Lemma flat_map_callableLoads (p : string) (xs : list Z) :
  flat_map (fun c => match c with C_loadShader f _ => [f] | _ => [] end)
           (callableLoads p xs) = map (callableShaderFile p) xs.
Proof.
  unfold callableLoads.
  induction xs as [|x xs IH]; cbn; [reflexivity | now rewrite IH].
Qed.

Lemma callees_callableLoads (p : string) (xs : list Z) :
  map callee (callableLoads p xs) = repeat "loadShader" (length xs).
Proof.
  unfold callableLoads.
  induction xs as [|x xs IH]; cbn; [reflexivity | now rewrite IH].
Qed.

(** What a run of createRayTracingPipeline that returns has done: the
    files it loaded, the groups it appended to [shaderGroups], and the
    functions it called. *)
Lemma createRayTracingPipeline_run (h : Host) (w : World) :
  let r := createRayTracingPipeline h w in
  let n := objectCount (app w) in
  let p := getShadersPath h in
  completed r = true ->
  loadedShaders r =
    [ p +++ "raytracingcallable/raygen.rgen.spv";
      p +++ "raytracingcallable/miss.rmiss.spv";
      p +++ "raytracingcallable/closesthit.rchit.spv" ]
    ++ map (callableShaderFile p) (range_u32 n)
  /\ shaderGroups (app (world r)) =
       shaderGroups (app w)
       ++ [generalGroup 0; generalGroup 1; closestHitGroup 2]
       ++ callableGroups 3 (length (range_u32 n))
  /\ callees r =
       [ "vkCreateDescriptorSetLayout"; "vkCreatePipelineLayout";
         "loadShader"; "loadShader"; "loadShader" ]
       ++ repeat "loadShader" (length (range_u32 n))
       ++ [ "vkCreateRayTracingPipelinesKHR" ]
  /\ objectCount (app (world r)) = n
  /\ pipeline (app (world r)) =
       answer h (5 + tick w + length (range_u32 n))%nat 1%nat.
Proof.
  cbv zeta. unfold createRayTracingPipeline, completed, loadedShaders, callees, calls.
  cbn.
  destruct (answer h (tick w) 0%nat =? VK_SUCCESS); cbn; [|discriminate].
  destruct (answer h (S (tick w)) 0%nat =? VK_SUCCESS); cbn; [|discriminate].
  match goal with
  | |- context [fold_each ?xs ?st ?b h ?w1] =>
      destruct (callable_loop_run (getShadersPath h) xs st h w1)
        as (stages' & Ho & Hl & Hc & Ha & Ht & Hh);
      destruct (fold_each xs st b h w1) as [o es wl]
  end.
  unfold calls in Hc. cbn in Ho, Hl, Hc, Ha, Ht, Hh. subst o. cbn.
  rewrite Ha. cbn.
  destruct (answer h (tick wl) 0%nat =? VK_SUCCESS); cbn; [|discriminate].
  intros _. rewrite Ht.
  rewrite !map_app, !flat_map_app, Hc, flat_map_callableLoads, callees_callableLoads.
  cbn. rewrite app_nil_r, <- !app_assoc. cbn.
  repeat split; reflexivity.
Qed.

(** C7: createRayTracingPipeline loads exactly six shader binaries, in
    this order: raygen.rgen.spv, miss.rmiss.spv, closesthit.rchit.spv and
    callable1.rcall.spv, callable2.rcall.spv, callable3.rcall.spv (the
    file callable(i+1).rcall.spv for each i below objectCount = 3), all
    under the raytracingcallable shader directory. *)
Theorem shader_files_loaded :
  forall (h : Host) (w : World),
    objectCount (app w) = 3 ->
    completed (createRayTracingPipeline h w) = true ->
    loadedShaders (createRayTracingPipeline h w) =
      [ getShadersPath h +++ "raytracingcallable/raygen.rgen.spv";
        getShadersPath h +++ "raytracingcallable/miss.rmiss.spv";
        getShadersPath h +++ "raytracingcallable/closesthit.rchit.spv";
        getShadersPath h +++ "raytracingcallable/callable1.rcall.spv";
        getShadersPath h +++ "raytracingcallable/callable2.rcall.spv";
        getShadersPath h +++ "raytracingcallable/callable3.rcall.spv" ]
    /\ map (callableShaderFile (getShadersPath h)) (range_u32 (objectCount (app w))) =
         map (fun i => getShadersPath h +++ "raytracingcallable/callable"
                         +++ to_string (i + 1) +++ ".rcall.spv")
             [0; 1; 2].
Proof.
  intros h w Hn Hc.
  destruct (createRayTracingPipeline_run h w Hc) as (Hl & _).
  rewrite Hl, Hn. split; reflexivity.
Qed.

Lemma shader_files_loaded_witness :
  objectCount (app exampleWorld) = 3 /\
  completed (createRayTracingPipeline okHost exampleWorld) = true /\
  loadedShaders (createRayTracingPipeline okHost exampleWorld) =
    [ "shaders/glsl/raytracingcallable/raygen.rgen.spv";
      "shaders/glsl/raytracingcallable/miss.rmiss.spv";
      "shaders/glsl/raytracingcallable/closesthit.rchit.spv";
      "shaders/glsl/raytracingcallable/callable1.rcall.spv";
      "shaders/glsl/raytracingcallable/callable2.rcall.spv";
      "shaders/glsl/raytracingcallable/callable3.rcall.spv" ].
Proof.
  split; [reflexivity | split; [vm_compute; reflexivity |]].
  apply (shader_files_loaded okHost exampleWorld); vm_compute; reflexivity.
Defined.

(* ================================================================== *)
(** ** createBottomLevelAccelerationStructure: the calls of a run *)

Lemma createBottomLevelAccelerationStructure_run (h : Host) (w : World) :
  let r := createBottomLevelAccelerationStructure h w in
  completed r = true ->
  calls r = blasCalls h w
  /\ (3 <= Z.to_nat (objectCount (app w)))%nat
  /\ bottomLevelAS (app (world r)) =
       mkAS (answer h (7 + tick w)%nat 1%nat) (answer h (7 + tick w)%nat 2%nat)
  /\ objectCount (app (world r)) = objectCount (app w).
Proof.
  cbv zeta.
  unfold createBottomLevelAccelerationStructure, completed, calls, blasCalls,
    buildCalls, blasBuildInfo, blasSizesInfo, blasGeometries, blasRanges.
  cbn.
  destruct (answer h (tick w) 0%nat =? VK_SUCCESS); cbn; [|discriminate].
  destruct (answer h (S (tick w)) 0%nat =? VK_SUCCESS); cbn; [|discriminate].
  destruct (answer h (S (S (tick w))) 0%nat =? VK_SUCCESS); cbn; [|discriminate].
  destruct (Nat.lt_ge_cases (Z.to_nat (objectCount (app w))) 3) as [Hlt | Hge].
  - rewrite accelerationBuildStructureRangeInfos_None
      by now rewrite length_accelerationStructureBuildRangeInfos.
    cbn. discriminate.
  - rewrite accelerationBuildStructureRangeInfos_spec
      by now rewrite length_accelerationStructureBuildRangeInfos.
    destruct (accelerationStructureHostCommands (base (app w))); cbn;
      intros _; repeat split; try reflexivity; assumption.
Qed.

(* ================================================================== *)
(** ** The heap *)

Lemma nth_error_heap_base {A} (l l' : list A) :
  nth_error (l ++ l') (length l) = nth_error l' 0.
Proof. rewrite nth_error_app2 by lia. now rewrite Nat.sub_diag. Qed.

Lemma nth_error_heap_add {A} (l l' : list A) (k : nat) :
  nth_error (l ++ l') (length l + k) = nth_error l' k.
Proof. rewrite nth_error_app2 by lia. f_equal. lia. Qed.

Lemma set_nth_heap_add {A} (l l' : list A) (k : nat) (x : A) :
  set_nth (l ++ l') (length l + k) x = l ++ set_nth l' k x.
Proof.
  induction l as [|a l IH]; cbn; [reflexivity|]. now rewrite IH.
Qed.

Lemma set_nth_heap_base {A} (l l' : list A) (x : A) :
  set_nth (l ++ l') (length l) x = l ++ set_nth l' 0 x.
Proof. rewrite <- (Nat.add_0_r (length l)) at 1. apply set_nth_heap_add. Qed.

Lemma length_set_nth {A} (l : list A) (i : nat) (x : A) :
  length (set_nth l i x) = length l.
Proof.
  revert i; induction l as [|a l IH]; intros [|i]; cbn; try reflexivity.
  now rewrite IH.
Qed.

Lemma nth_error_set_nth_eq {A} (l : list A) (i : nat) (x : A) :
  (i < length l)%nat -> nth_error (set_nth l i x) i = Some x.
Proof.
  revert i; induction l as [|a l IH]; intros [|i] H; cbn in *; try lia.
  - reflexivity.
  - apply IH. lia.
Qed.

Lemma nth_error_set_nth_ne {A} (l : list A) (i j : nat) (x : A) :
  i <> j -> nth_error (set_nth l i x) j = nth_error l j.
Proof.
  revert i j; induction l as [|a l IH]; intros [|i] [|j] H; cbn; try reflexivity.
  - congruence.
  - apply IH. congruence.
Qed.

Lemma set_nth_same {A} (l : list A) (i : nat) (x : A) :
  nth_error l i = Some x -> set_nth l i x = l.
Proof.
  revert i; induction l as [|a l IH]; intros [|i] H; cbn in *; try congruence.
  now rewrite IH.
Qed.

(** Bring the heap and the pointers of a run into the shape
    [heap w ++ cells], [length (heap w) + k]. *)
Ltac heap_norm :=
  repeat rewrite <- app_assoc;
  repeat rewrite length_app;
  cbn [app length Nat.add];
  repeat rewrite <- Nat.add_assoc;
  cbn [Nat.add];
  repeat first
    [ rewrite nth_error_heap_add
    | rewrite nth_error_heap_base
    | rewrite set_nth_heap_add
    | rewrite set_nth_heap_base ];
  cbn [app]; cbn [nth_error set_nth].

Ltac heap_norm_in H :=
  repeat rewrite <- app_assoc in H;
  repeat rewrite length_app in H;
  cbn [app length Nat.add] in H;
  repeat rewrite <- Nat.add_assoc in H;
  cbn [Nat.add] in H;
  repeat first
    [ rewrite nth_error_heap_add in H
    | rewrite nth_error_heap_base in H
    | rewrite set_nth_heap_add in H
    | rewrite set_nth_heap_base in H ];
  cbn [app] in H; cbn [nth_error set_nth] in H.

(* ================================================================== *)
(** ** createShaderBindingTables *)

Arguments repeat : simpl never.
Arguments firstn : simpl never.
Arguments skipn : simpl never.
Arguments Nat.min : simpl never.

Ltac split_test_in H :=
  match type of H with
  | context [if ?c then _ else _] => destruct c eqn:?
  end.

Lemma createShaderBindingTables_run (h : Host) (w : World) :
  let r := createShaderBindingTables h w in
  answer h (tick w) 0%nat = VK_SUCCESS ->
  completed r =
    raygenCopyInBounds h w && missCopyInBounds h w
    && hitCopyInBounds h w && callableCopyInBounds h w
  /\ faulted r = negb (completed r)
  /\ calls r = sbtCalls w
  /\ (completed r = true ->
      heap (world r) = heap w ++ sbtCells h w
      /\ shaderBindingTables (app (world r)) = sbtTables h w
      /\ objectCount (app (world r)) = objectCount (app w)
      /\ tick (world r) = (5 + tick w)%nat).
Proof.
  cbv zeta. intros Hok.
  remember (createShaderBindingTables h w) as r eqn:Hr.
  split_world w.
  unfold createShaderBindingTables in Hr. msimpl_in Hr.
  cbn [tick] in Hok.
  rewrite Hok, Z.eqb_refl in Hr. msimpl_in Hr.
  unfold raygenCopyInBounds, missCopyInBounds, hitCopyInBounds, callableCopyInBounds,
    copyInBounds, sourceInBounds, fitsDestination, sbtCells, sbtTables, sbtCalls,
    shaderHandleStorage, freshTable,
    sbtSize, sbtGroupCount, sbtHandleSizeAligned, sbtHandleSize.
  msimpl.
  repeat (heap_norm_in Hr; msimpl_in Hr; split_test_in Hr; msimpl_in Hr);
    try heap_norm_in Hr; subst r; unfold completed, faulted, calls;
    cbn [outcome events world map ev_call heap app tick andb negb];
    rewrite ?andb_false_r; repeat split; try reflexivity; try discriminate.
Qed.

Lemma createShaderBindingTables_checked (h : Host) (w : World) :
  completed (createShaderBindingTables h w) = true ->
  answer h (tick w) 0%nat = VK_SUCCESS.
Proof.
  remember (createShaderBindingTables h w) as r eqn:Hr.
  split_world w.
  unfold createShaderBindingTables in Hr. msimpl_in Hr.
  destruct (answer h tick0 0%nat =? VK_SUCCESS) eqn:E.
  - intros _. now apply Z.eqb_eq.
  - msimpl_in Hr. subst r. discriminate.
Qed.

Lemma u32_nonneg (z : Z) : 0 <= u32 z.
Proof. unfold u32. apply Z.mod_pos_bound. reflexivity. Qed.

Lemma u32_small (z : Z) : 0 <= z < 2 ^ 32 -> u32 z = z.
Proof. intros H. unfold u32. now apply Z.mod_small. Qed.

Lemma length_slice (src : list Z) (offset len : Z) :
  0 <= offset ->
  sourceInBounds src offset len = true ->
  length (slice src offset len) = Z.to_nat len.
Proof.
  unfold sourceInBounds, slice. intros Ho H. apply Z.leb_le in H.
  rewrite length_firstn, length_skipn. lia.
Qed.

(** The model of [alignedSize] rounds up: the result is the least multiple
    of the alignment that is not below the value. *)
Lemma alignedSize_round_up (value alignment : Z) :
  0 < alignment -> 0 <= value -> value + alignment <= 2 ^ 32 ->
  value <= alignedSize value alignment < value + alignment
  /\ alignedSize value alignment mod alignment = 0.
Proof.
  intros Ha Hv Hb. unfold alignedSize.
  pose proof (Z.div_mod (value + alignment - 1) alignment ltac:(lia)) as Hd.
  pose proof (Z.mod_pos_bound (value + alignment - 1) alignment Ha) as Hm.
  set (q := (value + alignment - 1) / alignment) in *.
  assert (Hq : value <= q * alignment < value + alignment) by nia.
  rewrite u32_small by lia. split; [exact Hq | apply Z.mod_mul; lia].
Qed.

Lemma alignedSize_nonneg (value alignment : Z) : 0 <= alignedSize value alignment.
Proof. apply u32_nonneg. Qed.

(** The four copies of createShaderBindingTables.  A run that returns has
    queried all groups from group 0 and has copied handleSize bytes from
    offset 0 of the handle storage into the raygen table, from offset
    handleSizeAligned into the miss table, from offset 2*handleSizeAligned
    into the hit table, and handleSize*3 bytes from offset
    3*handleSizeAligned into the callable table, where handleSizeAligned
    is shaderGroupHandleSize rounded up to shaderGroupHandleAlignment. *)
Lemma shader_binding_tables_copied :
  forall (h : Host) (w : World),
    let r := createShaderBindingTables h w in
    let t := shaderBindingTables (app (world r)) in
    let st := shaderHandleStorage h w in
    let hs := shaderGroupHandleSize (base (app w)) in
    let al := shaderGroupHandleAlignment (base (app w)) in
    let hsa := alignedSize hs al in
    completed r = true ->
    0 < al -> 0 <= hs -> hs + al <= 2 ^ 32 ->
    nth_error (calls r) 0 =
      Some (C_vkGetRayTracingShaderGroupHandlesKHR (pipeline (app w)) 0
              (sbtGroupCount w) (sbtSize w))
    /\ tableBytes (world r) (raygen t) =
         Some (write_prefix (freshTable w 1) (slice st 0 hs))
    /\ tableBytes (world r) (miss t) =
         Some (write_prefix (freshTable w 1) (slice st hsa hs))
    /\ tableBytes (world r) (hit t) =
         Some (write_prefix (freshTable w 1) (slice st (u32 (hsa * 2)) hs))
    /\ tableBytes (world r) (callable t) =
         Some (write_prefix (freshTable w (objectCount (app w)))
                 (slice st (u32 (hsa * 3)) (u32 (hs * 3))))
    /\ length (slice st 0 hs) = Z.to_nat hs
    /\ length (slice st hsa hs) = Z.to_nat hs
    /\ length (slice st (u32 (hsa * 2)) hs) = Z.to_nat hs
    /\ length (slice st (u32 (hsa * 3)) (u32 (hs * 3))) = Z.to_nat (u32 (hs * 3))
    /\ (hs <= hsa < hs + al /\ hsa mod al = 0).
Proof.
  intros h w r t st hs al hsa Hc Hal Hhs Hb.
  pose proof (createShaderBindingTables_checked h w Hc) as Hok.
  destruct (createShaderBindingTables_run h w Hok) as (Hcomp & _ & Hcalls & Hdone).
  fold r in Hcomp, Hcalls, Hdone.
  destruct (Hdone Hc) as (Hheap & Htab & _ & _).
  rewrite Hc in Hcomp. symmetry in Hcomp.
  apply andb_prop in Hcomp; destruct Hcomp as [Hcomp H4].
  apply andb_prop in Hcomp; destruct Hcomp as [Hcomp H3].
  apply andb_prop in Hcomp; destruct Hcomp as [H1 H2].
  apply andb_prop in H1; destruct H1 as [H1 _].
  apply andb_prop in H2; destruct H2 as [H2 _].
  apply andb_prop in H3; destruct H3 as [H3 _].
  apply andb_prop in H4; destruct H4 as [H4 _].
  split; [rewrite Hcalls; reflexivity|].
  unfold tableBytes, t. rewrite Htab, Hheap. unfold sbtTables, sbtCells.
  cbn [raygen miss hit callable buf_mapped].
  rewrite nth_error_heap_base, !nth_error_heap_add. cbn [nth_error].
  repeat split; try reflexivity.
  - apply length_slice; [lia | exact H1].
  - apply length_slice; [apply alignedSize_nonneg | exact H2].
  - apply length_slice; [apply u32_nonneg | exact H3].
  - apply length_slice; [apply u32_nonneg | exact H4].
  - apply alignedSize_round_up; assumption.
  - apply alignedSize_round_up; assumption.
  - apply alignedSize_round_up; assumption.
Qed.

Lemma shader_binding_tables_copied_witness :
  completed (createShaderBindingTables okHost pipelineWorld) = true /\
  tableBytes (world (createShaderBindingTables okHost pipelineWorld))
    (miss (shaderBindingTables
             (app (world (createShaderBindingTables okHost pipelineWorld))))) =
  Some (write_prefix (freshTable pipelineWorld 1)
          (slice (shaderHandleStorage okHost pipelineWorld) (alignedSize 32 64) 32)).
Proof.
  split; [vm_compute; reflexivity |].
  destruct (shader_binding_tables_copied okHost pipelineWorld)
    as (_ & _ & H & _);
    [ vm_compute; reflexivity | vm_compute; reflexivity
    | vm_compute; discriminate | vm_compute; discriminate | ].
  exact H.
Defined.


(* ================================================================== *)
(** ** Bounds that depend on objectCount *)




(* ================================================================== *)
(** ** One callable shader per geometry *)

Lemma forallb_callableGroups (a k : nat) :
  forallb isGeneralGroup (callableGroups a k) = true.
Proof.
  unfold callableGroups. induction (seq 0 k); cbn; [reflexivity | assumption].
Qed.

Lemma length_callableGroups (a k : nat) : length (callableGroups a k) = k.
Proof. unfold callableGroups. now rewrite length_map, length_seq. Qed.

Lemma length_blasGeometries (h : Host) (w : World) :
  length (blasGeometries h w) = Z.to_nat (objectCount (app w)).
Proof.
  unfold blasGeometries. rewrite accelerationStructureGeometries_eq.
  apply repeat_length.
Qed.

(** C2: one callable shader per ray-traced geometry.  The bottom level
    build gets exactly objectCount triangle geometries,
    createRayTracingPipeline appends exactly objectCount callable (general)
    groups after the raygen, miss and hit groups, and the callable shader
    binding table is created with exactly objectCount handles. *)
Theorem one_callable_per_geometry :
  forall (h : Host) (w1 w2 w3 : World),
    let n := objectCount (app w1) in
    0 <= n < 2 ^ 32 ->
    objectCount (app w2) = n ->
    objectCount (app w3) = n ->
    completed (createBottomLevelAccelerationStructure h w1) = true ->
    completed (createRayTracingPipeline h w2) = true ->
    completed (createShaderBindingTables h w3) = true ->
    (builtGeometries (createBottomLevelAccelerationStructure h w1) =
       [blasGeometries h w1]
     /\ Z.of_nat (length (blasGeometries h w1)) = n
     /\ forallb isTriangles (blasGeometries h w1) = true
     /\ geometryCount (blasBuildInfo h w1) = n)
    /\ (shaderGroups (app (world (createRayTracingPipeline h w2))) =
          shaderGroups (app w2)
          ++ [generalGroup 0; generalGroup 1; closestHitGroup 2]
          ++ callableGroups 3 (Z.to_nat n)
        /\ Z.of_nat (length (callableGroups 3 (Z.to_nat n))) = n
        /\ forallb isGeneralGroup (callableGroups 3 (Z.to_nat n)) = true)
    /\ callableTableHandleCounts (createShaderBindingTables h w3) = [n].
Proof.
  intros h w1 w2 w3 n Hn E2 E3 C1 C2 C3.
  split; [|split].
  - destruct (createBottomLevelAccelerationStructure_run h w1 C1) as (Hcalls & _).
    repeat split.
    + unfold builtGeometries. rewrite Hcalls. unfold blasCalls, buildCalls.
      destruct (accelerationStructureHostCommands (base (app w1))); reflexivity.
    + rewrite length_blasGeometries. fold n. lia.
    + unfold blasGeometries. rewrite accelerationStructureGeometries_eq.
      now apply forallb_repeat.
    + cbn [geometryCount blasBuildInfo]. rewrite length_blasGeometries. fold n.
      rewrite Z2Nat.id by lia. now apply u32_small.
  - destruct (createRayTracingPipeline_run h w2 C2) as (_ & Hg & _).
    rewrite Hg, length_range_u32, E2. repeat split.
    + rewrite length_callableGroups. lia.
    + apply forallb_callableGroups.
  - pose proof (createShaderBindingTables_checked h w3 C3) as Hok.
    destruct (createShaderBindingTables_run h w3 Hok) as (_ & _ & Hcalls & _).
    unfold callableTableHandleCounts. rewrite Hcalls. unfold sbtCalls.
    cbn. now rewrite E3.
Qed.

Lemma one_callable_per_geometry_witness :
  callableTableHandleCounts (createShaderBindingTables okHost pipelineWorld) = [3]
  /\ length (blasGeometries okHost exampleWorld) = 3%nat
  /\ length (callableGroups 3 (Z.to_nat 3)) = 3%nat.
Proof.
  destruct (one_callable_per_geometry okHost exampleWorld exampleWorld pipelineWorld)
    as (_ & _ & H);
    [ split; vm_compute; [discriminate | reflexivity]
    | vm_compute; reflexivity .. | ].
  split; [exact H | split; vm_compute; reflexivity].
Defined.

(* ================================================================== *)
(** ** draw: the loop after a resize *)

Lemma set_frameObjects_twice l1 l2 s :
  set_frameObjects l2 (set_frameObjects l1 s) = set_frameObjects l2 s.
Proof. destruct s; reflexivity. Qed.

Lemma frameObjects_set_frameObjects l s :
  frameObjects (set_frameObjects l s) = l.
Proof. destruct s; reflexivity. Qed.

Lemma map_set_nth_same {A B} (g : A -> B) (l : list A) (i : nat) (x y : A) :
  nth_error l i = Some y -> g x = g y -> map g (set_nth l i x) = map g l.
Proof.
  revert i; induction l as [|a l IH]; intros [|i] Hn Hg; cbn in *;
    try discriminate.
  - injection Hn as ->. now rewrite Hg.
  - now rewrite (IH i).
Qed.

Lemma nth_error_same_map {A B} (g : A -> B) (l l' : list A) (i : nat) (y' : A) :
  map g l' = map g l -> nth_error l' i = Some y' ->
  exists y, nth_error l i = Some y /\ g y = g y'.
Proof.
  intros Hm Hn.
  assert (H : nth_error (map g l) i = Some (g y')).
  { rewrite <- Hm. now apply map_nth_error. }
  rewrite nth_error_map in H.
  destruct (nth_error l i) as [y|]; cbn in H; [|discriminate].
  exists y. split; [reflexivity | congruence].
Qed.

Lemma sameButStorageImages_refl (w : World) : sameButStorageImages w w.
Proof.
  exists (frameObjects (app w)), (tick w). split; [|reflexivity].
  destruct w as [t a hp]; destruct a; reflexivity.
Qed.

Lemma sameButStorageImages_trans (a b c : World) :
  sameButStorageImages a b -> sameButStorageImages b c -> sameButStorageImages a c.
Proof.
  intros (f1 & t1 & -> & H1) (f2 & t2 & -> & H2).
  exists f2, t2. cbn [app heap] in *.
  rewrite set_frameObjects_twice. split; [reflexivity|].
  now rewrite H2, frameObjects_set_frameObjects.
Qed.

Lemma recreateStorageImage_world (i : nat) (frame : FrameObjects) (h : Host) (w : World) :
  nth_error (frameObjects (app w)) i = Some frame ->
  sameButStorageImages w (world (recreateStorageImage i frame h w)).
Proof.
  intros Hn. split_world w. cbn [app frameObjects] in Hn.
  unfold recreateStorageImage. msimpl.
  eexists _, _. split; [reflexivity|].
  cbn [app frameObjects]. apply (map_set_nth_same frameCore _ _ _ frame Hn).
  destruct frame; reflexivity.
Qed.

Lemma recreateStorageImage_events (i : nat) (frame : FrameObjects) (h : Host) (w : World) :
  Forall quietCall (events (recreateStorageImage i frame h w)).
Proof.
  split_world w. unfold recreateStorageImage. msimpl.
  repeat constructor.
Qed.

Lemma recreateStorageImage_callees (i : nat) (frame : FrameObjects) (h : Host) (w : World) :
  callees (recreateStorageImage i frame h w) =
  ["createStorageImage"; "vkUpdateDescriptorSets"].
Proof.
  split_world w. unfold recreateStorageImage, callees, calls. msimpl. reflexivity.
Qed.

Lemma resize_loop_world (h : Host) (w : World) :
  sameButStorageImages w (world (for_frames recreateStorageImage h w)).
Proof.
  apply for_frames_rel.
  - apply sameButStorageImages_refl.
  - apply sameButStorageImages_trans.
  - intros. now apply recreateStorageImage_world.
Qed.

Lemma resize_loop_events (h : Host) (w : World) :
  Forall quietCall (events (for_frames recreateStorageImage h w)).
Proof. apply for_frames_events. intros. apply recreateStorageImage_events. Qed.

Lemma resize_loop_prefix (h : Host) (w : World) :
  isPrefix (callees (for_frames recreateStorageImage h w))
    (List.concat (repeat ["createStorageImage"; "vkUpdateDescriptorSets"]
                    (length (frameObjects (app w))))).
Proof.
  apply for_frames_prefix. intros i frame h' w'.
  rewrite recreateStorageImage_callees. split; [apply isPrefix_refl | reflexivity].
Qed.

Lemma resize_loop_callees (h : Host) (w : World) :
  completed (for_frames recreateStorageImage h w) = true ->
  callees (for_frames recreateStorageImage h w) =
  List.concat (repeat ["createStorageImage"; "vkUpdateDescriptorSets"]
                 (length (frameObjects (app w)))).
Proof.
  apply for_frames_callees. intros. apply recreateStorageImage_callees.
Qed.

Lemma resize_loop_ok (h : Host) (w : World) :
  completed (for_frames recreateStorageImage h w) = true ->
  forallb okEvent (events (for_frames recreateStorageImage h w)) = true.
Proof.
  apply for_frames_ok. intros i frame h' w' _.
  split_world w'. unfold recreateStorageImage. msimpl. reflexivity.
Qed.

Lemma filter_quiet (f : Call -> bool) (es : list Event) :
  (forall e, quietCall e -> f (ev_call e) = false) ->
  Forall quietCall es -> filter f (map ev_call es) = [].
Proof.
  intros Hf H. induction H as [|e es He _ IH]; cbn; [reflexivity|].
  now rewrite (Hf e He).
Qed.

Lemma quiet_frameSync e : quietCall e -> frameSync (ev_call e) = false.
Proof. now intros [H _]. Qed.

Lemma quiet_isFenceWait e : quietCall e -> isFenceWait (ev_call e) = false.
Proof. intros [H _]. destruct (ev_call e); try reflexivity; discriminate. Qed.

Lemma quiet_isSubmit e : quietCall e -> isSubmit (ev_call e) = false.
Proof. intros [H _]. destruct (ev_call e); try reflexivity; discriminate. Qed.

Lemma quiet_isBegin e : quietCall e -> isBegin (ev_call e) = false.
Proof. intros [H _]. destruct (ev_call e); try reflexivity; discriminate. Qed.

Lemma quiet_recorded (es : list Event) (x : Z) :
  Forall quietCall es ->
  Forall (fun c => forall cb, recordedInto c = Some cb -> cb = x) (map ev_call es).
Proof.
  intros H. induction H as [|e es [_ He] _ IH]; cbn; constructor; try assumption.
  intros cb Hcb. rewrite He in Hcb. discriminate.
Qed.

(** Replace the loop after a resize by what is known about it. *)
Ltac abstract_resize_loop Hr :=
  match type of Hr with
  | context [for_frames recreateStorageImage ?h ?W] =>
      let frames' := fresh "frames'" in
      let t' := fresh "t'" in
      let Hw := fresh "Hw" in
      let Hcore := fresh "Hcore" in
      let Hev := fresh "Hev" in
      let o := fresh "o" in
      let es := fresh "es" in
      let wl := fresh "wl" in
      destruct (resize_loop_world h W) as (frames' & t' & Hw & Hcore);
      pose proof (resize_loop_events h W) as Hev;
      pose proof (resize_loop_prefix h W) as Hpre;
      pose proof (resize_loop_callees h W) as Hcal;
      pose proof (resize_loop_ok h W) as Hok;
      destruct (for_frames recreateStorageImage h W) as [o es wl];
      unfold callees, calls, completed in Hpre, Hcal, Hok;
      cbn [world events outcome] in Hw, Hev, Hpre, Hcal, Hok; subst wl;
      cbn [app heap frameObjects] in Hcore, Hpre, Hcal;
      destruct o as [[]| |]; msimpl_in Hr
  end.

Ltac split_nth_in H :=
  match type of H with
  | context [nth_error ?l ?i] =>
      let f := fresh "f" in
      destruct (nth_error l i) as [f|] eqn:?
  end.

Ltac draw_step Hr :=
  first
    [ split_test_in Hr
    | match type of Hr with
      | context [nth_error ?l ?i] => destruct (nth_error l i) eqn:?
      end
    | match goal with f : FrameObjects |- _ => split_frame f end
    | match goal with m : MemVal |- _ => destruct m end
    | match goal with d : BufferData |- _ => destruct d end
    | match type of Hr with
      | context [match ?x with Some _ => _ | None => _ end] => destruct x eqn:?
      end ];
  msimpl_in Hr.

(** Run draw symbolically: [Hr] ends as [r = mkResult o events w']. *)
Ltac draw_exec h w r Hr :=
  remember (draw h w) as r eqn:Hr;
  split_world_deep w; unfold draw in Hr; msimpl_in Hr;
  match type of Hr with
  | context [for_frames recreateStorageImage _ _] => idtac
  end;
  match goal with
  | resized0 : bool |- _ =>
      match type of Hr with
      | context [if resized0 then _ else _] => destruct resized0
      end
  end;
  [ abstract_resize_loop Hr | msimpl_in Hr ];
  repeat draw_step Hr.

Ltac draw_calls :=
  unfold calls; cbn [outcome events world completed map ev_call];
  rewrite ?map_app; cbn [map ev_call].

Ltac filter_calls Hev :=
  cbn [filter frameSync isFenceWait isSubmit isBegin];
  rewrite ?filter_app;
  rewrite ?(filter_quiet frameSync _ quiet_frameSync Hev),
          ?(filter_quiet isFenceWait _ quiet_isFenceWait Hev),
          ?(filter_quiet isSubmit _ quiet_isSubmit Hev),
          ?(filter_quiet isBegin _ quiet_isBegin Hev);
  cbn [filter frameSync isFenceWait isSubmit isBegin List.app List.length].

Ltac recorded_calls :=
  repeat constructor; intros ? Hcb; cbn [recordedInto] in Hcb; congruence.

(** C4: in every frame draw waits on at most one fence and submits at
    most one command buffer; a frame that runs to its end waits on exactly
    one fence, the renderCompleteFence of the current frame, resets it,
    begins and ends the recording of exactly one command buffer, that of
    the current frame, into which every command is recorded, and submits
    once. *)
Theorem draw_one_fence_one_submit :
  forall (h : Host) (w : World),
    let r := draw h w in
    (length (filter isFenceWait (calls r)) <= 1)%nat
    /\ (length (filter isSubmit (calls r)) <= 1)%nat
    /\ (length (filter isBegin (calls r)) <= 1)%nat
    /\ (completed r = true ->
        exists frame,
          currentFrameOf w = Some frame
          /\ filter frameSync (calls r) =
               [ C_vkWaitForFences 1 (renderCompleteFence frame) UINT64_MAX;
                 C_vkResetFences 1 (renderCompleteFence frame);
                 C_vkBeginCommandBuffer (commandBuffer frame);
                 C_vkEndCommandBuffer (commandBuffer frame);
                 C_submitFrame ]
          /\ Forall (fun c => forall cb, recordedInto c = Some cb ->
                                       cb = commandBuffer frame) (calls r)).
Proof.
  intros h w. cbv zeta. draw_exec h w r Hr.
  all: subst r; draw_calls.
  all: first [ filter_calls Hev
             | cbn [filter frameSync isFenceWait isSubmit isBegin List.app
                    List.length] ].
  all: repeat split; try lia; try discriminate.
  all: intros _; unfold currentFrameOf; cbn [app base frameObjects currentBuffer].
  all: first
    [ match goal with
      | Hcore : map frameCore _ = map frameCore _,
        Hn' : nth_error _ _ = Some (mkFrame _ _ _ _ _) |- _ =>
          destruct (nth_error_same_map frameCore _ _ _ _ Hcore Hn')
            as (frame & Hn & Hg);
          exists frame; split; [exact Hn|];
          destruct frame; unfold frameCore in Hg; cbn in Hg;
          injection Hg as -> -> -> ->; cbn [renderCompleteFence commandBuffer];
          split; [reflexivity|];
          constructor; [intros ? Hcb; discriminate|];
          apply Forall_app; split; [now apply quiet_recorded | recorded_calls]
      end
    | eexists; split; [eassumption|]; cbn [renderCompleteFence commandBuffer];
      split; [reflexivity | recorded_calls] ].
Qed.

Lemma draw_one_fence_one_submit_witness :
  completed (draw zeroHost preparedWorld) = true /\
  exists frame,
    currentFrameOf preparedWorld = Some frame
    /\ filter frameSync (calls (draw zeroHost preparedWorld)) =
         [ C_vkWaitForFences 1 (renderCompleteFence frame) UINT64_MAX;
           C_vkResetFences 1 (renderCompleteFence frame);
           C_vkBeginCommandBuffer (commandBuffer frame);
           C_vkEndCommandBuffer (commandBuffer frame);
           C_submitFrame ].
Proof.
  split; [vm_compute; reflexivity |].
  destruct (draw_one_fence_one_submit zeroHost preparedWorld) as (_ & _ & _ & H).
  destruct H as (frame & H1 & H2 & _); [vm_compute; reflexivity |].
  exists frame. split; assumption.
Defined.

(* ================================================================== *)
(** ** draw: the uniform data *)

(** C10: draw updates the uniform data and the current frame's mapped
    uniform buffer only when the application is not paused or the camera
    has been updated: when paused holds and camera.updated is false, a
    frame leaves uniformData and all mapped memory as they were. *)
Theorem uniform_update_gated :
  forall (h : Host) (w : World),
    paused (base (app w)) = true ->
    cam_updated (camera (base (app w))) = false ->
    uniformData (app (world (draw h w))) = uniformData (app w)
    /\ heap (world (draw h w)) = heap w.
Proof.
  intros h w Hp Hc. draw_exec h w r Hr.
  all: cbn [paused cam_updated camera base app] in Hp, Hc; subst paused0 cam_updated0.
  all: try match goal with
           | H : _ = true |- _ => cbn [negb orb] in H; discriminate H
           end.
  all: subst r; cbn [world app heap uniformData]; split; reflexivity.
Qed.

Lemma uniform_update_gated_witness :
  uniformData (app (world (draw zeroHost pausedWorld))) = uniformData (app pausedWorld)
  /\ heap (world (draw zeroHost pausedWorld)) = heap pausedWorld.
Proof.
  apply (uniform_update_gated zeroHost pausedWorld); vm_compute; reflexivity.
Defined.

(** The other direction: a frame that runs to its end while the
    application is not paused, or after the camera moved, stores the two
    inverse matrices in uniformData and copies them to the mapped uniform
    buffer of the current frame. *)
Lemma uniform_update_performed (h : Host) (w : World) :
  negb (paused (base (app w))) || cam_updated (camera (base (app w))) = true ->
  completed (draw h w) = true ->
  uniformData (app (world (draw h w))) =
    mkUniformData (glm_inverse h (cam_view (camera (base (app w)))))
                  (glm_inverse h (cam_perspective (camera (base (app w)))))
  /\ exists frame p,
       currentFrameOf w = Some frame
       /\ buf_mapped (ubo frame) = Some p
       /\ nth_error (heap (world (draw h w))) p =
            Some (MObject (D_uniform (uniformData (app (world (draw h w)))))).
Proof.
  intros Hu Hc. revert Hc. draw_exec h w r Hr.
  all: cbn [paused cam_updated camera base app negb orb] in Hu.
  all: unfold negb, orb in Hu; try congruence.
  all: subst r; cbn [completed outcome]; try discriminate; intros _.
  all: cbn [world app heap uniformData cam_view cam_perspective camera base].
  all: split; [reflexivity|].
  all: unfold currentFrameOf; cbn [app base frameObjects currentBuffer].
  all: first
    [ match goal with
      | Hcore : map frameCore _ = map frameCore _,
        Hn' : nth_error _ _ = Some (mkFrame _ _ _ _ _) |- _ =>
          destruct (nth_error_same_map frameCore _ _ _ _ Hcore Hn')
            as (frame & Hn & Hg);
          exists frame; eexists; split; [exact Hn|];
          destruct frame; unfold frameCore in Hg; cbn in Hg;
          injection Hg as -> -> -> ->; cbn [ubo buf_mapped]
      end
    | eexists; eexists; split; [eassumption|]; cbn [ubo buf_mapped] ].
  all: split; [reflexivity|].
  all: apply nth_error_set_nth_eq; apply nth_error_Some; congruence.
Qed.

(* ================================================================== *)
(** ** What the setup functions leave alone *)

Lemma stable_refl (w : World) : stable w w.
Proof. split; reflexivity. Qed.

Lemma stable_trans (a b c : World) : stable a b -> stable b c -> stable a c.
Proof. intros [H1 H2] [H3 H4]. split; congruence. Qed.

Lemma sameAS_refl (w : World) : sameAS w w.
Proof. split; reflexivity. Qed.

Lemma sameAS_trans (a b c : World) : sameAS a b -> sameAS b c -> sameAS a c.
Proof. intros [H1 H2] [H3 H4]. split; congruence. Qed.

(** Run a straight-line function symbolically, through every test. *)
Ltac exec_all f h w r Hr :=
  remember (f h w) as r eqn:Hr;
  split_world_deep w; unfold f in Hr; msimpl_in Hr;
  repeat draw_step Hr.

Lemma createBottomLevelAccelerationStructure_stable (h : Host) (w : World) :
  stable w (world (createBottomLevelAccelerationStructure h w)).
Proof.
  exec_all createBottomLevelAccelerationStructure h w r Hr.
  all: subst r; split; reflexivity.
Qed.

Lemma createTopLevelAccelerationStructure_stable (h : Host) (w : World) :
  stable w (world (createTopLevelAccelerationStructure h w)).
Proof.
  exec_all createTopLevelAccelerationStructure h w r Hr.
  all: subst r; split; reflexivity.
Qed.

Lemma createTopLevelAccelerationStructure_run (h : Host) (w : World) :
  let r := createTopLevelAccelerationStructure h w in
  nth_error (calls r) 0 =
    Some (C_createBuffer B_instancesBuffer sizeof_VkAccelerationStructureInstanceKHR
            (D_instance (tlasInstance w)))
  /\ (completed r = true ->
      nth_error (calls r) 3 =
        Some (C_createAccelerationStructure VK_ACCELERATION_STRUCTURE_TYPE_TOP_LEVEL_KHR)
      /\ topLevelAS (app (world r)) =
           mkAS (answer h (3 + tick w)%nat 1%nat) (answer h (3 + tick w)%nat 2%nat)
      /\ callees r =
           [ "createBuffer"; "getBufferDeviceAddress";
             "vkGetAccelerationStructureBuildSizesKHR";
             "createAccelerationStructure"; "createScratchBuffer" ]
           ++ (if accelerationStructureHostCommands (base (app w))
               then [ "vkBuildAccelerationStructuresKHR" ]
               else [ "createCommandBuffer"; "vkCmdBuildAccelerationStructuresKHR";
                      "flushCommandBuffer" ])
           ++ [ "deleteScratchBuffer"; "Buffer::destroy" ]).
Proof.
  cbv zeta.
  exec_all createTopLevelAccelerationStructure h w r Hr.
  all: subst r; unfold callees, calls, completed, tlasInstance;
    cbn [outcome events world map ev_call nth_error app tick base bottomLevelAS
         topLevelAS as_deviceAddress accelerationStructureHostCommands];
    split; [reflexivity|]; try discriminate; intros _;
    repeat split; reflexivity.
Qed.

Lemma createShaderBindingTables_stable (h : Host) (w : World) :
  stable w (world (createShaderBindingTables h w))
  /\ sameAS w (world (createShaderBindingTables h w)).
Proof.
  remember (createShaderBindingTables h w) as r eqn:Hr.
  split_world w.
  unfold createShaderBindingTables in Hr. msimpl_in Hr.
  split_test_in Hr; msimpl_in Hr.
  - repeat (heap_norm_in Hr; msimpl_in Hr; split_test_in Hr; msimpl_in Hr);
      subst r; repeat split; reflexivity.
  - subst r; repeat split; reflexivity.
Qed.

Lemma createRayTracingPipeline_stable (h : Host) (w : World) :
  stable w (world (createRayTracingPipeline h w))
  /\ sameAS w (world (createRayTracingPipeline h w)).
Proof.
  remember (createRayTracingPipeline h w) as r eqn:Hr.
  split_world w. unfold createRayTracingPipeline in Hr. msimpl_in Hr.
  split_test_in Hr; msimpl_in Hr; [|subst r; repeat split; reflexivity].
  split_test_in Hr; msimpl_in Hr; [|subst r; repeat split; reflexivity].
  match type of Hr with
  | context [fold_each ?xs ?st ?b h ?w1] =>
      destruct (callable_loop_run (getShadersPath h) xs st h w1)
        as (stages' & Ho & Hl & Hc & Ha & Ht & Hh);
      destruct (fold_each xs st b h w1) as [o es wl]
  end.
  cbn [outcome world app] in Ho, Ha. subst o.
  destruct wl as [tl al hl]. cbn [app] in Ha. subst al.
  msimpl_in Hr.
  split_test_in Hr; msimpl_in Hr; subst r; repeat split; reflexivity.
Qed.

(* ================================================================== *)
(** ** createDescriptorSets and the per-frame resources *)

Lemma allocateFrameDescriptorSet_spec (i : nat) (frame : FrameObjects)
    (h : Host) (w : World) :
  let r := allocateFrameDescriptorSet i frame h w in
  stable w (world r) /\ sameAS w (world r)
  /\ Forall (bindsAccelerationStructure (as_handle (topLevelAS (app w)))) (events r)
  /\ (completed r = true ->
      callees r = ["vkAllocateDescriptorSets"; "vkUpdateDescriptorSets"]).
Proof.
  cbv zeta.
  remember (allocateFrameDescriptorSet i frame h w) as r eqn:Hr.
  split_world_deep w. split_frame frame.
  unfold allocateFrameDescriptorSet in Hr. msimpl_in Hr.
  repeat draw_step Hr.
  all: subst r; unfold stable, sameAS, callees, calls, completed;
    cbn [world events outcome app base prepared objectCount bottomLevelAS
         topLevelAS as_handle map ev_call callee];
    repeat split; try reflexivity; try discriminate;
    repeat constructor.
Qed.

Lemma createDescriptorSets_spec (h : Host) (w : World) :
  let r := createDescriptorSets h w in
  stable w (world r) /\ sameAS w (world r)
  /\ Forall (bindsAccelerationStructure (as_handle (topLevelAS (app w)))) (events r)
  /\ (completed r = true ->
      callees r =
        "vkCreateDescriptorPool"
        :: List.concat (repeat ["vkAllocateDescriptorSets"; "vkUpdateDescriptorSets"]
                          (length (frameObjects (app w))))).
Proof.
  cbv zeta.
  remember (createDescriptorSets h w) as r eqn:Hr.
  unfold createDescriptorSets in Hr.
  split_world w. msimpl_in Hr.
  split_test_in Hr; msimpl_in Hr.
  - match type of Hr with
    | context [for_frames allocateFrameDescriptorSet h ?W] =>
        pose proof (for_frames_inv
          (fun w' => stable W w' /\ sameAS W w')
          (bindsAccelerationStructure (as_handle (topLevelAS (app W))))
          allocateFrameDescriptorSet) as Hinv;
        pose proof (for_frames_callees allocateFrameDescriptorSet
          ["vkAllocateDescriptorSets"; "vkUpdateDescriptorSets"]) as Hcal;
        specialize (Hinv ltac:(
          intros i frame h' w' _ [Hs Ha];
          destruct (allocateFrameDescriptorSet_spec i frame h' w')
            as (Hs' & Ha' & He & _);
          split; [split; [eapply stable_trans | eapply sameAS_trans]; eassumption|];
          destruct Ha as [_ Ht]; rewrite <- Ht; exact He) h W
          (conj (stable_refl W) (sameAS_refl W)));
        specialize (Hcal ltac:(
          intros i frame h' w' Hc;
          now apply allocateFrameDescriptorSet_spec) h W);
        destruct Hinv as [[Hs Ha] He];
        destruct (for_frames allocateFrameDescriptorSet h W) as [o es wl]
    end.
    unfold stable, sameAS, callees, calls, completed in *.
    cbn [world events outcome app base prepared objectCount bottomLevelAS
         topLevelAS as_handle frameObjects] in *.
    subst r. destruct o as [[]| |]; cbn [world events outcome map ev_call callee];
      (split; [exact Hs | split; [exact Ha | split]]);
      try (constructor; [exact I | exact He]); try discriminate.
    intros _. f_equal. now apply Hcal.
  - subst r. unfold stable, sameAS, callees, calls, completed.
    cbn [world events outcome app base prepared objectCount bottomLevelAS
         topLevelAS as_handle].
    repeat split; try reflexivity; try discriminate. repeat constructor.
Qed.

Lemma prepareFrameResources_spec (i : nat) (frame : FrameObjects)
    (h : Host) (w : World) :
  let r := prepareFrameResources i frame h w in
  stable w (world r)
  /\ (completed r = true ->
      callees r =
        ["createFrameObjects"; "createStorageImage"; "createBuffer"; "Buffer::map"]).
Proof.
  cbv zeta.
  remember (prepareFrameResources i frame h w) as r eqn:Hr.
  split_world_deep w. split_frame frame.
  unfold prepareFrameResources in Hr. msimpl_in Hr.
  repeat draw_step Hr.
  all: subst r; unfold stable, callees, calls, completed;
    cbn [world events outcome app base prepared objectCount map ev_call callee];
    repeat split; try reflexivity; try discriminate.
Qed.

Lemma length_resize {A} (v : list A) (n : nat) (d : A) : length (resize v n d) = n.
Proof.
  unfold resize. rewrite length_app, length_firstn, repeat_length. lia.
Qed.

Lemma prepareFrameObjects_spec (h : Host) (w : World) :
  let r := prepareFrameObjects h w in
  stable w (world r)
  /\ (completed r = true ->
      callees r =
        "VulkanRaytracingSample::prepare"
        :: List.concat
             (repeat ["createFrameObjects"; "createStorageImage"; "createBuffer";
                      "Buffer::map"]
                     (Z.to_nat (swapChain_imageCount (base (app w)))))).
Proof.
  cbv zeta.
  remember (prepareFrameObjects h w) as r eqn:Hr.
  unfold prepareFrameObjects in Hr.
  split_world w. msimpl_in Hr.
  match type of Hr with
  | context [for_frames prepareFrameResources h ?W] =>
      pose proof (for_frames_rel stable prepareFrameResources
                    stable_refl stable_trans) as Hst;
      pose proof (for_frames_callees prepareFrameResources
        ["createFrameObjects"; "createStorageImage"; "createBuffer"; "Buffer::map"])
        as Hcal;
      specialize (Hst ltac:(
        intros i frame h' w' _; now apply prepareFrameResources_spec) h W);
      specialize (Hcal ltac:(
        intros i frame h' w' Hc; now apply prepareFrameResources_spec) h W);
      destruct (for_frames prepareFrameResources h W) as [o es wl]
  end.
  unfold stable, callees, calls, completed in *.
  cbn [world events outcome app base prepared objectCount frameObjects
       swapChain_imageCount] in *.
  rewrite length_resize in Hcal.
  subst r. destruct o as [[]| |]; cbn [world events outcome map ev_call callee];
    (split; [exact Hst|]); try discriminate.
  intros _. f_equal. now apply Hcal.
Qed.

(* ================================================================== *)
(** ** prepare *)

Lemma buildCommandBuffers_run (h : Host) (w : World) :
  buildCommandBuffers h w =
  mkResult (Done tt) [mkEvent C_buildCommandBuffers (answer h (tick w) 0%nat)]
           (mkWorld (S (tick w)) (app w) (heap w)).
Proof. reflexivity. Qed.

Lemma modify_run (f : VulkanExample -> VulkanExample) (h : Host) (w : World) :
  modify f h w = mkResult (Done tt) [] (mkWorld (tick w) (f (app w)) (heap w)).
Proof. reflexivity. Qed.

Lemma seq_run {B} (m : M unit) (k : M B) (h : Host) (w : World) :
  completed (bind m (fun _ => k) h w) =
    completed (m h w) && completed (k h (world (m h w)))
  /\ world (bind m (fun _ => k) h w) =
       (if completed (m h w) then world (k h (world (m h w))) else world (m h w))
  /\ events (bind m (fun _ => k) h w) =
       events (m h w)
       ++ (if completed (m h w) then events (k h (world (m h w))) else []).
Proof.
  rewrite bind_run. unfold completed.
  destruct (outcome (m h w)) as [[]| |]; cbn; rewrite ?app_nil_r;
    repeat split; reflexivity.
Qed.

Lemma completed_seq {B} (m : M unit) (k : M B) (h : Host) (w : World) :
  completed (bind m (fun _ => k) h w) =
  completed (m h w) && completed (k h (world (m h w))).
Proof. apply seq_run. Qed.

Lemma world_seq {B} (m : M unit) (k : M B) (h : Host) (w : World) :
  world (bind m (fun _ => k) h w) =
  (if completed (m h w) then world (k h (world (m h w))) else world (m h w)).
Proof. apply seq_run. Qed.

Lemma events_seq {B} (m : M unit) (k : M B) (h : Host) (w : World) :
  events (bind m (fun _ => k) h w) =
  events (m h w) ++ (if completed (m h w) then events (k h (world (m h w))) else []).
Proof. apply seq_run. Qed.

(** The steps of prepare.  A run that returns is the run of the per-frame
    setup, of the bottom level build, of the top level build, of the
    pipeline setup, of the binding table setup and of the descriptor set
    setup, in this order and each started in the state its predecessor
    left, followed by buildCommandBuffers, and only then sets prepared.
    The top level instance refers to the device address the bottom level
    build stored, the handle query names the pipeline the pipeline step
    created, and every descriptor update binds the handle the top level
    build stored.  A run that does not return leaves prepared as it
    was. *)
Lemma prepare_steps :
  forall (h : Host) (w : World),
    let w0 := afterFrames h w in
    let w1 := afterBLAS h w in
    let w2 := afterTLAS h w in
    let w3 := afterPipeline h w in
    let w4 := afterSBT h w in
    let w5 := afterDescriptorSets h w in
    let r := prepare h w in
    (completed r = true ->
       events r =
         events (prepareFrameObjects h w)
         ++ events (createBottomLevelAccelerationStructure h w0)
         ++ events (createTopLevelAccelerationStructure h w1)
         ++ events (createRayTracingPipeline h w2)
         ++ events (createShaderBindingTables h w3)
         ++ events (createDescriptorSets h w4)
         ++ [mkEvent C_buildCommandBuffers (answer h (tick w5) 0%nat)]
       /\ prepared (base (app (world r))) = true
       /\ nth_error (calls (createBottomLevelAccelerationStructure h w0)) 7 =
            Some (C_createAccelerationStructure
                    VK_ACCELERATION_STRUCTURE_TYPE_BOTTOM_LEVEL_KHR)
       /\ as_deviceAddress (bottomLevelAS (app w1)) = answer h (7 + tick w0)%nat 2%nat
       /\ nth_error (calls (createTopLevelAccelerationStructure h w1)) 0 =
            Some (C_createBuffer B_instancesBuffer
                    sizeof_VkAccelerationStructureInstanceKHR
                    (D_instance (tlasInstance w1)))
       /\ accelerationStructureReference (tlasInstance w1) =
            answer h (7 + tick w0)%nat 2%nat
       /\ nth_error (calls (createTopLevelAccelerationStructure h w1)) 3 =
            Some (C_createAccelerationStructure
                    VK_ACCELERATION_STRUCTURE_TYPE_TOP_LEVEL_KHR)
       /\ as_handle (topLevelAS (app w2)) = answer h (3 + tick w1)%nat 1%nat
       /\ pipeline (app w3) =
            answer h (5 + tick w2 + length (range_u32 (objectCount (app w2))))%nat 1%nat
       /\ nth_error (calls (createShaderBindingTables h w3)) 0 =
            Some (C_vkGetRayTracingShaderGroupHandlesKHR (pipeline (app w3)) 0
                    (sbtGroupCount w3) (sbtSize w3))
       /\ Forall (bindsAccelerationStructure (as_handle (topLevelAS (app w2))))
                 (events (createDescriptorSets h w4)))
    /\ (completed r = false ->
        prepared (base (app (world r))) = prepared (base (app w))).
Proof.
  intros h w. cbv zeta.
  unfold afterDescriptorSets, afterSBT, afterPipeline, afterTLAS, afterBLAS, afterFrames.
  unfold prepare.
  rewrite !completed_seq, !world_seq, !events_seq.
  rewrite buildCommandBuffers_run, modify_run.
  cbn [completed outcome events world].
  pose proof (prepareFrameObjects_spec h w) as [S0 _].
  set (w0 := world (prepareFrameObjects h w)) in *.
  pose proof (createBottomLevelAccelerationStructure_stable h w0) as S1.
  pose proof (createBottomLevelAccelerationStructure_run h w0) as R1.
  cbv zeta in R1.
  set (w1 := world (createBottomLevelAccelerationStructure h w0)) in *.
  pose proof (createTopLevelAccelerationStructure_stable h w1) as S2.
  pose proof (createTopLevelAccelerationStructure_run h w1) as [R2 R2'].
  set (w2 := world (createTopLevelAccelerationStructure h w1)) in *.
  pose proof (createRayTracingPipeline_stable h w2) as [S3 A3].
  pose proof (createRayTracingPipeline_run h w2) as R3.
  cbv zeta in R3.
  set (w3 := world (createRayTracingPipeline h w2)) in *.
  pose proof (createShaderBindingTables_stable h w3) as [S4 A4].
  pose proof (createShaderBindingTables_checked h w3) as K4.
  pose proof (createShaderBindingTables_run h w3) as R4.
  cbv zeta in R4.
  set (w4 := world (createShaderBindingTables h w3)) in *.
  pose proof (createDescriptorSets_spec h w4) as (S5 & _ & B5 & _).
  set (w5 := world (createDescriptorSets h w4)) in *.
  unfold stable, sameAS in *.
  destruct (completed (prepareFrameObjects h w)) eqn:C0;
    [|split; [discriminate | intros _; apply S0]].
  destruct (completed (createBottomLevelAccelerationStructure h w0)) eqn:C1;
    [|split; [discriminate | intros _; destruct S0, S1; congruence]].
  destruct (completed (createTopLevelAccelerationStructure h w1)) eqn:C2;
    [|split; [discriminate | intros _; destruct S0, S1, S2; congruence]].
  destruct (completed (createRayTracingPipeline h w2)) eqn:C3;
    [|split; [discriminate | intros _; destruct S0, S1, S2, S3; congruence]].
  destruct (completed (createShaderBindingTables h w3)) eqn:C4;
    [|split; [discriminate | intros _; destruct S0, S1, S2, S3, S4; congruence]].
  destruct (completed (createDescriptorSets h w4)) eqn:C5;
    [|split; [discriminate | intros _; destruct S0, S1, S2, S3, S4, S5; congruence]].
  split; [intros _ | discriminate].
  destruct (R1 eq_refl) as (Hcalls1 & _ & Hblas & _).
  destruct (R2' eq_refl) as (Hc2 & Htlas & _).
  destruct (R3 eq_refl) as (_ & _ & _ & _ & Hpipe).
  destruct (R4 (K4 eq_refl)) as (_ & _ & Hcalls4 & _).
  cbn [List.app]. rewrite ?app_nil_r.
  split; [reflexivity|].
  split; [reflexivity|].
  split; [rewrite Hcalls1; reflexivity|].
  split; [rewrite Hblas; reflexivity|].
  split; [exact R2|].
  split; [unfold tlasInstance; cbn [accelerationStructureReference];
          rewrite Hblas; reflexivity|].
  split; [exact Hc2|].
  split; [rewrite Htlas; reflexivity|].
  split; [exact Hpipe|].
  split; [rewrite Hcalls4; reflexivity|].
  destruct A3 as [_ A3], A4 as [_ A4]. rewrite <- A3, <- A4. exact B5.
Qed.

(* ================================================================== *)
(** ** The call sequences of the components *)

(** C5 (counterexample): the statement that every execution makes the
    same calls regardless of runtime conditions fails: the bottom level
    build calls other functions when the device builds on the host, and
    draw calls more functions after a resize.  All four runs return. *)
Lemma call_sequence_depends_on_conditions :
  completed (createBottomLevelAccelerationStructure okHost exampleWorld) = true
  /\ completed (createBottomLevelAccelerationStructure okHost hostBuildWorld) = true
  /\ callees (createBottomLevelAccelerationStructure okHost exampleWorld)
       <> callees (createBottomLevelAccelerationStructure okHost hostBuildWorld)
  /\ completed (draw zeroHost preparedWorld) = true
  /\ completed (draw zeroHost resizedWorld) = true
  /\ callees (draw zeroHost preparedWorld) <> callees (draw zeroHost resizedWorld).
Proof. vm_compute. repeat split; try reflexivity; discriminate. Qed.

Ltac callees_goal :=
  unfold callees, calls, completed, expectedCallees, conditions, buildCallees;
  cbn [outcome events world map ev_call callee hostBuild windowResized objects
       frames images app base accelerationStructureHostCommands resized
       objectCount frameObjects swapChain_imageCount].

Ltac prefix_or_equal :=
  split; [apply prefixb_spec; reflexivity | try discriminate; intros _; reflexivity].

Lemma bottomLevelAS_callees (h : Host) (w : World) :
  isPrefix (callees (runOf BottomLevelAS h w))
           (expectedCallees BottomLevelAS (conditions w))
  /\ (completed (runOf BottomLevelAS h w) = true ->
      callees (runOf BottomLevelAS h w) = expectedCallees BottomLevelAS (conditions w)).
Proof.
  unfold runOf.
  exec_all createBottomLevelAccelerationStructure h w r Hr.
  all: subst r; callees_goal; prefix_or_equal.
Qed.

Lemma topLevelAS_callees (h : Host) (w : World) :
  isPrefix (callees (runOf TopLevelAS h w))
           (expectedCallees TopLevelAS (conditions w))
  /\ (completed (runOf TopLevelAS h w) = true ->
      callees (runOf TopLevelAS h w) = expectedCallees TopLevelAS (conditions w)).
Proof.
  unfold runOf.
  exec_all createTopLevelAccelerationStructure h w r Hr.
  all: subst r; callees_goal; prefix_or_equal.
Qed.

Lemma bindingTables_callees (h : Host) (w : World) :
  isPrefix (callees (runOf BindingTables h w))
           (expectedCallees BindingTables (conditions w))
  /\ (completed (runOf BindingTables h w) = true ->
      callees (runOf BindingTables h w) = expectedCallees BindingTables (conditions w)).
Proof.
  unfold runOf.
  remember (createShaderBindingTables h w) as r eqn:Hr.
  split_world w.
  unfold createShaderBindingTables in Hr. msimpl_in Hr.
  split_test_in Hr; msimpl_in Hr.
  - repeat (heap_norm_in Hr; msimpl_in Hr; split_test_in Hr; msimpl_in Hr);
      subst r; callees_goal; prefix_or_equal.
  - subst r; callees_goal; prefix_or_equal.
Qed.

Lemma pipeline_callees (h : Host) (w : World) :
  isPrefix (callees (runOf Pipeline h w))
           (expectedCallees Pipeline (conditions w))
  /\ (completed (runOf Pipeline h w) = true ->
      callees (runOf Pipeline h w) = expectedCallees Pipeline (conditions w)).
Proof.
  unfold runOf.
  remember (createRayTracingPipeline h w) as r eqn:Hr.
  split_world w. unfold createRayTracingPipeline in Hr. msimpl_in Hr.
  split_test_in Hr; msimpl_in Hr; [|subst r; callees_goal; prefix_or_equal].
  split_test_in Hr; msimpl_in Hr; [|subst r; callees_goal; prefix_or_equal].
  match type of Hr with
  | context [fold_each ?xs ?st ?b h ?w1] =>
      destruct (callable_loop_run (getShadersPath h) xs st h w1)
        as (stages' & Ho & Hl & Hc & Ha & Ht & Hh);
      destruct (fold_each xs st b h w1) as [o es wl]
  end.
  unfold calls in Hc. cbn [outcome world app events] in Ho, Ha, Hc. subst o.
  destruct wl as [tl al hl]. cbn [app] in Ha. subst al.
  msimpl_in Hr.
  assert (Hes : map callee (map ev_call es) = repeat "loadShader" (Z.to_nat objectCount0)).
  { rewrite Hc, callees_callableLoads. now rewrite length_range_u32. }
  split_test_in Hr; msimpl_in Hr; subst r; callees_goal;
    rewrite !map_app, Hes; cbn [map ev_call callee];
    (split; [apply isPrefix_refl | try discriminate; intros _; reflexivity]).
Qed.

Lemma allocateFrameDescriptorSet_callees (i : nat) (frame : FrameObjects)
    (h : Host) (w : World) :
  let per := ["vkAllocateDescriptorSets"; "vkUpdateDescriptorSets"] in
  isPrefix (callees (allocateFrameDescriptorSet i frame h w)) per
  /\ (completed (allocateFrameDescriptorSet i frame h w) = true ->
      callees (allocateFrameDescriptorSet i frame h w) = per).
Proof.
  cbv zeta.
  remember (allocateFrameDescriptorSet i frame h w) as r eqn:Hr.
  split_world_deep w. split_frame frame.
  unfold allocateFrameDescriptorSet in Hr. msimpl_in Hr.
  repeat draw_step Hr.
  all: subst r; callees_goal; prefix_or_equal.
Qed.

Lemma prepareFrameResources_callees (i : nat) (frame : FrameObjects)
    (h : Host) (w : World) :
  let per := ["createFrameObjects"; "createStorageImage"; "createBuffer";
              "Buffer::map"] in
  isPrefix (callees (prepareFrameResources i frame h w)) per
  /\ (completed (prepareFrameResources i frame h w) = true ->
      callees (prepareFrameResources i frame h w) = per).
Proof.
  cbv zeta.
  remember (prepareFrameResources i frame h w) as r eqn:Hr.
  split_world_deep w. split_frame frame.
  unfold prepareFrameResources in Hr. msimpl_in Hr.
  repeat draw_step Hr.
  all: subst r; callees_goal; prefix_or_equal.
Qed.

Lemma descriptorSets_callees (h : Host) (w : World) :
  isPrefix (callees (runOf DescriptorSets h w))
           (expectedCallees DescriptorSets (conditions w))
  /\ (completed (runOf DescriptorSets h w) = true ->
      callees (runOf DescriptorSets h w) = expectedCallees DescriptorSets (conditions w)).
Proof.
  unfold runOf.
  split; [|intros Hc; now apply createDescriptorSets_spec].
  remember (createDescriptorSets h w) as r eqn:Hr.
  unfold createDescriptorSets in Hr.
  split_world w. msimpl_in Hr.
  split_test_in Hr; msimpl_in Hr; [|subst r; callees_goal; apply prefixb_spec; reflexivity].
  match type of Hr with
  | context [for_frames allocateFrameDescriptorSet h ?W] =>
      pose proof (for_frames_prefix allocateFrameDescriptorSet _
                    allocateFrameDescriptorSet_callees h W) as Hp;
      destruct (for_frames allocateFrameDescriptorSet h W) as [o es wl]
  end.
  unfold callees, calls in Hp. cbn [events app frameObjects] in Hp.
  subst r. callees_goal. destruct o as [[]| |]; cbn [events map ev_call callee];
    now apply isPrefix_cons.
Qed.

Lemma frameResources_callees (h : Host) (w : World) :
  isPrefix (callees (runOf FrameResources h w))
           (expectedCallees FrameResources (conditions w))
  /\ (completed (runOf FrameResources h w) = true ->
      callees (runOf FrameResources h w) = expectedCallees FrameResources (conditions w)).
Proof.
  unfold runOf.
  split; [|intros Hc; now apply prepareFrameObjects_spec].
  remember (prepareFrameObjects h w) as r eqn:Hr.
  unfold prepareFrameObjects in Hr.
  split_world w. msimpl_in Hr.
  match type of Hr with
  | context [for_frames prepareFrameResources h ?W] =>
      pose proof (for_frames_prefix prepareFrameResources _
                    prepareFrameResources_callees h W) as Hp;
      destruct (for_frames prepareFrameResources h W) as [o es wl]
  end.
  unfold callees, calls in Hp. cbn [events app frameObjects] in Hp.
  rewrite length_resize in Hp.
  subst r. callees_goal. destruct o as [[]| |]; cbn [events map ev_call callee];
    now apply isPrefix_cons.
Qed.

Lemma frame_callees (h : Host) (w : World) :
  isPrefix (callees (runOf Frame h w)) (expectedCallees Frame (conditions w))
  /\ (completed (runOf Frame h w) = true ->
      callees (runOf Frame h w) = expectedCallees Frame (conditions w)).
Proof.
  unfold runOf. draw_exec h w r Hr.
  all: subst r; callees_goal; rewrite ?map_app; cbn [map ev_call callee List.app].
  all: first
    [ prefix_or_equal
    | rewrite (Hcal eq_refl);
      split; [ apply isPrefix_cons, isPrefix_app_same, prefixb_spec; reflexivity
             | try discriminate; intros _; reflexivity ]
    | rewrite ?app_nil_r;
      split; [ apply isPrefix_cons, isPrefix_app_r, Hpre | discriminate ] ].
Qed.

(** C5 (as the code has it): each component issues a fixed sequence of
    calls, chosen by the runtime conditions only: the acceleration
    structure builds branch on accelerationStructureHostCommands, draw
    branches on resized, and the loops run once per object, frame or swap
    chain image.  There is no retry and no caching: the calls of any run
    are an initial segment of that sequence, and a run that returns has
    issued exactly that sequence, so executions that return under the same
    conditions make the same calls. *)
Theorem call_sequence_by_conditions :
  forall (c : Component) (h1 h2 : Host) (w1 w2 : World),
    conditions w1 = conditions w2 ->
    isPrefix (callees (runOf c h1 w1)) (expectedCallees c (conditions w1))
    /\ (completed (runOf c h1 w1) = true ->
        callees (runOf c h1 w1) = expectedCallees c (conditions w1))
    /\ (completed (runOf c h1 w1) = true ->
        completed (runOf c h2 w2) = true ->
        callees (runOf c h1 w1) = callees (runOf c h2 w2)).
Proof.
  intros c h1 h2 w1 w2 Hk.
  assert (H : forall h w,
             isPrefix (callees (runOf c h w)) (expectedCallees c (conditions w))
             /\ (completed (runOf c h w) = true ->
                 callees (runOf c h w) = expectedCallees c (conditions w))).
  { intros h w. destruct c.
    - apply frameResources_callees.
    - apply bottomLevelAS_callees.
    - apply topLevelAS_callees.
    - apply pipeline_callees.
    - apply bindingTables_callees.
    - apply descriptorSets_callees.
    - apply frame_callees. }
  destruct (H h1 w1) as [P1 E1]. destruct (H h2 w2) as [_ E2].
  split; [exact P1 | split; [exact E1 |]].
  intros C1 C2. rewrite (E1 C1), (E2 C2), Hk. reflexivity.
Qed.

Lemma call_sequence_by_conditions_witness :
  conditions preparedWorld = conditions pausedWorld /\
  completed (runOf Frame zeroHost preparedWorld) = true /\
  completed (runOf Frame oneHost pausedWorld) = true /\
  callees (runOf Frame zeroHost preparedWorld) =
  callees (runOf Frame oneHost pausedWorld).
Proof.
  assert (K : conditions preparedWorld = conditions pausedWorld)
    by (vm_compute; reflexivity).
  assert (C1 : completed (runOf Frame zeroHost preparedWorld) = true)
    by (vm_compute; reflexivity).
  assert (C2 : completed (runOf Frame oneHost pausedWorld) = true)
    by (vm_compute; reflexivity).
  split; [exact K | split; [exact C1 | split; [exact C2 |]]].
  exact (proj2 (proj2 (call_sequence_by_conditions Frame zeroHost oneHost
                         preparedWorld pausedWorld K)) C1 C2).
Defined.

(* ================================================================== *)
(** ** Checked and unchecked result codes *)

Ltac ok_goal :=
  unfold completed, okEvent, failedCall;
  cbn [outcome events forallb ev_call ev_result returnsVkResult uncheckedCall
       andb orb negb];
  try discriminate; intros _;
  repeat match goal with
         | H : (_ =? VK_SUCCESS) = true |- _ => rewrite H; clear H
         end;
  cbn [andb orb negb]; rewrite ?orb_true_r; try reflexivity.

Lemma callableLoads_ok (p : string) (xs : list Z) (es : list Event) :
  map ev_call es = callableLoads p xs -> forallb okEvent es = true.
Proof.
  unfold callableLoads. revert xs.
  induction es as [|e es IH]; intros [|x xs] H; cbn in H; try discriminate.
  - reflexivity.
  - injection H as He Hes. cbn [forallb]. rewrite (IH xs Hes), andb_true_r.
    unfold okEvent, failedCall. now rewrite He.
Qed.

Lemma allocateFrameDescriptorSet_ok (i : nat) (frame : FrameObjects)
    (h : Host) (w : World) :
  completed (allocateFrameDescriptorSet i frame h w) = true ->
  forallb okEvent (events (allocateFrameDescriptorSet i frame h w)) = true.
Proof.
  remember (allocateFrameDescriptorSet i frame h w) as r eqn:Hr.
  split_world_deep w. split_frame frame.
  unfold allocateFrameDescriptorSet in Hr. msimpl_in Hr.
  repeat draw_step Hr.
  all: subst r; ok_goal.
Qed.

Lemma prepareFrameResources_ok (i : nat) (frame : FrameObjects)
    (h : Host) (w : World) :
  completed (prepareFrameResources i frame h w) = true ->
  forallb okEvent (events (prepareFrameResources i frame h w)) = true.
Proof.
  remember (prepareFrameResources i frame h w) as r eqn:Hr.
  split_world_deep w. split_frame frame.
  unfold prepareFrameResources in Hr. msimpl_in Hr.
  repeat draw_step Hr.
  all: subst r; ok_goal.
Qed.

(** Fail fast, for the calls that are checked: in a run of any component
    that returns, the only calls that can have failed are
    vkBuildAccelerationStructuresKHR and vkDeviceWaitIdle, whose result
    the sample does not look at. *)
Lemma only_unchecked_calls_fail (c : Component) (h : Host) (w : World) :
  completed (runOf c h w) = true ->
  forallb okEvent (events (runOf c h w)) = true.
Proof.
  destruct c; unfold runOf.
  - remember (prepareFrameObjects h w) as r eqn:Hr.
    unfold prepareFrameObjects in Hr. split_world w. msimpl_in Hr.
    match type of Hr with
    | context [for_frames prepareFrameResources h ?W] =>
        pose proof (for_frames_ok okEvent prepareFrameResources
                      prepareFrameResources_ok h W) as Hok;
        destruct (for_frames prepareFrameResources h W) as [o es wl]
    end.
    unfold completed in *. cbn [outcome events] in Hok.
    subst r. destruct o as [[]| |]; cbn [outcome events forallb];
      try discriminate.
    intros _. now rewrite (Hok eq_refl).
  - exec_all createBottomLevelAccelerationStructure h w r Hr.
    all: subst r; ok_goal.
  - exec_all createTopLevelAccelerationStructure h w r Hr.
    all: subst r; ok_goal.
  - remember (createRayTracingPipeline h w) as r eqn:Hr.
    split_world w. unfold createRayTracingPipeline in Hr. msimpl_in Hr.
    split_test_in Hr; msimpl_in Hr; [|subst r; ok_goal].
    split_test_in Hr; msimpl_in Hr; [|subst r; ok_goal].
    match type of Hr with
    | context [fold_each ?xs ?st ?b h ?w1] =>
        destruct (callable_loop_run (getShadersPath h) xs st h w1)
          as (stages' & Ho & Hl & Hc & Ha & Ht & Hh);
        destruct (fold_each xs st b h w1) as [o es wl]
    end.
    unfold calls in Hc. cbn [outcome world app events] in Ho, Ha, Hc. subst o.
    destruct wl as [tl al hl]. cbn [app] in Ha. subst al.
    msimpl_in Hr. apply callableLoads_ok in Hc.
    split_test_in Hr; msimpl_in Hr; subst r; unfold completed;
      cbn [outcome events]; try discriminate; intros _.
    cbn [forallb]. rewrite forallb_app, Hc.
    unfold okEvent, failedCall.
    cbn [forallb ev_call ev_result returnsVkResult uncheckedCall andb orb negb].
    repeat match goal with
           | H : (_ =? VK_SUCCESS) = true |- _ => rewrite H; clear H
           end.
    reflexivity.
  - remember (createShaderBindingTables h w) as r eqn:Hr.
    split_world w.
    unfold createShaderBindingTables in Hr. msimpl_in Hr.
    split_test_in Hr; msimpl_in Hr.
    + repeat (heap_norm_in Hr; msimpl_in Hr; split_test_in Hr; msimpl_in Hr);
        subst r; ok_goal.
    + subst r; ok_goal.
  - remember (createDescriptorSets h w) as r eqn:Hr.
    unfold createDescriptorSets in Hr. split_world w. msimpl_in Hr.
    split_test_in Hr; msimpl_in Hr; [|subst r; ok_goal].
    match type of Hr with
    | context [for_frames allocateFrameDescriptorSet h ?W] =>
        pose proof (for_frames_ok okEvent allocateFrameDescriptorSet
                      allocateFrameDescriptorSet_ok h W) as Hok;
        destruct (for_frames allocateFrameDescriptorSet h W) as [o es wl]
    end.
    unfold completed in *. cbn [outcome events] in Hok.
    subst r. destruct o as [[]| |]; cbn [outcome events forallb];
      try discriminate.
    intros _. rewrite (Hok eq_refl), andb_true_r.
    unfold okEvent, failedCall.
    cbn [ev_call ev_result returnsVkResult uncheckedCall andb orb negb].
    match goal with H : (_ =? VK_SUCCESS) = true |- _ => now rewrite H end.
  - draw_exec h w r Hr.
    all: subst r; unfold completed; cbn [outcome events]; try discriminate; intros _.
    all: cbn [forallb]; rewrite ?forallb_app, ?(Hok eq_refl).
    all: unfold okEvent, failedCall;
      cbn [forallb ev_call ev_result returnsVkResult uncheckedCall andb orb negb];
      repeat match goal with
             | H : (_ =? VK_SUCCESS) = true |- _ => rewrite H; clear H
             end;
      cbn [andb orb negb]; rewrite ?orb_true_r; reflexivity.
Qed.

(* ================================================================== *)
(** ** Fail fast *)

Lemma failFast_app (ab : bool) (es1 es2 : list Event) :
  existsb checkedFailure es1 = false ->
  failFast ab (es1 ++ es2) = failFast ab es2.
Proof.
  induction es1 as [|e es1 IH]; cbn [existsb List.app failFast]; [reflexivity|].
  intros H. apply orb_false_iff in H as [He H]. rewrite He. now apply IH.
Qed.

Lemma failFast_false (es : list Event) :
  failFast false es = true -> existsb checkedFailure es = false.
Proof.
  induction es as [|e es IH]; cbn [existsb failFast]; [reflexivity|].
  destruct (checkedFailure e); cbn; [discriminate | exact IH].
Qed.

Lemma failFast_false_iff (es : list Event) :
  failFast false es = true <-> existsb checkedFailure es = false.
Proof.
  split; [apply failFast_false|].
  induction es as [|e es IH]; cbn [existsb failFast]; [reflexivity|].
  destruct (checkedFailure e); cbn; [discriminate | exact IH].
Qed.

Lemma failFast_true (es : list Event) :
  failFast true es = true ->
  exists es0 e, es = es0 ++ [e]
                /\ existsb checkedFailure es0 = false
                /\ checkedFailure e = true.
Proof.
  induction es as [|e es IH]; cbn [failFast]; [discriminate|].
  destruct (checkedFailure e) eqn:He.
  - destruct es; [|discriminate]. intros _. exists [], e. now repeat split.
  - intros H. destruct (IH H) as (es0 & e' & -> & H0 & H1).
    exists (e :: es0), e'. cbn [existsb List.app]. rewrite He, H0. now repeat split.
Qed.

(** The trace of a run obeys the discipline. *)
Definition failsFast {A} (r : Result A) : Prop :=
  failFast (aborted r) (events r) = true.

Lemma failsFast_bind {A B} (m : M A) (f : A -> M B) (h : Host) (w : World) :
  failsFast (m h w) ->
  (forall a w1, failsFast (f a h w1)) ->
  failsFast (bind m f h w).
Proof.
  unfold failsFast, aborted. intros Hm Hf. rewrite bind_run.
  destruct (m h w) as [[a| |] es w1]; cbn [outcome events world] in *;
    try exact Hm.
  specialize (Hf a w1). destruct (f a h w1) as [o es' w2].
  cbn [outcome events world] in *.
  rewrite failFast_app; [exact Hf | now apply failFast_false].
Qed.

Lemma failsFast_for_each {A} (xs : list A) (body : A -> M unit) :
  (forall x h w, failsFast (body x h w)) ->
  forall h w, failsFast (for_each xs body h w).
Proof.
  intros Hbody. induction xs as [|x xs IH]; intros h w.
  - reflexivity.
  - change (for_each (x :: xs) body h w)
      with (bind (body x) (fun _ => for_each xs body) h w).
    apply failsFast_bind; [apply Hbody | intros _ w1; apply IH].
Qed.

Lemma failsFast_for_frames (body : nat -> FrameObjects -> M unit) :
  (forall i frame h w, failsFast (body i frame h w)) ->
  forall h w, failsFast (for_frames body h w).
Proof.
  intros Hbody h w. rewrite for_frames_unfold. apply failsFast_for_each.
  intros i h' w'. rewrite frameBody_unfold.
  destruct (nth_error (frameObjects (app w')) i); [apply Hbody | reflexivity].
Qed.

Ltac ff_step :=
  cbn [failFast]; unfold checkedFailure, failedCall;
  cbn [ev_call ev_result returnsVkResult uncheckedCall andb negb];
  repeat match goal with
         | H : (?x =? VK_SUCCESS) = _ |- context [?x =? VK_SUCCESS] => rewrite H
         end;
  cbn [andb negb]; rewrite ?andb_false_r.

Ltac ff_goal :=
  unfold failsFast, aborted; cbn [outcome events]; repeat ff_step; try reflexivity.

Lemma callableLoads_unfailing (p : string) (xs : list Z) (es : list Event) :
  map ev_call es = callableLoads p xs -> existsb checkedFailure es = false.
Proof.
  unfold callableLoads. revert xs.
  induction es as [|e es IH]; intros [|x xs] H; cbn in H; try discriminate.
  - reflexivity.
  - injection H as He Hes. cbn [existsb]. rewrite (IH xs Hes), orb_false_r.
    unfold checkedFailure, failedCall. now rewrite He.
Qed.

Lemma createBottomLevelAccelerationStructure_failsFast (h : Host) (w : World) :
  failsFast (createBottomLevelAccelerationStructure h w).
Proof.
  exec_all createBottomLevelAccelerationStructure h w r Hr.
  all: subst r; ff_goal.
Qed.

Lemma createTopLevelAccelerationStructure_failsFast (h : Host) (w : World) :
  failsFast (createTopLevelAccelerationStructure h w).
Proof.
  exec_all createTopLevelAccelerationStructure h w r Hr.
  all: subst r; ff_goal.
Qed.

Lemma createShaderBindingTables_failsFast (h : Host) (w : World) :
  failsFast (createShaderBindingTables h w).
Proof.
  remember (createShaderBindingTables h w) as r eqn:Hr.
  split_world w.
  unfold createShaderBindingTables in Hr. msimpl_in Hr.
  split_test_in Hr; msimpl_in Hr.
  - repeat (heap_norm_in Hr; msimpl_in Hr; split_test_in Hr; msimpl_in Hr);
      subst r; ff_goal.
  - subst r; ff_goal.
Qed.

Lemma createRayTracingPipeline_failsFast (h : Host) (w : World) :
  failsFast (createRayTracingPipeline h w).
Proof.
  remember (createRayTracingPipeline h w) as r eqn:Hr.
  split_world w. unfold createRayTracingPipeline in Hr. msimpl_in Hr.
  split_test_in Hr; msimpl_in Hr; [|subst r; ff_goal].
  split_test_in Hr; msimpl_in Hr; [|subst r; ff_goal].
  match type of Hr with
  | context [fold_each ?xs ?st ?b h ?w1] =>
      destruct (callable_loop_run (getShadersPath h) xs st h w1)
        as (stages' & Ho & Hl & Hc & Ha & Ht & Hh);
      destruct (fold_each xs st b h w1) as [o es wl]
  end.
  unfold calls in Hc. cbn [outcome world app events] in Ho, Ha, Hc. subst o.
  destruct wl as [tl al hl]. cbn [app] in Ha. subst al.
  msimpl_in Hr. apply callableLoads_unfailing in Hc.
  split_test_in Hr; msimpl_in Hr; subst r; ff_goal.
  all: rewrite (failFast_app _ _ _ Hc); ff_goal.
Qed.

Lemma allocateFrameDescriptorSet_failsFast (i : nat) (frame : FrameObjects)
    (h : Host) (w : World) :
  failsFast (allocateFrameDescriptorSet i frame h w).
Proof.
  remember (allocateFrameDescriptorSet i frame h w) as r eqn:Hr.
  split_world_deep w. split_frame frame.
  unfold allocateFrameDescriptorSet in Hr. msimpl_in Hr.
  repeat draw_step Hr.
  all: subst r; ff_goal.
Qed.

Lemma prepareFrameResources_failsFast (i : nat) (frame : FrameObjects)
    (h : Host) (w : World) :
  failsFast (prepareFrameResources i frame h w).
Proof.
  remember (prepareFrameResources i frame h w) as r eqn:Hr.
  split_world_deep w. split_frame frame.
  unfold prepareFrameResources in Hr. msimpl_in Hr.
  repeat draw_step Hr.
  all: subst r; ff_goal.
Qed.

Lemma recreateStorageImage_failsFast (i : nat) (frame : FrameObjects)
    (h : Host) (w : World) :
  failsFast (recreateStorageImage i frame h w).
Proof.
  split_world w. unfold recreateStorageImage. msimpl. reflexivity.
Qed.

Lemma createDescriptorSets_failsFast (h : Host) (w : World) :
  failsFast (createDescriptorSets h w).
Proof.
  unfold createDescriptorSets. rewrite bind_get.
  apply failsFast_bind.
  - unfold failsFast, aborted. cbn.
    destruct (answer h (tick w) 0%nat =? VK_SUCCESS) eqn:E; cbn;
      unfold checkedFailure, failedCall; cbn; rewrite E; reflexivity.
  - intros pool w1. apply failsFast_bind; [reflexivity|]. intros _ w2.
    apply failsFast_for_frames. intros. apply allocateFrameDescriptorSet_failsFast.
Qed.

Lemma prepareFrameObjects_failsFast (h : Host) (w : World) :
  failsFast (prepareFrameObjects h w).
Proof.
  unfold prepareFrameObjects.
  apply failsFast_bind; [reflexivity|]. intros _ w1. rewrite bind_get.
  apply failsFast_bind; [reflexivity|]. intros _ w2.
  apply failsFast_for_frames. intros. apply prepareFrameResources_failsFast.
Qed.

Lemma prepare_failsFast (h : Host) (w : World) : failsFast (prepare h w).
Proof.
  unfold prepare.
  apply failsFast_bind; [apply prepareFrameObjects_failsFast | intros _ ?].
  apply failsFast_bind;
    [apply createBottomLevelAccelerationStructure_failsFast | intros _ ?].
  apply failsFast_bind;
    [apply createTopLevelAccelerationStructure_failsFast | intros _ ?].
  apply failsFast_bind; [apply createRayTracingPipeline_failsFast | intros _ ?].
  apply failsFast_bind; [apply createShaderBindingTables_failsFast | intros _ ?].
  apply failsFast_bind; [apply createDescriptorSets_failsFast | intros _ ?].
  apply failsFast_bind; reflexivity.
Qed.

(** The part of draw after the resize block, on the frame it is given. *)
Lemma draw_failsFast (h : Host) (w : World) : failsFast (draw h w).
Proof.
  unfold draw. rewrite bind_get.
  apply failsFast_bind.
  - destruct (resized (base (app w))); [|reflexivity].
    apply failsFast_bind.
    + unfold failsFast, aborted. cbn. unfold checkedFailure, failedCall. cbn.
      now rewrite andb_false_r.
    + intros _ w1.
      apply failsFast_for_frames. intros. apply recreateStorageImage_failsFast.
  - intros _ w1. rewrite bind_get.
    match goal with |- failsFast ?x => remember x as r eqn:Hr end.
    split_world_deep w1. msimpl_in Hr.
    repeat draw_step Hr.
    all: subst r; ff_goal.
Qed.

Lemma render_failsFast (h : Host) (w : World) : failsFast (render h w).
Proof.
  unfold render. rewrite bind_get.
  destruct (prepared (base (app w))); [apply draw_failsFast | reflexivity].
Qed.

Lemma failFast_last (ab : bool) (es0 : list Event) (e : Event) (es1 : list Event) :
  failFast ab (es0 ++ e :: es1) = true -> checkedFailure e = true -> es1 = [].
Proof.
  intros H He. induction es0 as [|a es0 IH]; cbn [List.app failFast] in H.
  - rewrite He in H. destruct es1; [reflexivity|].
    now rewrite andb_false_r in H.
  - destruct (checkedFailure a); [|now apply IH].
    destruct es0; cbn in H; now rewrite andb_false_r in H.
Qed.

Lemma failsFast_aborted {A} (r : Result A) :
  failsFast r ->
  (aborted r = true <-> existsb checkedFailure (events r) = true).
Proof.
  unfold failsFast. destruct (aborted r); intros H; split; intros H'.
  - destruct (failFast_true _ H) as (es0 & e & -> & _ & He).
    rewrite existsb_app. cbn. now rewrite He, orb_true_r.
  - reflexivity.
  - discriminate.
  - apply failFast_false in H. congruence.
Qed.

(** X1: prepare, render and each component abort exactly when a call
    wrapped in VK_CHECK_RESULT has returned a code other than VK_SUCCESS,
    and they do so at once: a failed checked call is the last call of the
    run. *)
Theorem checked_failure_aborts_at_once :
  forall (h : Host) (w : World) (c : Component),
    (aborted (prepare h w) = true <->
       existsb checkedFailure (events (prepare h w)) = true)
    /\ (forall es0 e es1,
          events (prepare h w) = es0 ++ e :: es1 ->
          checkedFailure e = true -> es1 = [])
    /\ (aborted (render h w) = true <->
          existsb checkedFailure (events (render h w)) = true)
    /\ (forall es0 e es1,
          events (render h w) = es0 ++ e :: es1 ->
          checkedFailure e = true -> es1 = [])
    /\ (aborted (runOf c h w) = true <->
          existsb checkedFailure (events (runOf c h w)) = true)
    /\ (forall es0 e es1,
          events (runOf c h w) = es0 ++ e :: es1 ->
          checkedFailure e = true -> es1 = []).
Proof.
  intros h w c.
  assert (Hc : failsFast (runOf c h w)).
  { destruct c; unfold runOf.
    - apply prepareFrameObjects_failsFast.
    - apply createBottomLevelAccelerationStructure_failsFast.
    - apply createTopLevelAccelerationStructure_failsFast.
    - apply createRayTracingPipeline_failsFast.
    - apply createShaderBindingTables_failsFast.
    - apply createDescriptorSets_failsFast.
    - apply draw_failsFast. }
  pose proof (prepare_failsFast h w) as Hp.
  pose proof (render_failsFast h w) as Hn.
  repeat split; try (now apply failsFast_aborted).
  all: intros es0 e es1 E He.
  - unfold failsFast in Hp. rewrite E in Hp. exact (failFast_last _ _ _ _ Hp He).
  - unfold failsFast in Hn. rewrite E in Hn. exact (failFast_last _ _ _ _ Hn He).
  - unfold failsFast in Hc. rewrite E in Hc. exact (failFast_last _ _ _ _ Hc He).
Qed.

Lemma checked_failure_aborts_at_once_witness :
  existsb checkedFailure (events (prepare (failingHostAt 3) exampleWorld)) = true.
Proof.
  apply (proj1 (proj1 (checked_failure_aborts_at_once
                         (failingHostAt 3) exampleWorld Frame))).
  vm_compute. reflexivity.
Defined.

(* ================================================================== *)
(** ** The frame loop *)

Lemma for_each_no_fault {A} (I : World -> Prop) (xs : list A) (body : A -> M unit) :
  (forall x h w, In x xs -> I w ->
                 faulted (body x h w) = false /\ I (world (body x h w))) ->
  forall h w, I w -> faulted (for_each xs body h w) = false.
Proof.
  induction xs as [|x xs IH]; intros Hbody h w Hw.
  - reflexivity.
  - change (for_each (x :: xs) body h w)
      with (bind (body x) (fun _ => for_each xs body) h w).
    destruct (Hbody x h w (or_introl eq_refl) Hw) as [Hf Hi].
    rewrite bind_run. unfold faulted in *.
    destruct (outcome (body x h w)); cbn [outcome] in *; try assumption.
    apply IH; [|exact Hi]. intros y h' w' Hy. apply Hbody. now right.
Qed.

Lemma resize_loop_no_fault (h : Host) (w : World) :
  faulted (for_frames recreateStorageImage h w) = false.
Proof.
  rewrite for_frames_unfold.
  apply (for_each_no_fault
           (fun w' => length (frameObjects (app w')) = length (frameObjects (app w))));
    [|reflexivity].
  intros i h' w' Hi Hl. apply in_seq in Hi. rewrite frameBody_unfold.
  destruct (nth_error (frameObjects (app w')) i) as [f|] eqn:E.
  - split_world w'. unfold recreateStorageImage. msimpl.
    cbn [app frameObjects] in *. split; [reflexivity|].
    now rewrite length_set_nth.
  - apply nth_error_None in E. lia.
Qed.

Lemma uboMapped_set_uniform (hp : list MemVal) (p : nat) (u : UniformData)
    (f : FrameObjects) :
  uboMapped hp f = true ->
  uboMapped (set_nth hp p (MObject (D_uniform u))) f = true.
Proof.
  unfold uboMapped. destruct (buf_mapped (ubo f)) as [q|]; [|discriminate].
  destruct (Nat.eq_dec q p) as [->|Hne].
  - destruct (nth_error hp p) eqn:E; [|discriminate].
    intros _. rewrite nth_error_set_nth_eq; [reflexivity|].
    apply nth_error_Some. congruence.
  - now rewrite nth_error_set_nth_ne.
Qed.

Lemma forallb_uboMapped_core (hp : list MemVal) (l l' : list FrameObjects) :
  map frameCore l' = map frameCore l ->
  forallb (uboMapped hp) l = true -> forallb (uboMapped hp) l' = true.
Proof.
  revert l'; induction l as [|a l IH]; intros [|a' l'] Hm;
    try discriminate Hm; [reflexivity|].
  pose proof (f_equal (@hd_error _) Hm) as Ha.
  pose proof (f_equal (@tl _) Hm) as Hl.
  cbn [map hd_error tl] in Ha, Hl. cbn [forallb].
  intros HH. apply andb_true_iff in HH as [HH1 HH2].
  rewrite (IH l' Hl HH2), andb_true_r.
  assert (E : ubo a' = ubo a).
  { unfold frameCore in Ha. destruct a, a'; cbn in Ha |- *. congruence. }
  unfold uboMapped in *. now rewrite E.
Qed.

Lemma framesReady_resized (w w' : World) :
  sameButStorageImages w w' ->
  (framesReady w -> framesReady w')
  /\ base (app w') = base (app w).
Proof.
  intros (frames' & t' & -> & Hc). split.
  - intros [Hl Hu]. unfold framesReady.
    cbn [app heap]. rewrite frameObjects_set_frameObjects.
    destruct w as [t a hp]; destruct a; cbn in *. split.
    + rewrite <- Hl. rewrite <- (length_map frameCore), Hc. apply length_map.
    + now apply (forallb_uboMapped_core _ _ _ Hc).
  - destruct w as [t a hp]; destruct a; reflexivity.
Qed.

Lemma forallb_uboMapped_set (hp : list MemVal) (p : nat) (u : UniformData)
    (l : list FrameObjects) :
  forallb (uboMapped hp) l = true ->
  forallb (uboMapped (set_nth hp p (MObject (D_uniform u)))) l = true.
Proof.
  rewrite !forallb_forall. intros H f Hin.
  apply uboMapped_set_uniform. now apply H.
Qed.

Lemma forallb_nth_error {A} (f : A -> bool) (l : list A) (i : nat) (x : A) :
  forallb f l = true -> nth_error l i = Some x -> f x = true.
Proof.
  rewrite forallb_forall. intros H Hn. apply H. eapply nth_error_In, Hn.
Qed.

Ltac frame_contradiction :=
  match goal with
  | Hn : nth_error ?l (Z.to_nat _) = None |- _ =>
      apply nth_error_None in Hn;
      match goal with
      | Ha : u32 (answer ?h ?k 1%nat) < _ |- _ =>
          pose proof (u32_nonneg (answer h k 1%nat))
      | _ => idtac
      end;
      lia
  | Hu : forallb (uboMapped _) ?l = true, Hn : nth_error ?l _ = Some _ |- _ =>
      let Hm := fresh "Hm" in
      pose proof (forallb_nth_error _ _ _ _ Hu Hn) as Hm;
      unfold uboMapped in Hm; cbn [ubo buf_mapped] in Hm;
      repeat match goal with
             | E : nth_error _ _ = _ |- _ => rewrite E in Hm
             end;
      discriminate Hm
  end.

Lemma acquiresFrom_app (h : Host) (n : Z) (cs1 cs2 : list Call) :
  forall t,
    acquiresFrom h n t (cs1 ++ cs2) =
    acquiresFrom h n t cs1 && acquiresFrom h n (t + length cs1) cs2.
Proof.
  induction cs1 as [|c cs1 IH]; intros t; cbn [List.app acquiresFrom length].
  - now rewrite Nat.add_0_r.
  - rewrite IH, <- andb_assoc. do 3 f_equal. lia.
Qed.

Lemma ticksFrom_bind {A B} (m : M A) (f : A -> M B) (h : Host) (w : World) :
  ticksFrom w (m h w) ->
  (forall a w1, ticksFrom w1 (f a h w1)) ->
  ticksFrom w (bind m f h w).
Proof.
  unfold ticksFrom. intros Hm Hf. rewrite bind_run.
  destruct (m h w) as [[a| |] es w1]; cbn [outcome events world] in *;
    try exact Hm.
  specialize (Hf a w1). destruct (f a h w1) as [o es' w2].
  cbn [outcome events world] in *. rewrite length_app. lia.
Qed.

Lemma ticksFrom_for_each {A} (xs : list A) (body : A -> M unit) :
  (forall x h w, ticksFrom w (body x h w)) ->
  forall h w, ticksFrom w (for_each xs body h w).
Proof.
  intros Hbody. induction xs as [|x xs IH]; intros h w.
  - unfold ticksFrom. change (tick w = (tick w + 0)%nat). lia.
  - change (for_each (x :: xs) body h w)
      with (bind (body x) (fun _ => for_each xs body) h w).
    apply ticksFrom_bind; [apply Hbody | intros _ w1; apply IH].
Qed.

Lemma ticksFrom_for_frames (body : nat -> FrameObjects -> M unit) :
  (forall i frame h w, ticksFrom w (body i frame h w)) ->
  forall h w, ticksFrom w (for_frames body h w).
Proof.
  intros Hbody h w. rewrite for_frames_unfold. apply ticksFrom_for_each.
  intros i h' w'. rewrite frameBody_unfold.
  destruct (nth_error (frameObjects (app w')) i); [apply Hbody|].
  unfold ticksFrom. change (tick w' = (tick w' + 0)%nat). lia.
Qed.

Ltac ticks_goal :=
  unfold ticksFrom; cbn [world events tick length]; lia.

Lemma recreateStorageImage_ticks (i : nat) (frame : FrameObjects)
    (h : Host) (w : World) :
  ticksFrom w (recreateStorageImage i frame h w).
Proof.
  remember (recreateStorageImage i frame h w) as r eqn:Hr.
  split_world_deep w. split_frame frame.
  unfold recreateStorageImage in Hr. msimpl_in Hr.
  subst r. ticks_goal.
Qed.

(** The resize block of draw. *)
Lemma resize_block_ticks (h : Host) (w : World) :
  ticksFrom w
    ((if resized (base (app w))
      then bind vkDeviceWaitIdle (fun _ => for_frames recreateStorageImage)
      else ret tt) h w).
Proof.
  destruct (resized (base (app w)));
    [|unfold ticksFrom; change (tick w = (tick w + 0)%nat); lia].
  apply ticksFrom_bind;
    [unfold ticksFrom; change (S (tick w) = (tick w + 1)%nat); lia|].
  intros _ w1. apply ticksFrom_for_frames. intros.
  apply recreateStorageImage_ticks.
Qed.

Lemma draw_ticks (h : Host) (w : World) : ticksFrom w (draw h w).
Proof.
  unfold draw. rewrite bind_get.
  apply ticksFrom_bind; [apply resize_block_ticks|].
  intros _ w1. rewrite bind_get.
  match goal with |- ticksFrom _ ?x => remember x as r eqn:Hr end.
  split_world_deep w1. msimpl_in Hr.
  repeat draw_step Hr.
  all: subst r; ticks_goal.
Qed.

Lemma render_ticks (h : Host) (w : World) : ticksFrom w (render h w).
Proof.
  unfold render. rewrite bind_get.
  destruct (prepared (base (app w))); [apply draw_ticks|].
  unfold ticksFrom. change (tick w = (tick w + 0)%nat). lia.
Qed.

(** What the hypothesis on the acquired indices says at the one
    prepareFrame of a frame. *)
Ltac acquired_index Ha Htick :=
  unfold calls in Ha; cbn [events] in Ha;
  rewrite map_app, acquiresFrom_app, length_map in Ha;
  apply andb_true_iff in Ha as [_ Ha];
  cbn [map ev_call acquiresFrom] in Ha;
  apply andb_true_iff in Ha as [Ha _];
  rewrite <- Htick in Ha; apply Z.ltb_lt in Ha.

Lemma draw_safe (h : Host) (w : World) :
  framesReady w -> swapChainReady w ->
  acquiresInRange h w (draw h w) = true ->
  faulted (draw h w) = false
  /\ (completed (draw h w) = true ->
      framesReady (world (draw h w))
      /\ swapChainReady (world (draw h w))
      /\ swapChain_imageCount (base (app (world (draw h w)))) =
           swapChain_imageCount (base (app w))
      /\ prepared (base (app (world (draw h w)))) = prepared (base (app w))).
Proof.
  intros Hf Hs Ha. unfold acquiresInRange in Ha.
  unfold draw in Ha |- *. rewrite bind_get in Ha |- *.
  match goal with
  | |- context [bind ?b _ h w] => set (block := b) in *
  end.
  assert (Hb : faulted (block h w) = false
               /\ sameButStorageImages w (world (block h w))
               /\ ticksFrom w (block h w)).
  { split; [|split; [|apply resize_block_ticks]];
      subst block; destruct (resized (base (app w))).
    - rewrite bind_run. cbn.
      pose proof (resize_loop_no_fault h (mkWorld (S (tick w)) (app w) (heap w))) as H.
      unfold faulted in *.
      destruct (outcome (for_frames recreateStorageImage h _)); cbn; congruence.
    - reflexivity.
    - rewrite world_bind. cbn.
      eapply sameButStorageImages_trans;
        [|apply resize_loop_world].
      exists (frameObjects (app w)), (S (tick w)). split; [|reflexivity].
      destruct w as [t a hp]; destruct a; reflexivity.
    - apply sameButStorageImages_refl. }
  destruct Hb as (Hnf & Hsame & Htick).
  destruct (framesReady_resized _ _ Hsame) as [Hf1 Hbase].
  specialize (Hf1 Hf).
  rewrite bind_run in Ha |- *. unfold faulted in Hnf. unfold ticksFrom in Htick.
  destruct (block h w) as [[[]| |] es w1]; cbn [outcome events world] in *;
    try discriminate; [|split; [reflexivity | discriminate]].
  clear Hsame Hf block.
  unfold swapChainReady in *. rewrite <- Hbase in *.
  clear Hbase. cbv zeta in *.
  match goal with
  | |- context [bind get ?f h w1] => remember (bind get f h w1) as r eqn:Hr
  end.
  destruct Hf1 as [Hl Hu]. destruct Hs as [Hi Hc].
  split_world_deep w1. msimpl_in Hr.
  cbn [app base heap frameObjects swapChain_images swapChain_imageCount
       currentBuffer tick] in Hl, Hu, Hi, Hc, Ha, Htick.
  repeat draw_step Hr.
  all: subst r; try acquired_index Ha Htick;
    unfold faulted, completed, framesReady;
    cbn [outcome world app base heap frameObjects swapChain_images
         swapChain_imageCount currentBuffer prepared].
  all: first
    [ split; [reflexivity | discriminate]
    | split; [reflexivity |]; intros _;
      repeat split;
      first [ assumption
            | now apply forallb_uboMapped_set
            | apply u32_nonneg ]
    | exfalso; frame_contradiction ].
Qed.

Lemma render_safe (h : Host) (w : World) :
  framesReady w -> swapChainReady w ->
  acquiresInRange h w (render h w) = true ->
  faulted (render h w) = false
  /\ (completed (render h w) = true ->
      framesReady (world (render h w))
      /\ swapChainReady (world (render h w))
      /\ swapChain_imageCount (base (app (world (render h w)))) =
           swapChain_imageCount (base (app w))).
Proof.
  intros Hf Hs Ha. unfold acquiresInRange in Ha.
  unfold render in Ha |- *. rewrite bind_get in Ha |- *.
  destruct (prepared (base (app w))).
  - destruct (draw_safe h w Hf Hs Ha) as [H1 H2]. split; [exact H1|].
    intros Hc. destruct (H2 Hc) as (? & ? & ? & ?).
    split; [assumption | split; assumption].
  - split; [reflexivity|]. intros _. cbn [world].
    split; [assumption | split; [assumption | reflexivity]].
Qed.

Lemma renderFrames_safe (n : nat) :
  forall (h : Host) (w : World),
    framesReady w -> swapChainReady w ->
    acquiresInRange h w (renderFrames n h w) = true ->
    faulted (renderFrames n h w) = false.
Proof.
  induction n as [|n IH]; intros h w Hf Hs Ha; [reflexivity|].
  unfold acquiresInRange, calls in Ha.
  change (renderFrames (S n) h w)
    with (bind render (fun _ => renderFrames n) h w) in Ha |- *.
  rewrite events_seq, map_app, acquiresFrom_app, length_map in Ha.
  apply andb_true_iff in Ha as [Ha1 Ha2].
  destruct (render_safe h w Hf Hs Ha1) as [H1 H2].
  pose proof (render_ticks h w) as Ht. unfold ticksFrom in Ht.
  rewrite <- Ht in Ha2.
  rewrite bind_run. unfold faulted, completed in *.
  destruct (outcome (render h w)); cbn [outcome]; try assumption.
  destruct (H2 eq_refl) as (Hf' & Hs' & Hn).
  apply IH; try assumption.
  unfold acquiresInRange, calls. now rewrite Hn.
Qed.

(* ================================================================== *)
(** ** What prepare leaves for the frame loop *)

Lemma extends_refl (w : World) : extends w w.
Proof. repeat split. exists []. now rewrite app_nil_r. Qed.

Lemma extends_trans (a b c : World) : extends a b -> extends b c -> extends a c.
Proof.
  intros (S1 & U1 & c1 & H1) (S2 & U2 & c2 & H2). repeat split; try congruence.
  exists (c1 ++ c2). now rewrite H2, H1, app_assoc.
Qed.

Ltac extends_goal :=
  unfold extends, swapChainOf;
  cbn [world app base heap frameObjects swapChain_imageCount swapChain_images
       currentBuffer];
  repeat split; try heap_norm;
  first [ exists []; now rewrite app_nil_r
        | rewrite <- ?app_assoc; eexists; reflexivity ].

Lemma createBottomLevelAccelerationStructure_extends (h : Host) (w : World) :
  extends w (world (createBottomLevelAccelerationStructure h w)).
Proof.
  exec_all createBottomLevelAccelerationStructure h w r Hr.
  all: subst r; extends_goal.
Qed.

Lemma createTopLevelAccelerationStructure_extends (h : Host) (w : World) :
  extends w (world (createTopLevelAccelerationStructure h w)).
Proof.
  exec_all createTopLevelAccelerationStructure h w r Hr.
  all: subst r; extends_goal.
Qed.

Lemma createShaderBindingTables_extends (h : Host) (w : World) :
  extends w (world (createShaderBindingTables h w)).
Proof.
  remember (createShaderBindingTables h w) as r eqn:Hr.
  split_world w.
  unfold createShaderBindingTables in Hr. msimpl_in Hr.
  split_test_in Hr; msimpl_in Hr.
  - repeat (heap_norm_in Hr; msimpl_in Hr; split_test_in Hr; msimpl_in Hr);
      subst r; extends_goal.
  - subst r; extends_goal.
Qed.

Lemma createRayTracingPipeline_extends (h : Host) (w : World) :
  extends w (world (createRayTracingPipeline h w)).
Proof.
  remember (createRayTracingPipeline h w) as r eqn:Hr.
  split_world w. unfold createRayTracingPipeline in Hr. msimpl_in Hr.
  split_test_in Hr; msimpl_in Hr; [|subst r; extends_goal].
  split_test_in Hr; msimpl_in Hr; [|subst r; extends_goal].
  match type of Hr with
  | context [fold_each ?xs ?st ?b h ?w1] =>
      destruct (callable_loop_run (getShadersPath h) xs st h w1)
        as (stages' & Ho & Hl & Hc & Ha & Ht & Hh);
      destruct (fold_each xs st b h w1) as [o es wl]
  end.
  cbn [outcome world app heap] in Ho, Ha, Hh. subst o.
  destruct wl as [tl al hl]. cbn [app heap] in Ha, Hh. subst al hl.
  msimpl_in Hr.
  split_test_in Hr; msimpl_in Hr; subst r; extends_goal.
Qed.

Lemma allocateFrameDescriptorSet_extends (i : nat) (frame : FrameObjects)
    (h : Host) (w : World) :
  nth_error (frameObjects (app w)) i = Some frame ->
  extends w (world (allocateFrameDescriptorSet i frame h w)).
Proof.
  intros Hn.
  remember (allocateFrameDescriptorSet i frame h w) as r eqn:Hr.
  split_world w. cbn [app frameObjects] in Hn.
  unfold allocateFrameDescriptorSet in Hr. msimpl_in Hr.
  split_test_in Hr; msimpl_in Hr; subst r;
    unfold extends, swapChainOf;
    cbn [world app base heap frameObjects swapChain_imageCount swapChain_images
         currentBuffer];
    (split; [reflexivity|]); (split; [|exists []; now rewrite app_nil_r]);
    try reflexivity.
  apply (map_set_nth_same ubo _ _ _ frame Hn). reflexivity.
Qed.

Lemma createDescriptorSets_extends (h : Host) (w : World) :
  extends w (world (createDescriptorSets h w)).
Proof.
  remember (createDescriptorSets h w) as r eqn:Hr.
  unfold createDescriptorSets in Hr. split_world w. msimpl_in Hr.
  split_test_in Hr; msimpl_in Hr; [|subst r; extends_goal].
  match type of Hr with
  | context [for_frames allocateFrameDescriptorSet h ?W] =>
      pose proof (for_frames_rel extends allocateFrameDescriptorSet
                    extends_refl extends_trans
                    allocateFrameDescriptorSet_extends h W) as Hx;
      destruct (for_frames allocateFrameDescriptorSet h W) as [o es wl]
  end.
  cbn [world] in Hx.
  assert (Hw : world r = wl) by (subst r; destruct o as [[]| |]; reflexivity).
  rewrite Hw. eapply extends_trans; [|exact Hx]. extends_goal.
Qed.

Lemma uboMapped_app (hp cells : list MemVal) (f : FrameObjects) :
  uboMapped hp f = true -> uboMapped (hp ++ cells) f = true.
Proof.
  unfold uboMapped. destruct (buf_mapped (ubo f)) as [p|]; [|discriminate].
  destruct (nth_error hp p) eqn:E; [|discriminate].
  rewrite nth_error_app1; [now rewrite E|].
  apply nth_error_Some. congruence.
Qed.

Lemma framesReady_extends (w w' : World) :
  extends w w' -> framesReady w -> framesReady w'.
Proof.
  intros (Hs & Hu & cells & Hh) [Hl Hm]. unfold framesReady, swapChainOf in *.
  cbv zeta in Hs. injection Hs as Hn _ _. rewrite Hn. split.
  - rewrite <- Hl, <- (length_map ubo), Hu. apply length_map.
  - rewrite Hh.
    assert (H : forall l l', map ubo l' = map ubo l ->
                forallb (uboMapped (heap w)) l = true ->
                forallb (uboMapped (heap w ++ cells)) l' = true).
    { induction l as [|a l IH]; intros [|a' l'] E; try discriminate E;
        [reflexivity|].
      pose proof (f_equal (@hd_error _) E) as Ea.
      pose proof (f_equal (@tl _) E) as El.
      cbn [map hd_error tl] in Ea, El. cbn [forallb].
      intros HH. apply andb_true_iff in HH as [HH1 HH2].
      rewrite (IH l' El HH2), andb_true_r.
      apply uboMapped_app. unfold uboMapped in *.
      assert (Eu : ubo a' = ubo a) by congruence. now rewrite Eu. }
    now apply (H _ _ Hu).
Qed.

Lemma set_nth_twice {A} (l : list A) (i : nat) (x y : A) :
  set_nth (set_nth l i x) i y = set_nth l i y.
Proof.
  revert i; induction l as [|a l IH]; intros [|i]; cbn; try reflexivity.
  now rewrite IH.
Qed.

Lemma for_each_seq_inv (J : nat -> World -> Prop) (body : nat -> M unit) :
  (forall k h w, J k w -> completed (body k h w) = true ->
                 J (S k) (world (body k h w))) ->
  forall m k h w,
    J k w -> completed (for_each (seq k m) body h w) = true ->
    J (k + m)%nat (world (for_each (seq k m) body h w)).
Proof.
  intros Hbody. induction m as [|m IH]; intros k h w Hj Hc.
  - now rewrite Nat.add_0_r.
  - cbn [seq] in *.
    change (for_each (k :: seq (S k) m) body h w)
      with (bind (body k) (fun _ => for_each (seq (S k) m) body) h w) in *.
    destruct (completed_bind _ _ _ _ Hc) as (a & Ho & Hc').
    rewrite world_bind, Ho. rewrite Nat.add_succ_r.
    apply (IH (S k)); [|exact Hc'].
    apply Hbody; [exact Hj|]. unfold completed. now rewrite Ho.
Qed.

Lemma prepareFrameResources_ready (k : nat) (frame : FrameObjects)
    (h : Host) (w : World) :
  let r := prepareFrameResources k frame h w in
  nth_error (frameObjects (app w)) k = Some frame ->
  completed r = true ->
  swapChainOf (world r) = swapChainOf w
  /\ length (frameObjects (app (world r))) = length (frameObjects (app w))
  /\ (forall j, j <> k ->
        nth_error (frameObjects (app (world r))) j =
        nth_error (frameObjects (app w)) j)
  /\ (exists f, nth_error (frameObjects (app (world r))) k = Some f
                /\ uboMapped (heap (world r)) f = true)
  /\ exists cells, heap (world r) = heap w ++ cells.
Proof.
  cbv zeta. intros Hn.
  remember (prepareFrameResources k frame h w) as r eqn:Hr.
  split_world_deep w. split_frame frame. cbn [app frameObjects] in Hn.
  unfold prepareFrameResources in Hr. msimpl_in Hr.
  repeat draw_step Hr.
  all: subst r; unfold completed; cbn [outcome]; try discriminate; intros _.
  unfold swapChainOf.
  cbn [world app base heap frameObjects swapChain_imageCount swapChain_images
       currentBuffer].
  assert (Hk : (k < length frameObjects0)%nat)
    by (apply nth_error_Some; congruence).
  rewrite !set_nth_twice.
  split; [reflexivity|]. split; [apply length_set_nth|].
  split; [intros j Hj; now apply nth_error_set_nth_ne|].
  split; [|eexists; reflexivity].
  eexists. split; [now apply nth_error_set_nth_eq|].
  unfold uboMapped. cbn [ubo buf_mapped].
  now rewrite nth_error_heap_base.
Qed.

Lemma prepareFrameObjects_ready (h : Host) (w : World) :
  completed (prepareFrameObjects h w) = true ->
  framesReady (world (prepareFrameObjects h w))
  /\ swapChainOf (world (prepareFrameObjects h w)) = swapChainOf w.
Proof.
  unfold prepareFrameObjects. intros Hc.
  apply completed_bind in Hc as (a & _ & Hc). cbn [api world] in Hc |- *.
  rewrite world_bind. cbn [api outcome world].
  set (w1 := mkWorld (S (tick w)) (app w) (heap w)) in *.
  rewrite bind_get in Hc |- *.
  apply completed_bind in Hc as (a' & _ & Hc). rewrite world_bind.
  cbn [modify outcome world] in Hc |- *.
  set (n := Z.to_nat (swapChain_imageCount (base (app w)))) in *.
  set (w2 := mkWorld (tick w1) (set_frameObjects _ (app w1)) (heap w1)) in *.
  assert (Hl2 : length (frameObjects (app w2)) = n).
  { subst w2 w1. cbn [app tick heap]. rewrite frameObjects_set_frameObjects.
    apply length_resize. }
  assert (Hs2 : swapChainOf w2 = swapChainOf w).
  { subst w2 w1. destruct w as [t a0 hp]; destruct a0; reflexivity. }
  rewrite for_frames_unfold in Hc |- *. rewrite Hl2 in Hc |- *.
  pose (J := fun (k : nat) (w' : World) =>
     swapChainOf w' = swapChainOf w
     /\ length (frameObjects (app w')) = n
     /\ forall j f, (j < k)%nat -> nth_error (frameObjects (app w')) j = Some f ->
                    uboMapped (heap w') f = true).
  assert (HJ : J (0 + n)%nat
                 (world (for_each (seq 0 n) (frameBody prepareFrameResources) h w2))).
  { apply (for_each_seq_inv J); [| |exact Hc].
    - intros k h' w' (Hs & Hl & Hm). rewrite frameBody_unfold.
      destruct (nth_error (frameObjects (app w')) k) as [f|] eqn:E;
        [|discriminate].
      intros Hc'.
      destruct (prepareFrameResources_ready k f h' w' E Hc')
        as (Hs' & Hl' & Hne & (f' & Hf' & Hu') & cells & Hh).
      split; [congruence|]. split; [congruence|].
      intros j g Hj Hg. destruct (Nat.eq_dec j k) as [->|Hjk].
      + congruence.
      + rewrite (Hne j Hjk) in Hg. rewrite Hh. apply uboMapped_app.
        apply (Hm j); [lia | exact Hg].
    - split; [exact Hs2|]. split; [exact Hl2|]. intros j f Hj. lia. }
  destruct HJ as (Hs & Hl & Hm). split; [|exact Hs].
  unfold framesReady. unfold swapChainOf in Hs. cbv zeta in Hs.
  injection Hs as Hn _ _. rewrite Hn. fold n. split; [exact Hl|].
  apply forallb_forall. intros f Hin.
  apply In_nth_error in Hin as [j Hj].
  apply (Hm j f); [|exact Hj].
  rewrite <- Hl. apply nth_error_Some. congruence.
Qed.

Lemma prepare_ready (h : Host) (w : World) :
  completed (prepare h w) = true ->
  framesReady (world (prepare h w))
  /\ swapChainOf (world (prepare h w)) = swapChainOf w
  /\ prepared (base (app (world (prepare h w)))) = true.
Proof.
  unfold prepare. rewrite !completed_seq, !world_seq.
  intros Hc.
  repeat match goal with
         | H : _ && _ = true |- _ => apply andb_true_iff in H as [? ?]
         end.
  repeat match goal with
         | H : completed ?x = true |- context [completed ?x] => rewrite H
         end.
  match goal with
  | H : completed (prepareFrameObjects h w) = true |- _ =>
      destruct (prepareFrameObjects_ready h w H) as [Hf Hs]
  end.
  set (w0 := world (prepareFrameObjects h w)) in *.
  pose proof (createBottomLevelAccelerationStructure_extends h w0) as E1.
  set (w1 := world (createBottomLevelAccelerationStructure h w0)) in *.
  pose proof (createTopLevelAccelerationStructure_extends h w1) as E2.
  set (w2 := world (createTopLevelAccelerationStructure h w1)) in *.
  pose proof (createRayTracingPipeline_extends h w2) as E3.
  set (w3 := world (createRayTracingPipeline h w2)) in *.
  pose proof (createShaderBindingTables_extends h w3) as E4.
  set (w4 := world (createShaderBindingTables h w3)) in *.
  pose proof (createDescriptorSets_extends h w4) as E5.
  set (w5 := world (createDescriptorSets h w4)) in *.
  assert (E : extends w0 w5)
    by (repeat (eapply extends_trans; [eassumption|]); apply extends_refl).
  rewrite buildCommandBuffers_run, modify_run. cbn [world tick app heap].
  pose proof (framesReady_extends _ _ E Hf) as [Hl Hu].
  destruct E as (Hs5 & _ & _).
  clear E1 E2 E3 E4 E5. clearbody w0 w1 w2 w3 w4 w5.
  unfold framesReady, swapChainOf in *.
  destruct w5 as [t5 a5 hp5]; destruct a5 as [b5 ? ? ? ? ? ? ? ? ? ? ? ? ?];
    destruct b5.
  cbn [app base heap frameObjects swapChain_imageCount swapChain_images
       currentBuffer prepared set_base_prepared set_base set_prepared] in *.
  repeat split; try assumption; congruence.
Qed.

(** X2: once prepare has returned, the frame loop never leaves defined
    behaviour.  Provided the swap chain has imageCount images,
    currentBuffer is one of its indices and every prepareFrame of the
    frames drawn leaves such an index, any number of consecutive render
    calls runs without an access out of bounds or through an unmapped
    pointer: every frame either returns or is aborted by VK_CHECK_RESULT.
    Nothing is assumed of what the host answers to other calls.  Of the
    base class, prepareFrame is taken to set currentBuffer to the index
    it acquired and submitFrame to leave the sample's state alone. *)
Theorem frame_loop_never_faults :
  forall (n : nat) (h : Host) (w : World),
    swapChainReady w ->
    completed (prepare h w) = true ->
    acquiresInRange h (world (prepare h w))
      (renderFrames n h (world (prepare h w))) = true ->
    prepared (base (app (world (prepare h w)))) = true
    /\ framesReady (world (prepare h w))
    /\ faulted (renderFrames n h (world (prepare h w))) = false.
Proof.
  intros n h w Hs Hc Ha.
  destruct (prepare_ready h w Hc) as (Hf & Hsc & Hp).
  split; [exact Hp|]. split; [exact Hf|].
  unfold swapChainOf in Hsc. cbv zeta in Hsc. injection Hsc as H1 H2 H3.
  apply renderFrames_safe; [exact Hf | | exact Ha].
  unfold swapChainReady in *. cbv zeta in *. now rewrite H1, H2, H3.
Qed.

Lemma frame_loop_never_faults_witness :
  faulted (renderFrames 4 (acquiringHost (tick preparedWorld))
             (world (prepare (acquiringHost (tick preparedWorld)) exampleWorld)))
  = false.
Proof.
  assert (H1 : swapChainReady exampleWorld)
    by (vm_compute; split; [reflexivity | split; [discriminate | reflexivity]]).
  assert (H2 : completed (prepare (acquiringHost (tick preparedWorld)) exampleWorld)
               = true)
    by (vm_compute; reflexivity).
  assert (H3 : acquiresInRange (acquiringHost (tick preparedWorld))
                 (world (prepare (acquiringHost (tick preparedWorld)) exampleWorld))
                 (renderFrames 4 (acquiringHost (tick preparedWorld))
                    (world (prepare (acquiringHost (tick preparedWorld))
                              exampleWorld))) = true)
    by (vm_compute; reflexivity).
  exact (proj2 (proj2 (frame_loop_never_faults 4
                         (acquiringHost (tick preparedWorld)) exampleWorld
                         H1 H2 H3))).
Defined.

(* ================================================================== *)
(** ** Image layouts in draw *)

Lemma trackLayouts_quiet (L : Layouts) (es : list Event) (cs : list Call) :
  Forall quietCall es ->
  trackLayouts L (map ev_call es ++ cs) = trackLayouts L cs.
Proof.
  induction 1 as [|e es [_ He] _ IH]; cbn [map List.app trackLayouts];
    [reflexivity|].
  destruct (ev_call e); cbn in He; try discriminate He; cbn [trackCall];
    exact IH.
Qed.

(** X3: the commands a frame records keep the image layouts consistent.
    With the current frame's storage image in GENERAL layout (and not
    itself the swap chain image), every transition starts from the layout
    its image is in and the copy finds source and destination in the
    layouts it names; the frame leaves the storage image in GENERAL again
    and the swap chain image in PRESENT_SRC_KHR, and touches no other
    image.  The frame is the one at the index currentBuffer held on
    entry, the swap chain image the one at the index prepareFrame left. *)
Theorem draw_image_layouts :
  forall (h : Host) (w : World) (L : Layouts),
    let r := draw h w in
    completed r = true ->
    exists frame image,
      nth_error (frameObjects (app (world r)))
                (Z.to_nat (currentBuffer (base (app w)))) = Some frame
      /\ nth_error (swapChain_images (base (app w)))
                   (Z.to_nat (currentBuffer (base (app (world r))))) = Some image
      /\ (L (storageImage frame) = VK_IMAGE_LAYOUT_GENERAL ->
          storageImage frame <> image ->
          exists L',
            trackLayouts L (calls r) = Some L'
            /\ L' (storageImage frame) = VK_IMAGE_LAYOUT_GENERAL
            /\ L' image = VK_IMAGE_LAYOUT_PRESENT_SRC_KHR
            /\ forall x, x <> image -> L' x = L x).
Proof.
  intros h w L. cbv zeta. draw_exec h w r Hr.
  all: subst r; unfold completed; cbn [outcome]; try discriminate; intros _.
  all: cbn [world app base frameObjects swapChain_images currentBuffer].
  all: eexists; eexists; split; [eassumption|]; split; [eassumption|].
  all: cbn [storageImage]; intros HL Hne.
  all: match type of Hne with
       | ?a <> ?b =>
           assert (E1 : (a =? b) = false) by (now apply Z.eqb_neq);
           assert (E2 : (b =? a) = false) by (apply Z.eqb_neq; congruence)
       end.
  all: draw_calls.
  all: try (cbn [trackLayouts trackCall];
            rewrite (trackLayouts_quiet _ _ _ Hev)).
  all: repeat (cbn [trackLayouts trackCall layout_eqb orb andb];
               unfold setLayout; cbn beta;
               rewrite ?Z.eqb_refl, ?E1, ?E2, ?HL).
  all: eexists; split; [reflexivity|]; cbn beta;
    rewrite ?Z.eqb_refl, ?E1, ?E2;
    split; [reflexivity|]; split; [reflexivity|];
    intros x Hx; apply Z.eqb_neq in Hx; rewrite Hx;
    match type of HL with
    | _ ?s = _ =>
        destruct (x =? s) eqn:Ex; [|reflexivity];
        apply Z.eqb_eq in Ex; subst x; now rewrite HL
    end.
Qed.

Lemma draw_image_layouts_witness :
  completed (draw zeroHost preparedWorld) = true /\
  exists L',
    trackLayouts (fun _ => VK_IMAGE_LAYOUT_GENERAL)
                 (calls (draw zeroHost preparedWorld)) = Some L'
    /\ L' 501 = VK_IMAGE_LAYOUT_PRESENT_SRC_KHR.
Proof.
  assert (Hc : completed (draw zeroHost preparedWorld) = true)
    by (vm_compute; reflexivity).
  split; [exact Hc|].
  destruct (draw_image_layouts zeroHost preparedWorld
              (fun _ => VK_IMAGE_LAYOUT_GENERAL) Hc)
    as (frame & image & Hf & Hi & H).
  vm_compute in Hf, Hi. injection Hf as <-. injection Hi as <-.
  destruct H as (L' & H1 & _ & H2 & _);
    [reflexivity | vm_compute; discriminate |].
  exists L'. split; assumption.
Defined.

(* ================================================================== *)
(** ** Descriptor writes and the descriptor set layout *)

Lemma Forall_events_bind {A B} (P : Event -> Prop) (m : M A) (f : A -> M B)
    (h : Host) (w : World) :
  Forall P (events (m h w)) ->
  (forall a w1, Forall P (events (f a h w1))) ->
  Forall P (events (bind m f h w)).
Proof.
  intros Hm Hf. rewrite events_bind. apply Forall_app. split; [exact Hm|].
  destruct (outcome (m h w)); [apply Hf | constructor ..].
Qed.

Lemma declared_callableLoads (p : string) (xs : list Z) (es : list Event) :
  map ev_call es = callableLoads p xs ->
  flat_map (fun c => match c with
                     | C_vkCreateDescriptorSetLayout bs => [bs]
                     | _ => []
                     end) (map ev_call es) = [].
Proof.
  intros ->. unfold callableLoads.
  induction xs as [|x xs IH]; cbn; [reflexivity | exact IH].
Qed.

Lemma createRayTracingPipeline_declares (h : Host) (w : World) :
  declaredLayouts (createRayTracingPipeline h w) = [setLayoutBindings].
Proof.
  unfold declaredLayouts, calls.
  remember (createRayTracingPipeline h w) as r eqn:Hr.
  split_world w. unfold createRayTracingPipeline in Hr. msimpl_in Hr.
  split_test_in Hr; msimpl_in Hr; [|subst r; reflexivity].
  split_test_in Hr; msimpl_in Hr; [|subst r; reflexivity].
  match type of Hr with
  | context [fold_each ?xs ?st ?b h ?w1] =>
      destruct (callable_loop_run (getShadersPath h) xs st h w1)
        as (stages' & Ho & Hl & Hc & Ha & Ht & Hh);
      destruct (fold_each xs st b h w1) as [o es wl]
  end.
  unfold calls in Hc. cbn [outcome world app events] in Ho, Ha, Hc. subst o.
  destruct wl as [tl al hl]. cbn [app] in Ha. subst al.
  msimpl_in Hr. apply declared_callableLoads in Hc.
  split_test_in Hr; msimpl_in Hr; subst r; cbn [events map ev_call flat_map List.app];
    rewrite map_app, flat_map_app, Hc; reflexivity.
Qed.

Lemma allocateFrameDescriptorSet_updates (i : nat) (frame : FrameObjects)
    (h : Host) (w : World) :
  Forall (fun e => updatesAll setLayoutBindings (ev_call e))
         (events (allocateFrameDescriptorSet i frame h w)).
Proof.
  remember (allocateFrameDescriptorSet i frame h w) as r eqn:Hr.
  split_world w.
  unfold allocateFrameDescriptorSet in Hr. msimpl_in Hr.
  split_test_in Hr; msimpl_in Hr; subst r; cbn [events];
    repeat constructor.
  eexists. repeat constructor.
Qed.

Lemma createDescriptorSets_updates (h : Host) (w : World) :
  Forall (fun e => updatesAll setLayoutBindings (ev_call e))
         (events (createDescriptorSets h w)).
Proof.
  unfold createDescriptorSets. rewrite bind_get.
  apply Forall_events_bind.
  - cbn. destruct (_ =? _); cbn; repeat constructor.
  - intros pool w1. apply Forall_events_bind; [constructor|]. intros _ w2.
    apply for_frames_events. intros. apply allocateFrameDescriptorSet_updates.
Qed.

Lemma draw_updates (h : Host) (w : World) :
  Forall (fun e => updatesWithin setLayoutBindings (ev_call e))
         (events (draw h w)).
Proof.
  unfold draw. rewrite bind_get.
  apply Forall_events_bind.
  - destruct (resized (base (app w))); [|constructor].
    apply Forall_events_bind; [repeat constructor|]. intros _ w1.
    apply for_frames_events. intros i frame h' w'.
    split_world w'. unfold recreateStorageImage. msimpl.
    constructor; [exact I|]. constructor; [|constructor].
    cbn [ev_call updatesWithin]. split; [discriminate|].
    intros k [<-|[]]. cbn. auto.
  - intros _ w1. rewrite bind_get.
    match goal with |- Forall _ (events ?x) => remember x as r eqn:Hr end.
    split_world_deep w1. msimpl_in Hr.
    repeat draw_step Hr.
    all: subst r; cbn [events]; repeat constructor.
Qed.

(** X4: the descriptor writes agree with the descriptor set layout.
    createRayTracingPipeline creates one layout; every descriptor update
    of createDescriptorSets writes exactly the bindings of that layout, in
    order and with the declared types, all into one set; every descriptor
    update of draw (after a resize) writes only bindings of that layout;
    and the binding numbers of the layout are distinct. *)
Theorem descriptor_writes_match_layout :
  forall (hp : Host) (wp : World) (h : Host) (w : World),
    exists bs,
      declaredLayouts (createRayTracingPipeline hp wp) = [bs]
      /\ NoDup (map snd bs)
      /\ Forall (updatesAll bs) (calls (createDescriptorSets h w))
      /\ Forall (updatesWithin bs) (calls (draw h w)).
Proof.
  intros hp wp h w. exists setLayoutBindings.
  split; [apply createRayTracingPipeline_declares|].
  split; [repeat constructor; cbn; intuition discriminate|].
  unfold calls. rewrite !Forall_map.
  split; [apply createDescriptorSets_updates | apply draw_updates].
Qed.

(* ================================================================== *)
(** ** The descriptor pool *)

Lemma filter_concat_repeat_pair (name a b : string) (n : nat) :
  String.eqb name a = true -> String.eqb name b = false ->
  length (filter (String.eqb name) (List.concat (repeat [a; b] n))) = n.
Proof.
  intros Ha Hb. induction n as [|n IH]; [reflexivity|].
  change (repeat [a; b] (S n)) with ([a; b] :: repeat [a; b] n).
  cbn [List.concat List.app filter]. rewrite Ha, Hb. cbn [length].
  now rewrite IH.
Qed.

Lemma isPrefix_filter_length (f : string -> bool) (l1 l2 : list string) :
  isPrefix l1 l2 -> (length (filter f l1) <= length (filter f l2))%nat.
Proof.
  intros [rest ->]. rewrite filter_app, length_app. lia.
Qed.

(** X5: the descriptor pool is sized for exactly the sets that are
    allocated from it.  With fewer than 2^31 frames, createDescriptorSets
    creates a pool for as many sets as there are frames and, for every
    descriptor type, as many descriptors as that number of sets of the
    pipeline's layout take; it never allocates more sets than that, and a
    run that returns has allocated exactly one set per frame. *)
Theorem descriptor_pool_capacity :
  forall (h : Host) (w : World),
    let r := createDescriptorSets h w in
    let n := length (frameObjects (app w)) in
    Z.of_nat n < 2 ^ 31 ->
    (exists sizes,
        nth_error (calls r) 0 = Some (C_vkCreateDescriptorPool sizes (Z.of_nat n))
        /\ forall t, poolCapacity t sizes = Z.of_nat n * layoutDemand t setLayoutBindings)
    /\ (callCount "vkAllocateDescriptorSets" r <= n)%nat
    /\ (completed r = true -> callCount "vkAllocateDescriptorSets" r = n).
Proof.
  intros h w r n Hn.
  assert (E : u32 (Z.of_nat n) = Z.of_nat n) by (apply u32_small; lia).
  split.
  - subst r. unfold createDescriptorSets, calls. rewrite bind_get, events_bind.
    cbn [VK_CHECK_RESULT vkCreateDescriptorPool bind api events ret].
    destruct (_ =? _); cbn [events List.app map ev_call nth_error];
      fold n; rewrite E.
    all: eexists; split; [reflexivity|].
    all: intros []; unfold poolCapacity, layoutDemand, setLayoutBindings;
      cbn [fold_right filter fst snd descriptorType_eqb length];
      rewrite ?u32_small by lia; lia.
  - pose proof (descriptorSets_callees h w) as [Hp Hc].
    unfold runOf in Hp, Hc. fold r in Hp, Hc.
    unfold expectedCallees, conditions in Hp, Hc. cbn [frames] in Hp, Hc.
    fold n in Hp, Hc. unfold callCount.
    assert (Hfull : length (filter (String.eqb "vkAllocateDescriptorSets")
                      ("vkCreateDescriptorPool"
                       :: List.concat (repeat ["vkAllocateDescriptorSets";
                                               "vkUpdateDescriptorSets"] n))) = n).
    { cbn [filter]. change ("vkAllocateDescriptorSets" =? "vkCreateDescriptorPool")%string
        with false. cbv iota.
      now apply filter_concat_repeat_pair. }
    split.
    + eapply Nat.le_trans; [apply isPrefix_filter_length; exact Hp|].
      rewrite Hfull. apply Nat.le_refl.
    + intros Hd. now rewrite (Hc Hd).
Qed.

Lemma descriptor_pool_capacity_witness :
  callCount "vkAllocateDescriptorSets" (createDescriptorSets okHost preparedWorld) =
  length (frameObjects (app preparedWorld)).
Proof.
  assert (H1 : Z.of_nat (length (frameObjects (app preparedWorld))) < 2 ^ 31)
    by (vm_compute; reflexivity).
  assert (H2 : completed (createDescriptorSets okHost preparedWorld) = true)
    by (vm_compute; reflexivity).
  exact (proj2 (proj2 (descriptor_pool_capacity okHost preparedWorld H1)) H2).
Defined.

(* ================================================================== *)
(** ** The contents of the shader binding tables *)

Lemma firstn_plus {A} (n m : nat) (l : list A) :
  firstn (n + m) l = firstn n l ++ firstn m (skipn n l).
Proof.
  revert l; induction n as [|n IH]; intros l.
  - now rewrite firstn_O, skipn_O.
  - destruct l as [|a l].
    + now rewrite skipn_nil, !firstn_nil.
    + rewrite Nat.add_succ_l, !firstn_cons, skipn_cons, IH. reflexivity.
Qed.

Lemma slice_split (src : list Z) (a n m : Z) :
  0 <= a -> 0 <= n -> 0 <= m ->
  slice src a (n + m) = slice src a n ++ slice src (a + n) m.
Proof.
  intros Ha Hn Hm. unfold slice.
  rewrite Z2Nat.inj_add by lia. rewrite firstn_plus, skipn_skipn.
  do 3 f_equal. lia.
Qed.

Lemma skipn_repeat_zeros {A} (x : A) (k m : nat) :
  skipn k (repeat x m) = repeat x (m - k).
Proof.
  revert k; induction m as [|m IH]; intros k.
  - change (repeat x 0) with (@nil A). now rewrite skipn_nil.
  - change (repeat x (S m)) with (x :: repeat x m). destruct k as [|k].
    + now rewrite skipn_O.
    + now rewrite skipn_cons, IH.
Qed.

(** X6: when the aligned handle size equals the handle size, as it does
    when the handle size is a multiple of the handle alignment, every
    shader binding table holds the handles of its own groups: the raygen,
    miss and hit tables hold the handles of groups 0, 1 and 2, and the
    callable table holds the handles of groups 3, 4 and 5 followed by
    zeros.  Three callable handles are copied whatever objectCount is: the
    entries of further objects stay zero. *)
Theorem binding_tables_hold_group_handles :
  forall (h : Host) (w : World),
    let r := createShaderBindingTables h w in
    let t := shaderBindingTables (app (world r)) in
    let st := shaderHandleStorage h w in
    let hs := sbtHandleSize w in
    let n := objectCount (app w) in
    let handle := fun k => slice st (k * hs) hs in
    completed r = true ->
    sbtHandleSizeAligned w = hs ->
    0 < hs -> hs * 6 <= 2 ^ 32 ->
    tableBytes (world r) (raygen t) = Some (handle 0)
    /\ tableBytes (world r) (miss t) = Some (handle 1)
    /\ tableBytes (world r) (hit t) = Some (handle 2)
    /\ tableBytes (world r) (callable t) =
         Some (handle 3 ++ handle 4 ++ handle 5
               ++ repeat 0 (Z.to_nat (u32 (hs * n)) - 3 * Z.to_nat hs)).
Proof.
  intros h w r t st hs n handle Hc Hal Hhs Hb.
  pose proof (createShaderBindingTables_checked h w Hc) as Hok.
  destruct (createShaderBindingTables_run h w Hok) as (Hcomp & _ & _ & Hdone).
  fold r in Hcomp, Hdone.
  destruct (Hdone Hc) as (Hheap & Htab & _ & _).
  rewrite Hc in Hcomp. symmetry in Hcomp.
  apply andb_prop in Hcomp; destruct Hcomp as [Hcomp H4].
  apply andb_prop in Hcomp; destruct Hcomp as [Hcomp H3].
  apply andb_prop in Hcomp; destruct Hcomp as [H1 H2].
  apply andb_prop in H1; destruct H1 as [H1 _].
  apply andb_prop in H2; destruct H2 as [H2 _].
  apply andb_prop in H3; destruct H3 as [H3 _].
  apply andb_prop in H4; destruct H4 as [H4 _].
  fold st in H1, H2, H3, H4. rewrite Hal in H2, H3, H4. fold hs in H1, H2, H3, H4.
  rewrite (u32_small (hs * 2)) in H3 by lia.
  rewrite !(u32_small (hs * 3)) in H4 by lia.
  unfold tableBytes, t. rewrite Htab, Hheap. unfold sbtTables, sbtCells.
  cbn [raygen miss hit callable buf_mapped].
  rewrite nth_error_heap_base, !nth_error_heap_add. cbn [nth_error].
  fold st. rewrite Hal. fold hs. fold n.
  rewrite (u32_small (hs * 2)), !(u32_small (hs * 3)) by lia.
  assert (Hone : forall off, 0 <= off -> sourceInBounds st off hs = true ->
            write_prefix (freshTable w 1) (slice st off hs) = slice st off hs).
  { intros off Hoff Hin. unfold write_prefix, freshTable. fold hs.
    rewrite (length_slice _ _ _ Hoff Hin), skipn_repeat_zeros.
    rewrite Z.mul_1_r, u32_small by lia. rewrite Nat.sub_diag.
    change (repeat 0 0) with (@nil Z). apply app_nil_r. }
  unfold handle.
  split; [now rewrite Hone by (lia || assumption)|].
  split; [rewrite Hone by (lia || assumption);
          now replace (1 * hs) with hs by lia|].
  split; [rewrite Hone by (lia || assumption);
          now replace (2 * hs) with (hs * 2) by lia|].
  f_equal. unfold write_prefix, freshTable. fold hs. fold n.
  assert (H0 : 0 <= hs * 3) by lia.
  rewrite (length_slice _ _ _ H0 H4), skipn_repeat_zeros.
  assert (Es : slice st (hs * 3) (hs * 3) =
               slice st (3 * hs) hs ++ slice st (4 * hs) hs ++ slice st (5 * hs) hs).
  { replace (slice st (hs * 3) (hs * 3))
      with (slice st (hs * 3) (hs + (hs + hs))) by (f_equal; lia).
    rewrite slice_split, slice_split by lia.
    f_equal; [f_equal; lia|]. f_equal; f_equal; lia. }
  rewrite Es, <- !app_assoc. do 3 f_equal. f_equal. lia.
Qed.

Lemma binding_tables_hold_group_handles_witness :
  tableBytes (world (createShaderBindingTables okHost tightWorld))
    (miss (shaderBindingTables
             (app (world (createShaderBindingTables okHost tightWorld))))) =
  Some (slice (shaderHandleStorage okHost tightWorld)
              (1 * sbtHandleSize tightWorld) (sbtHandleSize tightWorld)).
Proof.
  assert (H1 : completed (createShaderBindingTables okHost tightWorld) = true)
    by (vm_compute; reflexivity).
  assert (H2 : sbtHandleSizeAligned tightWorld = sbtHandleSize tightWorld)
    by (vm_compute; reflexivity).
  assert (H3 : 0 < sbtHandleSize tightWorld) by (vm_compute; reflexivity).
  assert (H4 : sbtHandleSize tightWorld * 6 <= 2 ^ 32)
    by (vm_compute; discriminate).
  exact (proj1 (proj2 (binding_tables_hold_group_handles
                         okHost tightWorld H1 H2 H3 H4))).
Defined.

(* ================================================================== *)
(** ** Shader groups and shader stages *)

Lemma stages_callableLoads (p : string) (xs : list Z) (es : list Event) :
  map ev_call es = callableLoads p xs ->
  flat_map (fun c => match c with C_loadShader _ s => [s] | _ => [] end)
           (map ev_call es)
  = repeat VK_SHADER_STAGE_CALLABLE_BIT_KHR (length xs)
  /\ flat_map (fun c =>
       match c with
       | C_vkCreateRayTracingPipelinesKHR sc gc gs layout => [(sc, gc, gs, layout)]
       | _ => []
       end) (map ev_call es) = [].
Proof.
  intros ->. unfold callableLoads.
  induction xs as [|x xs [IH1 IH2]]; [split; reflexivity|].
  cbn [map flat_map List.app length]. rewrite IH1, IH2. split; reflexivity.
Qed.

Lemma groupShader_callableGroups (k : nat) :
  Z.of_nat (3 + k) < 2 ^ 32 ->
  map groupShader (callableGroups 3 k) = map Z.of_nat (seq 3 k).
Proof.
  intros Hk. unfold callableGroups.
  rewrite map_map. rewrite <- (seq_shift k 2), <- (seq_shift k 1), <- (seq_shift k 0).
  rewrite !map_map. apply map_ext_in. intros j Hj. apply in_seq in Hj.
  unfold groupShader, generalGroup. cbn [sg_type generalShader].
  rewrite (u32_small (Z.of_nat (3 + S j))) by lia.
  rewrite u32_small by lia. lia.
Qed.

Lemma sg_type_callableGroups (a k : nat) :
  map sg_type (callableGroups a k) =
  repeat VK_RAY_TRACING_SHADER_GROUP_TYPE_GENERAL_KHR k.
Proof.
  unfold callableGroups. rewrite map_map. cbn [sg_type generalGroup].
  now rewrite map_const, length_seq.
Qed.

(** X7: every shader group of the pipeline refers to the stage that was
    loaded for it.  A run of createRayTracingPipeline that returns has
    loaded a raygen, a miss and a closest hit stage and one callable stage
    per object, in that order; the groups it appended are as many, group k
    refers to stage k (the closest hit shader for the hit group, the
    general shader for the others), and the one pipeline it creates is
    given that stage count, all shader groups of the sample and the
    pipeline layout created in the same run. *)
Theorem shader_groups_refer_to_loaded_stages :
  forall (h : Host) (w : World),
    let r := createRayTracingPipeline h w in
    let n := objectCount (app w) in
    completed r = true ->
    0 <= n -> n + 3 < 2 ^ 32 ->
    loadedStages r =
      [ VK_SHADER_STAGE_RAYGEN_BIT_KHR; VK_SHADER_STAGE_MISS_BIT_KHR;
        VK_SHADER_STAGE_CLOSEST_HIT_BIT_KHR ]
      ++ repeat VK_SHADER_STAGE_CALLABLE_BIT_KHR (Z.to_nat n)
    /\ (exists new,
          shaderGroups (app (world r)) = shaderGroups (app w) ++ new
          /\ map groupShader new = map Z.of_nat (seq 0 (3 + Z.to_nat n))
          /\ map sg_type new =
               [ VK_RAY_TRACING_SHADER_GROUP_TYPE_GENERAL_KHR;
                 VK_RAY_TRACING_SHADER_GROUP_TYPE_GENERAL_KHR;
                 VK_RAY_TRACING_SHADER_GROUP_TYPE_TRIANGLES_HIT_GROUP_KHR ]
               ++ repeat VK_RAY_TRACING_SHADER_GROUP_TYPE_GENERAL_KHR (Z.to_nat n))
    /\ createdPipelines r =
         [ (3 + n,
            u32 (Z.of_nat (length (shaderGroups (app (world r))))),
            shaderGroups (app (world r)),
            pipelineLayout (app (world r))) ].
Proof.
  intros h w r n. subst r n. unfold loadedStages, createdPipelines, calls, completed.
  remember (createRayTracingPipeline h w) as r eqn:Hr.
  split_world w. cbn [app objectCount shaderGroups].
  unfold createRayTracingPipeline in Hr. msimpl_in Hr.
  split_test_in Hr; msimpl_in Hr; [|subst r; discriminate].
  split_test_in Hr; msimpl_in Hr; [|subst r; discriminate].
  match type of Hr with
  | context [fold_each ?xs ?st ?b h ?w1] =>
      destruct (callable_loop_run (getShadersPath h) xs st h w1)
        as (stages' & Ho & Hl & Hc & Ha & Ht & Hh);
      destruct (fold_each xs st b h w1) as [o es wl]
  end.
  unfold calls in Hc. cbn [outcome world app events] in Ho, Ha, Hc. subst o.
  destruct wl as [tl al hl]. cbn [app] in Ha. subst al.
  rewrite length_range_u32 in Hl. cbn [length Nat.add] in Hl.
  msimpl_in Hr. rewrite ?length_range_u32 in Hr.
  destruct (stages_callableLoads _ _ _ Hc) as [Hs Hp].
  rewrite length_range_u32 in Hs.
  split_test_in Hr; msimpl_in Hr; subst r; cbn [outcome]; try discriminate.
  intros _ Hn0 Hn.
  cbn [events world app shaderGroups pipelineLayout map ev_call flat_map List.app].
  rewrite !map_app, !flat_map_app, Hs, Hp.
  cbn [map ev_call flat_map List.app].
  split; [now rewrite app_nil_r|]. split.
  - eexists. split; [rewrite <- !app_assoc; reflexivity|].
    cbn [List.app map]. split.
    + rewrite groupShader_callableGroups by lia. reflexivity.
    + now rewrite sg_type_callableGroups.
  - rewrite Hl. do 4 f_equal. rewrite u32_small; lia.
Qed.

Lemma shader_groups_refer_to_loaded_stages_witness :
  loadedStages (createRayTracingPipeline okHost exampleWorld) =
    [ VK_SHADER_STAGE_RAYGEN_BIT_KHR; VK_SHADER_STAGE_MISS_BIT_KHR;
      VK_SHADER_STAGE_CLOSEST_HIT_BIT_KHR ]
    ++ repeat VK_SHADER_STAGE_CALLABLE_BIT_KHR
              (Z.to_nat (objectCount (app exampleWorld))).
Proof.
  assert (H1 : completed (createRayTracingPipeline okHost exampleWorld) = true)
    by (vm_compute; reflexivity).
  assert (H2 : 0 <= objectCount (app exampleWorld)) by (vm_compute; discriminate).
  assert (H3 : objectCount (app exampleWorld) + 3 < 2 ^ 32)
    by (vm_compute; reflexivity).
  exact (proj1 (shader_groups_refer_to_loaded_stages okHost exampleWorld H1 H2 H3)).
Defined.

(* ================================================================== *)
(** ** The uniform buffer update *)

(** X8: a frame that updates the uniform data writes one cell of mapped
    memory and no other.  When the application is not paused, or the
    camera has moved, a frame that returns has stored the inverse view and
    projection matrices in uniformData and copied uniformData into the
    mapped uniform buffer of the frame at index currentBuffer (as it was
    on entry); the rest of the mapped memory, the uniform buffers of the
    other frames included, is as before. *)
Theorem draw_writes_one_uniform_buffer :
  forall (h : Host) (w : World),
    let r := draw h w in
    negb (paused (base (app w))) || cam_updated (camera (base (app w))) = true ->
    completed r = true ->
    exists frame p,
      currentFrameOf w = Some frame
      /\ buf_mapped (ubo frame) = Some p
      /\ uniformData (app (world r)) =
           mkUniformData (glm_inverse h (cam_view (camera (base (app w)))))
                         (glm_inverse h (cam_perspective (camera (base (app w)))))
      /\ heap (world r) =
           set_nth (heap w) p (MObject (D_uniform (uniformData (app (world r))))).
Proof.
  intros h w r Hu Hc. subst r. revert Hc. draw_exec h w r Hr.
  all: cbn [paused cam_updated camera base app negb orb] in Hu.
  all: unfold negb, orb in Hu; try congruence.
  all: subst r; cbn [completed outcome]; try discriminate; intros _.
  all: cbn [world app heap uniformData cam_view cam_perspective camera base].
  all: unfold currentFrameOf; cbn [app base frameObjects currentBuffer].
  all: first
    [ match goal with
      | Hcore : map frameCore _ = map frameCore _,
        Hn' : nth_error _ _ = Some (mkFrame _ _ _ _ _) |- _ =>
          destruct (nth_error_same_map frameCore _ _ _ _ Hcore Hn')
            as (frame & Hn & Hg);
          exists frame; eexists; split; [exact Hn|];
          destruct frame; unfold frameCore in Hg; cbn in Hg;
          injection Hg as -> -> -> ->; cbn [ubo buf_mapped]
      end
    | eexists; eexists; split; [eassumption|]; cbn [ubo buf_mapped] ].
  all: repeat split; reflexivity.
Qed.

Lemma draw_writes_one_uniform_buffer_witness :
  exists frame p,
    currentFrameOf preparedWorld = Some frame
    /\ buf_mapped (ubo frame) = Some p
    /\ uniformData (app (world (draw zeroHost preparedWorld))) =
         mkUniformData
           (glm_inverse zeroHost (cam_view (camera (base (app preparedWorld)))))
           (glm_inverse zeroHost (cam_perspective (camera (base (app preparedWorld)))))
    /\ heap (world (draw zeroHost preparedWorld)) =
         set_nth (heap preparedWorld) p
           (MObject (D_uniform (uniformData (app (world (draw zeroHost preparedWorld)))))).
Proof.
  assert (H1 : negb (paused (base (app preparedWorld)))
               || cam_updated (camera (base (app preparedWorld))) = true)
    by (vm_compute; reflexivity).
  assert (H2 : completed (draw zeroHost preparedWorld) = true)
    by (vm_compute; reflexivity).
  exact (draw_writes_one_uniform_buffer zeroHost preparedWorld H1 H2).
Defined.

(* ================================================================== *)
(** ** The resize block of draw *)

Lemma skipn_nth_error {A} (l : list A) (k : nat) (x : A) :
  nth_error l k = Some x -> skipn k l = x :: skipn (S k) l.
Proof.
  revert k; induction l as [|a l IH]; intros [|k] H; cbn in H; try discriminate.
  - injection H as ->. now rewrite skipn_O, skipn_cons, skipn_O.
  - rewrite !skipn_cons. now apply IH.
Qed.

Lemma recreateStorageImage_run (i : nat) (frame : FrameObjects)
    (h : Host) (w : World) :
  recreateStorageImage i frame h w =
  let frame' := set_frame_storageImage (answer h (tick w) 1%nat) frame in
  mkResult (Done tt)
    [ mkEvent (C_createStorageImage (width (base (app w))) (height (base (app w))))
              (answer h (tick w) 0%nat);
      mkEvent (C_vkUpdateDescriptorSets [storageImageWrite frame'])
              (answer h (S (tick w)) 0%nat) ]
    (mkWorld (S (S (tick w))) (set_frame i frame' (app w)) (heap w)).
Proof. reflexivity. Qed.

Lemma base_set_frame (i : nat) (f : FrameObjects) (s : VulkanExample) :
  base (set_frame i f s) = base s.
Proof. reflexivity. Qed.

Lemma frameObjects_set_frame (i : nat) (f : FrameObjects) (s : VulkanExample) :
  frameObjects (set_frame i f s) = set_nth (frameObjects s) i f.
Proof. reflexivity. Qed.

Lemma resize_loop_from (m : nat) :
  forall (k : nat) (h : Host) (w : World),
    let r := for_each (seq k m) (frameBody recreateStorageImage) h w in
    length (frameObjects (app w)) = (k + m)%nat ->
    completed r = true
    /\ length (frameObjects (app (world r))) = (k + m)%nat
    /\ (forall j, (j < k)%nat ->
          nth_error (frameObjects (app (world r))) j =
          nth_error (frameObjects (app w)) j)
    /\ writesOf (events r) =
         map storageImageWrite (skipn k (frameObjects (app (world r))))
    /\ storageImagesOf (events r) =
         repeat (width (base (app w)), height (base (app w))) m
    /\ base (app (world r)) = base (app w).
Proof.
  induction m as [|m IH]; intros k h w r Hl; subst r.
  - cbn [seq]. change (for_each [] (frameBody recreateStorageImage) h w)
      with (mkResult (Done tt) [] w).
    cbn [world events]. rewrite skipn_all2 by lia. now repeat split.
  - cbn [seq].
    change (for_each (k :: seq (S k) m) (frameBody recreateStorageImage) h w)
      with (bind (frameBody recreateStorageImage k)
                 (fun _ => for_each (seq (S k) m) (frameBody recreateStorageImage)) h w).
    rewrite bind_run, frameBody_unfold.
    destruct (nth_error (frameObjects (app w)) k) as [f|] eqn:E;
      [|apply nth_error_None in E; lia].
    rewrite recreateStorageImage_run. cbv zeta. cbn [outcome events world].
    set (f' := set_frame_storageImage (answer h (tick w) 1%nat) f).
    set (W := mkWorld (S (S (tick w))) (set_frame k f' (app w)) (heap w)).
    specialize (IH (S k) h W). cbv zeta in IH.
    destruct IH as (Hc & Hl' & Hk & Hw & Hs & Hb).
    { subst W. cbn [app]. rewrite frameObjects_set_frame, length_set_nth. lia. }
    subst W. cbn [app] in Hk, Hs, Hb.
    rewrite frameObjects_set_frame in Hk. rewrite base_set_frame in Hs, Hb.
    set (rest := for_each (seq (S k) m) (frameBody recreateStorageImage) h _) in *.
    assert (Hkk : nth_error (frameObjects (app (world rest))) k = Some f').
    { rewrite Hk by lia. apply nth_error_set_nth_eq. lia. }
    split; [exact Hc|]. split; [lia|]. split.
    + intros j Hj. rewrite Hk by lia. apply nth_error_set_nth_ne. lia.
    + unfold writesOf, storageImagesOf in *.
      rewrite !flat_map_app. cbn [flat_map ev_call List.app]. rewrite Hw, Hs, Hb.
      rewrite (skipn_nth_error _ _ _ Hkk). cbn [map].
      repeat split.
Qed.

Lemma writesOf_app (a b : list Event) : writesOf (a ++ b) = writesOf a ++ writesOf b.
Proof. apply flat_map_app. Qed.

Lemma storageImagesOf_app (a b : list Event) :
  storageImagesOf (a ++ b) = storageImagesOf a ++ storageImagesOf b.
Proof. apply flat_map_app. Qed.

(** X9: the resize block of draw.  A frame that returns has changed
    nothing of the frames but their storage images.  After a resize it has
    recreated the storage image of every frame, with the current width and
    height, and has pointed binding 1 of each frame's descriptor set at
    that frame's new image, frame by frame; these are all the descriptor
    writes of the frame.  Without a resize it creates no image, writes no
    descriptor and leaves the frames as they are. *)
Theorem draw_recreates_storage_images :
  forall (h : Host) (w : World),
    let r := draw h w in
    let frames' := frameObjects (app (world r)) in
    completed r = true ->
    map frameCore frames' = map frameCore (frameObjects (app w))
    /\ (resized (base (app w)) = true ->
        writesOf (events r) = map storageImageWrite frames'
        /\ storageImagesOf (events r) =
             repeat (width (base (app w)), height (base (app w)))
                    (length (frameObjects (app w))))
    /\ (resized (base (app w)) = false ->
        writesOf (events r) = []
        /\ storageImagesOf (events r) = []
        /\ frames' = frameObjects (app w)).
Proof.
  intros h w r frames'. subst r frames'. unfold draw. rewrite bind_get.
  match goal with
  | |- context [bind ?b _ h w] => set (block := b)
  end.
  assert (Hb : completed (block h w) = true
               /\ map frameCore (frameObjects (app (world (block h w)))) =
                  map frameCore (frameObjects (app w))
               /\ (resized (base (app w)) = true ->
                   writesOf (events (block h w)) =
                     map storageImageWrite (frameObjects (app (world (block h w))))
                   /\ storageImagesOf (events (block h w)) =
                        repeat (width (base (app w)), height (base (app w)))
                               (length (frameObjects (app w))))
               /\ (resized (base (app w)) = false ->
                   events (block h w) = []
                   /\ frameObjects (app (world (block h w))) = frameObjects (app w))).
  { subst block. destruct (resized (base (app w))).
    - rewrite bind_run. cbn [vkDeviceWaitIdle bind api ret outcome events world].
      cbv zeta. rewrite for_frames_unfold. cbn [app].
      destruct (resize_loop_from (length (frameObjects (app w))) 0 h
                  (mkWorld (S (tick w)) (app w) (heap w)) eq_refl)
        as (Hc & _ & _ & Hw & Hs & _).
      pose proof (resize_loop_world h (mkWorld (S (tick w)) (app w) (heap w)))
        as (fr & t' & Hwl & Hcore).
      rewrite for_frames_unfold in Hwl. cbn [app heap] in Hwl, Hcore, Hw, Hs.
      rewrite skipn_O in Hw.
      set (loop := for_each _ _ h _) in *.
      cbn [outcome events world]. unfold completed in *. cbn [outcome].
      split; [exact Hc|]. split.
      + rewrite Hwl. cbn [app]. now rewrite frameObjects_set_frameObjects.
      + split; [|discriminate]. intros _.
        unfold writesOf, storageImagesOf in *. cbn [flat_map ev_call List.app].
        split; assumption.
    - cbn [ret events world]. split; [reflexivity|]. split; [reflexivity|].
      split; [discriminate|]. intros _. split; reflexivity. }
  destruct Hb as (Hc & Hcore & Hres & Hnot).
  rewrite bind_run. unfold completed in Hc.
  destruct (block h w) as [[[]| |] es w1]; cbn [outcome events world] in *;
    try discriminate.
  clearbody block.
  match goal with
  | |- context [bind get ?f h w1] => remember (bind get f h w1) as r2 eqn:Hr2
  end.
  assert (Hrest : writesOf (events r2) = []
                  /\ storageImagesOf (events r2) = []
                  /\ frameObjects (app (world r2)) = frameObjects (app w1)).
  { clear - Hr2. split_world_deep w1. msimpl_in Hr2. repeat draw_step Hr2.
    all: subst r2; repeat split. }
  clear Hr2. destruct Hrest as (Hw2 & Hs2 & Hf2).
  intros _. rewrite Hf2, writesOf_app, storageImagesOf_app, Hw2, Hs2, !app_nil_r.
  split; [exact Hcore|]. split; [exact Hres|].
  intros Hn. destruct (Hnot Hn) as [-> ->]. now repeat split.
Qed.

Lemma draw_recreates_storage_images_witness :
  writesOf (events (draw zeroHost resizedWorld)) =
  map storageImageWrite (frameObjects (app (world (draw zeroHost resizedWorld)))).
Proof.
  assert (H1 : completed (draw zeroHost resizedWorld) = true)
    by (vm_compute; reflexivity).
  assert (H2 : resized (base (app resizedWorld)) = true)
    by (vm_compute; reflexivity).
  exact (proj1 (proj1 (proj2 (draw_recreates_storage_images
                                zeroHost resizedWorld H1)) H2)).
Defined.

(* ================================================================== *)
(** ** Host builds and device builds *)

Lemma createBottomLevelAccelerationStructure_completes (h : Host) (w : World) :
  completed (createBottomLevelAccelerationStructure h w) = blasCompletes h w.
Proof.
  unfold blasCompletes.
  exec_all createBottomLevelAccelerationStructure h w r Hr.
  all: subst r; unfold completed;
    cbn [outcome tick app objectCount Nat.add];
    repeat match goal with
           | H : (_ =? VK_SUCCESS) = _ |- _ => rewrite H; clear H
           end;
    cbn [andb]; try reflexivity.
  all: symmetry.
  all: match goal with
       | H : accelerationBuildStructureRangeInfos _ = Some _ |- _ =>
           apply Z.leb_le;
           destruct (Z_lt_ge_dec objectCount0 3) as [Hlt|Hge]; [|lia];
           rewrite accelerationBuildStructureRangeInfos_None in H;
           [discriminate | rewrite length_accelerationStructureBuildRangeInfos; lia]
       | H : accelerationBuildStructureRangeInfos _ = None |- _ =>
           apply Z.leb_gt;
           destruct (Z_lt_ge_dec objectCount0 3) as [Hlt|Hge]; [lia|];
           rewrite accelerationBuildStructureRangeInfos_spec in H;
           [discriminate | rewrite length_accelerationStructureBuildRangeInfos; lia]
       end.
Qed.

Lemma createTopLevelAccelerationStructure_requests (h : Host) (w : World) :
  let r := createTopLevelAccelerationStructure h w in
  completed r = tlasCompletes h w
  /\ (completed r = true ->
      buildRequests r =
        [ (1, tlasBuildInfo h w,
           [ [ {| primitiveCount := 1; primitiveOffset := 0;
                  firstVertex := 0; transformOffset := 0 |} ] ]) ]
      /\ topLevelAS (app (world r)) =
           mkAS (answer h (3 + tick w)%nat 1%nat) (answer h (3 + tick w)%nat 2%nat)).
Proof.
  cbv zeta. unfold tlasCompletes, tlasBuildInfo, buildRequests.
  exec_all createTopLevelAccelerationStructure h w r Hr.
  all: subst r; unfold completed, calls;
    cbn [outcome events world app tick topLevelAS map ev_call flat_map List.app
         Nat.add];
    repeat match goal with
           | H : (_ =? VK_SUCCESS) = _ |- _ => rewrite H; clear H
           end;
    split; [reflexivity|]; try discriminate; intros _; split; reflexivity.
Qed.

Lemma buildRequests_blasCalls (h : Host) (w : World) (r : Result unit) :
  calls r = blasCalls h w ->
  buildRequests r = [ (1, blasBuildInfo h w, blasRanges w) ].
Proof.
  unfold buildRequests. intros ->. unfold blasCalls, buildCalls.
  destruct (accelerationStructureHostCommands (base (app w))); reflexivity.
Qed.

(** X10: building on the host and building on the device request the same
    build.  Whether accelerationStructureHostCommands is set or not, each
    of the two build functions runs to its end in the same cases (its
    checked buffer creations succeed and, for the bottom level,
    objectCount is at least 3), requests exactly one build with the same
    build info and the same build ranges, whose destination is the
    acceleration structure the function has just created, and leaves the
    same handle and device address in bottomLevelAS or topLevelAS. *)
Theorem host_and_device_builds_agree :
  forall (h : Host) (w : World),
    let wh := with_hostCommands true w in
    let wd := with_hostCommands false w in
    (completed (createBottomLevelAccelerationStructure h wh) =
       completed (createBottomLevelAccelerationStructure h wd)
     /\ (completed (createBottomLevelAccelerationStructure h wh) = true ->
         exists info ranges,
           buildRequests (createBottomLevelAccelerationStructure h wh) =
             [(1, info, ranges)]
           /\ buildRequests (createBottomLevelAccelerationStructure h wd) =
                [(1, info, ranges)]
           /\ dstAccelerationStructure info =
                as_handle (bottomLevelAS
                             (app (world (createBottomLevelAccelerationStructure h wh))))
           /\ bottomLevelAS (app (world (createBottomLevelAccelerationStructure h wh))) =
              bottomLevelAS (app (world (createBottomLevelAccelerationStructure h wd)))))
    /\ (completed (createTopLevelAccelerationStructure h wh) =
          completed (createTopLevelAccelerationStructure h wd)
        /\ (completed (createTopLevelAccelerationStructure h wh) = true ->
            exists info ranges,
              buildRequests (createTopLevelAccelerationStructure h wh) =
                [(1, info, ranges)]
              /\ buildRequests (createTopLevelAccelerationStructure h wd) =
                   [(1, info, ranges)]
              /\ dstAccelerationStructure info =
                   as_handle (topLevelAS
                                (app (world (createTopLevelAccelerationStructure h wh))))
              /\ topLevelAS (app (world (createTopLevelAccelerationStructure h wh))) =
                 topLevelAS (app (world (createTopLevelAccelerationStructure h wd))))).
Proof.
  intros h w wh wd.
  assert (Eb : blasCompletes h wh = blasCompletes h wd) by reflexivity.
  assert (Et : tlasCompletes h wh = tlasCompletes h wd) by reflexivity.
  split; split.
  - now rewrite !createBottomLevelAccelerationStructure_completes.
  - intros Hh.
    assert (Hd : completed (createBottomLevelAccelerationStructure h wd) = true)
      by (rewrite createBottomLevelAccelerationStructure_completes, <- Eb,
            <- createBottomLevelAccelerationStructure_completes; exact Hh).
    destruct (createBottomLevelAccelerationStructure_run h wh Hh) as (C1 & _ & A1 & _).
    destruct (createBottomLevelAccelerationStructure_run h wd Hd) as (C2 & _ & A2 & _).
    exists (blasBuildInfo h w), (blasRanges w).
    split; [exact (buildRequests_blasCalls h wh _ C1)|].
    split; [exact (buildRequests_blasCalls h wd _ C2)|].
    rewrite A1, A2. split; reflexivity.
  - destruct (createTopLevelAccelerationStructure_requests h wh) as [-> _].
    destruct (createTopLevelAccelerationStructure_requests h wd) as [-> _].
    exact Et.
  - intros Hh.
    destruct (createTopLevelAccelerationStructure_requests h wh) as [E1 R1].
    destruct (createTopLevelAccelerationStructure_requests h wd) as [E2 R2].
    assert (Hd : completed (createTopLevelAccelerationStructure h wd) = true)
      by congruence.
    destruct (R1 Hh) as [Q1 A1]. destruct (R2 Hd) as [Q2 A2].
    exists (tlasBuildInfo h w), [ [ {| primitiveCount := 1; primitiveOffset := 0;
                                       firstVertex := 0; transformOffset := 0 |} ] ].
    split; [exact Q1|]. split; [exact Q2|].
    rewrite A1, A2. split; reflexivity.
Qed.

Lemma host_and_device_builds_agree_witness :
  buildRequests (createBottomLevelAccelerationStructure okHost
                   (with_hostCommands true exampleWorld)) =
  buildRequests (createBottomLevelAccelerationStructure okHost
                   (with_hostCommands false exampleWorld)).
Proof.
  assert (H : completed (createBottomLevelAccelerationStructure okHost
                           (with_hostCommands true exampleWorld)) = true)
    by (vm_compute; reflexivity).
  destruct (proj2 (proj1 (host_and_device_builds_agree okHost exampleWorld)) H)
    as (info & ranges & H1 & H2 & _).
  exact (eq_trans H1 (eq_sym H2)).
Defined.

(* ================================================================== *)
(** ** The order of a frame *)

Lemma framePath_app (p : FramePhase) (a b : list Call) :
  framePath p (a ++ b) =
  match framePath p a with
  | Some q => framePath q b
  | None => None
  end.
Proof.
  revert p; induction a as [|c a IH]; intros p; cbn [List.app framePath];
    [reflexivity|].
  destruct (frameStep p c); [apply IH | reflexivity].
Qed.

Lemma framePath_drained (es : list Event) :
  Forall (fun e => frameStep Drained (ev_call e) = Some Drained) es ->
  framePath Drained (map ev_call es) = Some Drained.
Proof.
  induction 1 as [|e es He _ IH]; cbn [map framePath]; [reflexivity|].
  now rewrite He.
Qed.

(** X11: a frame keeps to the order of the API.  Every run of draw, also
    one that is aborted, makes its calls in this order: after a resize it
    first waits for the device and only then recreates storage images and
    rewrites descriptors; then prepareFrame, the fence wait, the fence
    reset; commands are recorded only between the begin and the end of
    the recording, the rays are traced only after the pipeline and the
    descriptor sets are bound, images are transitioned and copied only
    after the rays are traced; the frame is submitted only after the
    recording has ended.  A run that returns has gone all the way to the
    submission. *)
Theorem draw_follows_frame_order :
  forall (h : Host) (w : World),
    let r := draw h w in
    (exists p, framePath Idle (calls r) = Some p)
    /\ (completed r = true -> framePath Idle (calls r) = Some Submitted).
Proof.
  intros h w r. subst r. unfold draw, calls. rewrite bind_get.
  match goal with
  | |- context [bind ?b _ h w] => set (block := b)
  end.
  assert (Hb : framePath Idle (map ev_call (events (block h w))) = Some Idle
               \/ framePath Idle (map ev_call (events (block h w))) = Some Drained).
  { subst block. destruct (resized (base (app w))); [right | left; reflexivity].
    rewrite events_bind. cbn [vkDeviceWaitIdle bind api ret outcome events world].
    cbn [List.app map ev_call framePath frameStep].
    apply framePath_drained. apply for_frames_events.
    intros i frame h' w'. rewrite recreateStorageImage_run.
    cbv zeta. cbn [events]. repeat constructor. }
  rewrite bind_run.
  destruct (block h w) as [[[]| |] es w1]; cbn [outcome events world] in *;
    [| split; [destruct Hb; eauto | discriminate] ..].
  clearbody block.
  match goal with
  | |- context [bind get ?f h w1] => remember (bind get f h w1) as r2 eqn:Hr2
  end.
  assert (Hrest : forall p, p = Idle \/ p = Drained ->
            (exists q, framePath p (map ev_call (events r2)) = Some q)
            /\ (completed r2 = true ->
                framePath p (map ev_call (events r2)) = Some Submitted)).
  { clear - Hr2. split_world_deep w1. msimpl_in Hr2. repeat draw_step Hr2.
    all: subst r2; intros p [-> | ->]; unfold completed;
      cbn [outcome events map ev_call framePath frameStep];
      (split; [eauto | try discriminate; reflexivity]). }
  clear Hr2. unfold completed in *. cbn [outcome].
  rewrite map_app, framePath_app.
  destruct Hb as [-> | ->]; apply Hrest; auto.
Qed.

Lemma draw_follows_frame_order_witness :
  framePath Idle (calls (draw zeroHost resizedWorld)) = Some Submitted.
Proof.
  assert (H : completed (draw zeroHost resizedWorld) = true)
    by (vm_compute; reflexivity).
  exact (proj2 (draw_follows_frame_order zeroHost resizedWorld) H).
Defined.

(* ================================================================== *)
(** ** getEnabledFeatures *)

(** X12: getEnabledFeatures chains the three feature structures.
    Whatever the structures held before, afterwards each carries its own
    structure type and has its feature switched on, and the chain from
    deviceCreatepNextChain meets the acceleration structure features, the
    ray tracing pipeline features and the buffer device address features,
    each once and in this order, and goes on with whatever pNext of the
    buffer device address features held, which the function leaves alone:
    the chain ends there exactly when that pointer is null.  Calling the
    function again changes nothing. *)
Theorem getEnabledFeatures_chain :
  forall (d : DeviceFeatures),
    let d' := getEnabledFeatures d in
    let tail := pNext (enabledBufferDeviceAddresFeatures d) in
    (forall f, sType (deref d' f) = structureTypeOf f
               /\ featureFlag (deref d' f) = true)
    /\ (forall n,
          featureChain (3 + n) d' (deviceCreatepNextChain d') =
          match featureChain n d' tail with
          | Some l => Some ([ AccelerationStructureFeatures;
                              RayTracingPipelineFeatures;
                              BufferDeviceAddressFeatures ] ++ l)
          | None => None
          end)
    /\ (featureChain 3 d' (deviceCreatepNextChain d') =
          Some [ AccelerationStructureFeatures; RayTracingPipelineFeatures;
                 BufferDeviceAddressFeatures ]
        <-> tail = nullptr)
    /\ getEnabledFeatures d' = d'.
Proof.
  intros d d' tail. subst d' tail.
  destruct d as [[t1 f1 p1] [t2 f2 p2] [t3 f3 p3] c]. cbn.
  split; [intros []; split; reflexivity|].
  split.
  - intros n. destruct (featureChain n _ p1); reflexivity.
  - split; [|reflexivity]. destruct p1; split; intros H; try reflexivity;
      discriminate.
Qed.

(* ================================================================== *)
(** ** What prepare creates and the destructor releases *)

Lemma countWhere_app {A} (f : A -> bool) (a b : list A) :
  countWhere f (a ++ b) = countWhere f a + countWhere f b.
Proof. unfold countWhere. rewrite filter_app, length_app. lia. Qed.

Lemma countWhere_cons {A} (f : A -> bool) (x : A) (l : list A) :
  countWhere f (x :: l) = (if f x then 1 else 0) + countWhere f l.
Proof.
  unfold countWhere. cbn [filter]. destruct (f x); cbn [length]; lia.
Qed.

Lemma countWhere_nil {A} (f : A -> bool) : countWhere f [] = 0.
Proof. reflexivity. Qed.

Lemma countWhere_concat_repeat {A} (f : A -> bool) (l : list A) (n : nat) :
  countWhere f (List.concat (repeat l n)) = Z.of_nat n * countWhere f l.
Proof.
  induction n as [|n IH].
  - change (repeat l 0) with (@nil (list A)). cbn [List.concat].
    rewrite countWhere_nil. lia.
  - change (repeat l (S n)) with (l :: repeat l n). cbn [List.concat].
    rewrite countWhere_app, IH. lia.
Qed.

Lemma countWhere_repeat {A} (f : A -> bool) (x : A) (n : nat) :
  countWhere f (repeat x n) = if f x then Z.of_nat n else 0.
Proof.
  induction n as [|n IH].
  - change (repeat x 0) with (@nil A). rewrite countWhere_nil.
    now destruct (f x).
  - change (repeat x (S n)) with (x :: repeat x n).
    rewrite countWhere_cons, IH. destruct (f x); lia.
Qed.

Lemma countWhere_flat_map {A B} (f : B -> bool) (g : A -> list B) (k : Z)
    (l : list A) :
  (forall x, countWhere f (g x) = k) ->
  countWhere f (flat_map g l) = Z.of_nat (length l) * k.
Proof.
  intros Hg. induction l as [|x l IH].
  - cbn [flat_map length]. rewrite countWhere_nil. lia.
  - cbn [flat_map length]. rewrite countWhere_app, IH, Hg. lia.
Qed.

Lemma prepare_callees (h : Host) (w : World) :
  completed (prepare h w) = true ->
  callees (prepare h w) =
    expectedCallees FrameResources (conditions w)
    ++ expectedCallees BottomLevelAS (conditions (afterFrames h w))
    ++ expectedCallees TopLevelAS (conditions (afterBLAS h w))
    ++ expectedCallees Pipeline (conditions (afterTLAS h w))
    ++ expectedCallees BindingTables (conditions (afterPipeline h w))
    ++ expectedCallees DescriptorSets (conditions (afterSBT h w))
    ++ ["buildCommandBuffers"].
Proof.
  unfold afterSBT, afterPipeline, afterTLAS, afterBLAS, afterFrames.
  unfold prepare, callees, calls. rewrite !completed_seq, !events_seq, ?world_seq.
  intros Hc.
  repeat match goal with
         | H : _ && _ = true |- _ => apply andb_true_iff in H as [? ?]
         end.
  repeat match goal with
         | H : completed ?x = true |- context [completed ?x] => rewrite H
         end.
  rewrite !map_app.
  repeat match goal with
         | H : completed (prepareFrameObjects h ?v) = true |- _ =>
             let E := fresh "E" in
             pose proof (proj2 (frameResources_callees h v) H) as E;
             unfold runOf, callees, calls in E; rewrite E; clear H E
         | H : completed (createBottomLevelAccelerationStructure h ?v) = true |- _ =>
             let E := fresh "E" in
             pose proof (proj2 (bottomLevelAS_callees h v) H) as E;
             unfold runOf, callees, calls in E; rewrite E; clear H E
         | H : completed (createTopLevelAccelerationStructure h ?v) = true |- _ =>
             let E := fresh "E" in
             pose proof (proj2 (topLevelAS_callees h v) H) as E;
             unfold runOf, callees, calls in E; rewrite E; clear H E
         | H : completed (createRayTracingPipeline h ?v) = true |- _ =>
             let E := fresh "E" in
             pose proof (proj2 (pipeline_callees h v) H) as E;
             unfold runOf, callees, calls in E; rewrite E; clear H E
         | H : completed (createShaderBindingTables h ?v) = true |- _ =>
             let E := fresh "E" in
             pose proof (proj2 (bindingTables_callees h v) H) as E;
             unfold runOf, callees, calls in E; rewrite E; clear H E
         | H : completed (createDescriptorSets h ?v) = true |- _ =>
             let E := fresh "E" in
             pose proof (proj2 (descriptorSets_callees h v) H) as E;
             unfold runOf, callees, calls in E; rewrite E; clear H E
         end.
  rewrite buildCommandBuffers_run. cbn [events]. rewrite modify_run.
  cbn [events map ev_call callee]. now rewrite app_nil_r.
Qed.

Ltac count_closed :=
  repeat match goal with
         | |- context [countWhere ?f ?l] =>
             let v := eval vm_compute in (countWhere f l) in
             change (countWhere f l) with v
         | |- context [if ?c then _ else _] =>
             let v := eval vm_compute in c in
             change c with v; cbv iota
         end.

(** X13: what prepare creates, the sample releases.  After a prepare that
    returned, and with a device, the destructor releases for every kind
    of object the sample owns (buffers, shader binding tables,
    acceleration structures, storage images, frame objects, the pipeline,
    its layout and the descriptor set layout) exactly as many objects as
    prepare created and did not release itself; scratch buffers and
    command buffers are created and released within prepare.  Without a
    device the destructor calls nothing. *)
Theorem prepare_and_destructor_balance :
  forall (h : Host) (w : World) (device : Z) (K : Resource),
    let r := prepare h w in
    completed r = true ->
    device <> 0 ->
    ownedBySample K = true ->
    countWhere (fun name => isSome_eq K (createdBy name)) (callees r) =
      countWhere (fun name => isSome_eq K (releasedBy name)) (callees r)
      + countWhere (fun x => resource_eqb K (destroyedBy x))
                   (destructor device (app (world r)))
    /\ destructor 0 (app (world r)) = [].
Proof.
  intros h w device K r Hc Hd HK. subst r. split; [|reflexivity].
  rewrite (prepare_callees h w Hc).
  destruct (prepare_ready h w Hc) as ([Hl _] & Hs & _).
  unfold swapChainOf in Hs. cbv zeta in Hs. injection Hs as Hn _ _.
  rewrite Hn in Hl. clear Hn.
  unfold destructor. apply Z.eqb_neq in Hd. rewrite Hd. clear Hd.
  unfold expectedCallees, conditions.
  cbn [images hostBuild objects frames].
  generalize dependent (app (world (prepare h w))). intros s Hl.
  generalize (accelerationStructureHostCommands (base (app (afterFrames h w)))).
  generalize (accelerationStructureHostCommands (base (app (afterBLAS h w)))).
  generalize (Z.to_nat (objectCount (app (afterTLAS h w)))).
  generalize (length (frameObjects (app (afterSBT h w)))).
  intros nf no b2 b1.
  rewrite !countWhere_app.
  rewrite (countWhere_flat_map _ _ (if resource_eqb K R_StorageImage then 1
                                    else if resource_eqb K R_Buffer then 1
                                    else if resource_eqb K R_FrameObjects then 1
                                    else 0))
    by (intros x; destruct K; reflexivity).
  rewrite Hl. clear Hl Hc.
  generalize (Z.to_nat (swapChain_imageCount (base (app w)))). intros ni.
  rewrite !(countWhere_cons _ _ (List.concat _)).
  rewrite !countWhere_concat_repeat, !countWhere_repeat.
  destruct b1, b2; destruct K; try discriminate HK; count_closed; lia.
Qed.

Lemma prepare_and_destructor_balance_witness :
  countWhere (fun name => isSome_eq R_Buffer (createdBy name))
             (callees (prepare okHost exampleWorld)) =
  countWhere (fun name => isSome_eq R_Buffer (releasedBy name))
             (callees (prepare okHost exampleWorld))
  + countWhere (fun x => resource_eqb R_Buffer (destroyedBy x))
               (destructor 1 (app (world (prepare okHost exampleWorld)))).
Proof.
  assert (H1 : completed (prepare okHost exampleWorld) = true)
    by (vm_compute; reflexivity).
  assert (H2 : 1 <> 0) by discriminate.
  assert (H3 : ownedBySample R_Buffer = true) by reflexivity.
  exact (proj1 (prepare_and_destructor_balance okHost exampleWorld 1 R_Buffer
                  H1 H2 H3)).
Defined.

(* ================================================================== *)
(** ** The inputs of the bottom level build *)

Lemma geometryCounts_eq (n : Z) : geometryCounts n = repeat 1 (Z.to_nat n).
Proof.
  unfold geometryCounts. rewrite (push_back_loop (fun _ => 1)). cbn [List.app].
  rewrite <- length_range_u32. now rewrite map_const.
Qed.

Lemma in_range_u32 (n i : Z) : In i (range_u32 n) -> 0 <= i < n.
Proof.
  unfold range_u32. intros H. apply in_map_iff in H as (k & <- & Hk).
  apply in_seq in Hk. lia.
Qed.

(** X14: the bottom level build stays within what it was sized for and
    within its transform buffer.  In a run that returns (with the
    transform buffer below 4 GiB), the build is requested with the type,
    the geometry count and the geometries the size query was made with,
    one geometry per object; it is given one build range per geometry,
    each with the primitive count the size query was given for that
    geometry; and the transform offset of range i is i times the size of
    a transform matrix, so that every range reads a whole matrix inside
    the transform buffer created by the first call. *)
Theorem bottom_level_build_within_bounds :
  forall (h : Host) (w : World),
    let r := createBottomLevelAccelerationStructure h w in
    let n := objectCount (app w) in
    completed r = true ->
    n * sizeof_VkTransformMatrixKHR < 2 ^ 32 ->
    exists size data sizesInfo counts info v rest,
      nth_error (calls r) 0 = Some (C_createBuffer B_transformBuffer size data)
      /\ nth_error (calls r) 6 =
           Some (C_vkGetAccelerationStructureBuildSizesKHR sizesInfo counts)
      /\ buildRequests r = [(1, info, v :: rest)]
      /\ bi_type info = bi_type sizesInfo
      /\ pGeometries info = pGeometries sizesInfo
      /\ geometryCount info = geometryCount sizesInfo
      /\ geometryCount info = n
      /\ length (pGeometries info) = Z.to_nat n
      /\ length v = Z.to_nat n
      /\ map primitiveCount v = counts
      /\ map transformOffset v =
           map (fun i => i * sizeof_VkTransformMatrixKHR) (range_u32 n)
      /\ Forall (fun range =>
                   0 <= transformOffset range
                   /\ transformOffset range + sizeof_VkTransformMatrixKHR <= size) v.
Proof.
  intros h w r n Hc Hn.
  destruct (createBottomLevelAccelerationStructure_run h w Hc) as (Hcalls & H3 & _).
  fold r in Hcalls. fold n in H3.
  assert (Hn0 : 0 <= n) by lia.
  unfold sizeof_VkTransformMatrixKHR in *.
  exists (n * 48), (D_transforms (transformMatrices n)),
    (blasSizesInfo h w), (geometryCounts n), (blasBuildInfo h w),
    (accelerationStructureBuildRangeInfos n 1),
    [skipn 1 (accelerationStructureBuildRangeInfos n 1);
     skipn 2 (accelerationStructureBuildRangeInfos n 1)].
  split; [rewrite Hcalls; reflexivity|].
  split; [rewrite Hcalls; reflexivity|].
  split; [exact (buildRequests_blasCalls h w r Hcalls)|].
  split; [reflexivity|]. split; [reflexivity|]. split; [reflexivity|].
  assert (Hg : length (blasGeometries h w) = Z.to_nat n).
  { unfold blasGeometries. fold n.
    now rewrite accelerationStructureGeometries_eq, repeat_length. }
  split.
  { unfold blasBuildInfo. cbn [geometryCount]. rewrite Hg.
    rewrite Z2Nat.id by lia. apply u32_small. lia. }
  split; [exact Hg|].
  split; [apply length_accelerationStructureBuildRangeInfos|].
  rewrite accelerationStructureBuildRangeInfos_eq, geometryCounts_eq, !map_map.
  cbn [primitiveCount transformOffset buildRangeInfo_at].
  split; [now rewrite map_const, length_range_u32|].
  unfold sizeof_VkTransformMatrixKHR.
  split.
  - apply map_ext_in. intros i Hi. apply in_range_u32 in Hi.
    apply u32_small. lia.
  - apply Forall_map, Forall_forall. intros i Hi. apply in_range_u32 in Hi.
    unfold buildRangeInfo_at, sizeof_VkTransformMatrixKHR.
    cbn [transformOffset]. rewrite u32_small by lia. lia.
Qed.

Lemma bottom_level_build_within_bounds_witness :
  exists size data sizesInfo counts info v rest,
    nth_error (calls (createBottomLevelAccelerationStructure okHost exampleWorld)) 0 =
      Some (C_createBuffer B_transformBuffer size data)
    /\ nth_error (calls (createBottomLevelAccelerationStructure okHost exampleWorld)) 6 =
         Some (C_vkGetAccelerationStructureBuildSizesKHR sizesInfo counts)
    /\ buildRequests (createBottomLevelAccelerationStructure okHost exampleWorld) =
         [(1, info, v :: rest)]
    /\ bi_type info = bi_type sizesInfo
    /\ pGeometries info = pGeometries sizesInfo
    /\ geometryCount info = geometryCount sizesInfo
    /\ geometryCount info = objectCount (app exampleWorld)
    /\ length (pGeometries info) = Z.to_nat (objectCount (app exampleWorld))
    /\ length v = Z.to_nat (objectCount (app exampleWorld))
    /\ map primitiveCount v = counts
    /\ map transformOffset v =
         map (fun i => i * sizeof_VkTransformMatrixKHR)
             (range_u32 (objectCount (app exampleWorld)))
    /\ Forall (fun range =>
                 0 <= transformOffset range
                 /\ transformOffset range + sizeof_VkTransformMatrixKHR <= size) v.
Proof.
  assert (H1 : completed (createBottomLevelAccelerationStructure okHost exampleWorld)
               = true) by (vm_compute; reflexivity).
  assert (H2 : objectCount (app exampleWorld) * sizeof_VkTransformMatrixKHR < 2 ^ 32)
    by (vm_compute; reflexivity).
  exact (bottom_level_build_within_bounds okHost exampleWorld H1 H2).
Defined.

(* ================================================================== *)
(** ** What a frame leaves alone *)

(** X15: a frame changes nothing of the setup.  Whatever its outcome, a
    run of draw leaves the members the sample declares for its setup as
    they were: the acceleration structures, the shader groups, the shader
    binding tables, the pipeline and its layouts, the geometry buffers,
    objectCount and, of every frame, everything but the storage image;
    and it neither allocates nor frees mapped memory. *)
Theorem draw_leaves_setup_alone :
  forall (h : Host) (w : World),
    setupOf (app (world (draw h w))) = setupOf (app w)
    /\ length (heap (world (draw h w))) = length (heap w).
Proof.
  intros h w. draw_exec h w r Hr.
  all: subst r; unfold setupOf;
    cbn [world app base heap bottomLevelAS topLevelAS shaderGroups
         shaderBindingTables pipeline pipelineLayout descriptorSetLayout
         vertexBuffer indexBuffer transformBuffer objectCount frameObjects];
    rewrite ?Hcore, ?length_set_nth; repeat split.
Qed.

(* ================================================================== *)
(** ** The names of the shader files *)

Lemma digit_char_value (d : Z) :
  0 <= d < 10 -> Z.of_nat (nat_of_ascii (digit_char d)) - 48 = d.
Proof.
  intros Hd. unfold digit_char. rewrite nat_ascii_embedding by lia. lia.
Qed.

Lemma parse_to_string_fuel (fuel : nat) :
  forall (z : Z) (acc : string) (a : Z),
    0 <= z < 10 ^ Z.of_nat fuel ->
    exists k, 0 <= k
      /\ parse_decimal a (to_string_fuel fuel z acc) =
         parse_decimal (a * 10 ^ k + z) acc.
Proof.
  induction fuel as [|fuel IH]; intros z acc a Hz.
  - exists 0. split; [lia|]. cbn [to_string_fuel].
    change (10 ^ Z.of_nat 0) with 1 in Hz. f_equal. lia.
  - rewrite Nat2Z.inj_succ, Z.pow_succ_r in Hz by lia.
    cbn [to_string_fuel]. cbv zeta.
    pose proof (Z.mod_pos_bound z 10 ltac:(lia)) as Hm.
    pose proof (Z.div_mod z 10 ltac:(lia)) as Hdm.
    destruct (z / 10 =? 0) eqn:E.
    + apply Z.eqb_eq in E. exists 1. split; [lia|].
      cbn [parse_decimal]. rewrite digit_char_value by lia. f_equal. lia.
    + apply Z.eqb_neq in E.
      destruct (IH (z / 10) (String (digit_char (z mod 10)) acc) a) as (k & Hk & Hp).
      { split; [apply Z.div_pos; lia | apply Z.div_lt_upper_bound; lia]. }
      exists (k + 1). split; [lia|]. rewrite Hp. cbn [parse_decimal].
      rewrite digit_char_value by lia. f_equal.
      rewrite Z.pow_add_r by lia. lia.
Qed.

(** Reading back what [to_string] wrote gives the number. *)
Lemma parse_to_string (z : Z) : 0 <= z -> parse_decimal 0 (to_string z) = z.
Proof.
  intros Hz. unfold to_string.
  destruct (parse_to_string_fuel (S (Z.to_nat (Z.log2 z))) z "" 0) as (k & _ & Hp).
  - split; [exact Hz|]. rewrite Nat2Z.inj_succ, Z2Nat.id by apply Z.log2_nonneg.
    destruct (Z.eq_dec z 0) as [->|Hne]; [reflexivity|].
    apply Z.lt_le_trans with (2 ^ Z.succ (Z.log2 z)).
    + apply Z.log2_spec. lia.
    + apply Z.pow_le_mono_l. lia.
  - rewrite Hp. cbn [parse_decimal]. lia.
Qed.

Lemma to_string_inj (a b : Z) :
  0 <= a -> 0 <= b -> to_string a = to_string b -> a = b.
Proof.
  intros Ha Hb H. rewrite <- (parse_to_string a Ha), <- (parse_to_string b Hb).
  now rewrite H.
Qed.

Lemma append_inj_l (p a b : string) : p +++ a = p +++ b -> a = b.
Proof.
  induction p as [|c p IH]; intros H.
  - exact H.
  - apply IH. change (String c (p +++ a) = String c (p +++ b)) in H. congruence.
Qed.

Lemma length_append (a b : string) :
  String.length (a +++ b) = (String.length a + String.length b)%nat.
Proof.
  induction a as [|c a IH]; [reflexivity|].
  change (String.length (String c (a +++ b))
          = S (String.length a + String.length b)).
  cbn [String.length]. now rewrite IH.
Qed.

Lemma append_inj_r (t : string) : forall a b : string, a +++ t = b +++ t -> a = b.
Proof.
  induction a as [|c a IH]; intros [|d b] H.
  - reflexivity.
  - apply (f_equal String.length) in H.
    change (String.length t = String.length (String d (b +++ t))) in H.
    cbn [String.length] in H. rewrite length_append in H. lia.
  - apply (f_equal String.length) in H.
    change (String.length (String c (a +++ t)) = String.length t) in H.
    cbn [String.length] in H. rewrite length_append in H. lia.
  - change (String c (a +++ t) = String d (b +++ t)) in H.
    injection H as -> H. f_equal. now apply IH.
Qed.

Lemma callableShaderFile_inj (p : string) (i j : Z) :
  0 <= i < 2 ^ 32 - 1 -> 0 <= j < 2 ^ 32 - 1 ->
  callableShaderFile p i = callableShaderFile p j -> i = j.
Proof.
  intros Hi Hj H. unfold callableShaderFile in H.
  apply append_inj_l, append_inj_l, append_inj_r in H.
  rewrite !u32_small in H by lia.
  apply to_string_inj in H; lia.
Qed.

Lemma NoDup_range_u32 (n : Z) : NoDup (range_u32 n).
Proof.
  unfold range_u32. apply NoDup_map_NoDup_ForallPairs; [|apply seq_NoDup].
  intros a b _ _. apply Nat2Z.inj.
Qed.

Lemma NoDup_callableShaderFiles (p : string) (n : Z) :
  n < 2 ^ 32 -> NoDup (map (callableShaderFile p) (range_u32 n)).
Proof.
  intros Hn. apply NoDup_map_NoDup_ForallPairs; [|apply NoDup_range_u32].
  intros i j Hi Hj. apply in_range_u32 in Hi, Hj.
  apply callableShaderFile_inj; lia.
Qed.

Lemma fixed_name_not_callable (p name : string) (xs : list Z) :
  (forall x, name <> "callable" +++ x) ->
  ~ In (p +++ "raytracingcallable/" +++ name) (map (callableShaderFile p) xs).
Proof.
  intros Hne Hin. apply in_map_iff in Hin as (i & Hi & _).
  unfold callableShaderFile in Hi.
  apply append_inj_l in Hi.
  change ("raytracingcallable/callable" +++ to_string (u32 (i + 1)) +++ ".rcall.spv")
    with ("raytracingcallable/"
          +++ ("callable" +++ to_string (u32 (i + 1)) +++ ".rcall.spv")) in Hi.
  apply append_inj_l in Hi. symmetry in Hi. exact (Hne _ Hi).
Qed.

(** X16: no shader file is loaded twice.  For every objectCount (an
    unsigned 32 bit number), a run of createRayTracingPipeline that
    returns has loaded 3 + objectCount files with pairwise different
    names: the number in the name of a callable shader is written in
    decimal and reads back as its loop index plus one. *)
Theorem loaded_shader_files_distinct :
  forall (h : Host) (w : World),
    let r := createRayTracingPipeline h w in
    let n := objectCount (app w) in
    completed r = true ->
    0 <= n < 2 ^ 32 ->
    NoDup (loadedShaders r)
    /\ length (loadedShaders r) = (3 + Z.to_nat n)%nat
    /\ forall i, 0 <= i < n ->
         nth_error (loadedShaders r) (3 + Z.to_nat i) =
           Some (getShadersPath h +++ "raytracingcallable/callable"
                 +++ to_string (i + 1) +++ ".rcall.spv")
         /\ parse_decimal 0 (to_string (i + 1)) = i + 1.
Proof.
  intros h w r n Hc Hn.
  destruct (createRayTracingPipeline_run h w Hc) as (Hl & _).
  fold r in Hl. fold n in Hl. rewrite Hl. set (p := getShadersPath h).
  split; [|split].
  - change (p +++ "raytracingcallable/raygen.rgen.spv")
      with (p +++ "raytracingcallable/" +++ "raygen.rgen.spv").
    change (p +++ "raytracingcallable/miss.rmiss.spv")
      with (p +++ "raytracingcallable/" +++ "miss.rmiss.spv").
    change (p +++ "raytracingcallable/closesthit.rchit.spv")
      with (p +++ "raytracingcallable/" +++ "closesthit.rchit.spv").
    cbn [List.app].
    repeat (constructor;
      [ intros Hin; cbn [In] in Hin;
        repeat match type of Hin with
               | _ = _ \/ _ =>
                   destruct Hin as [Hin | Hin];
                   [ apply append_inj_l, append_inj_l in Hin; discriminate Hin |]
               end;
        revert Hin; apply fixed_name_not_callable;
        intros x Hx;
        change ("callable" +++ x) with (String "c" (String "a" ("llable" +++ x))) in Hx;
        discriminate Hx
      | ]).
    apply NoDup_callableShaderFiles. lia.
  - rewrite length_app, length_map, length_range_u32. reflexivity.
  - intros i Hi. split; [|apply parse_to_string; lia].
    rewrite nth_error_app2 by (cbn [length]; lia).
    cbn [length]. replace (3 + Z.to_nat i - 3)%nat with (Z.to_nat i) by lia.
    rewrite nth_error_map. unfold range_u32. rewrite nth_error_map.
    rewrite nth_error_seq.
    destruct (Nat.ltb_spec (Z.to_nat i) (Z.to_nat n)) as [_|Hge]; [|lia].
    cbn [option_map Nat.add]. unfold callableShaderFile. fold p.
    rewrite Z2Nat.id by lia. rewrite u32_small by lia. reflexivity.
Qed.

Lemma loaded_shader_files_distinct_witness :
  NoDup (loadedShaders (createRayTracingPipeline okHost exampleWorld)).
Proof.
  assert (H1 : completed (createRayTracingPipeline okHost exampleWorld) = true)
    by (vm_compute; reflexivity).
  assert (H2 : 0 <= objectCount (app exampleWorld) < 2 ^ 32)
    by (vm_compute; split; [discriminate | reflexivity]).
  exact (proj1 (loaded_shader_files_distinct okHost exampleWorld H1 H2)).
Defined.

(* ================================================================== *)
(** ** The order of prepare *)

(** C6: prepare sets up in dependency order.  A run that returns issued,
    in this order, the calls of the per-frame objects, of the bottom level
    acceleration structure, of the top level acceleration structure, of
    the ray tracing pipeline, of the shader binding tables and of the
    descriptor sets, then buildCommandBuffers, and only then set prepared.
    The per-frame step, which comes first, calls the base class and then
    createFrameObjects, createStorageImage, createBuffer and Buffer::map
    once per swap chain image; the descriptor set step, which comes last
    of the six, creates the pool and then allocates and updates one
    descriptor set per swap chain image.  The top level instance refers to
    the device address the bottom level build produced, the shader binding
    tables query the pipeline the pipeline step created, and every
    descriptor update binds the handle the top level build produced.  A
    run that does not return leaves prepared as it was. *)
Theorem prepare_order :
  forall (h : Host) (w : World),
    let w0 := afterFrames h w in
    let w1 := afterBLAS h w in
    let w2 := afterTLAS h w in
    let w3 := afterPipeline h w in
    let w4 := afterSBT h w in
    let w5 := afterDescriptorSets h w in
    let r := prepare h w in
    let imageCount := Z.to_nat (swapChain_imageCount (base (app w))) in
    (completed r = true ->
       events r =
         events (prepareFrameObjects h w)
         ++ events (createBottomLevelAccelerationStructure h w0)
         ++ events (createTopLevelAccelerationStructure h w1)
         ++ events (createRayTracingPipeline h w2)
         ++ events (createShaderBindingTables h w3)
         ++ events (createDescriptorSets h w4)
         ++ [mkEvent C_buildCommandBuffers (answer h (tick w5) 0%nat)]
       /\ prepared (base (app (world r))) = true
       /\ nth_error (calls (createBottomLevelAccelerationStructure h w0)) 7 =
            Some (C_createAccelerationStructure
                    VK_ACCELERATION_STRUCTURE_TYPE_BOTTOM_LEVEL_KHR)
       /\ as_deviceAddress (bottomLevelAS (app w1)) = answer h (7 + tick w0)%nat 2%nat
       /\ nth_error (calls (createTopLevelAccelerationStructure h w1)) 0 =
            Some (C_createBuffer B_instancesBuffer
                    sizeof_VkAccelerationStructureInstanceKHR
                    (D_instance (tlasInstance w1)))
       /\ accelerationStructureReference (tlasInstance w1) =
            answer h (7 + tick w0)%nat 2%nat
       /\ nth_error (calls (createTopLevelAccelerationStructure h w1)) 3 =
            Some (C_createAccelerationStructure
                    VK_ACCELERATION_STRUCTURE_TYPE_TOP_LEVEL_KHR)
       /\ as_handle (topLevelAS (app w2)) = answer h (3 + tick w1)%nat 1%nat
       /\ pipeline (app w3) =
            answer h (5 + tick w2 + length (range_u32 (objectCount (app w2))))%nat 1%nat
       /\ nth_error (calls (createShaderBindingTables h w3)) 0 =
            Some (C_vkGetRayTracingShaderGroupHandlesKHR (pipeline (app w3)) 0
                    (sbtGroupCount w3) (sbtSize w3))
       /\ Forall (bindsAccelerationStructure (as_handle (topLevelAS (app w2))))
                 (events (createDescriptorSets h w4))
       /\ callees (prepareFrameObjects h w) =
            "VulkanRaytracingSample::prepare"
            :: List.concat
                 (repeat ["createFrameObjects"; "createStorageImage"; "createBuffer";
                          "Buffer::map"] imageCount)
       /\ callees (createDescriptorSets h w4) =
            "vkCreateDescriptorPool"
            :: List.concat
                 (repeat ["vkAllocateDescriptorSets"; "vkUpdateDescriptorSets"]
                         imageCount)
       /\ callees r =
            expectedCallees FrameResources (conditions w)
            ++ expectedCallees BottomLevelAS (conditions w0)
            ++ expectedCallees TopLevelAS (conditions w1)
            ++ expectedCallees Pipeline (conditions w2)
            ++ expectedCallees BindingTables (conditions w3)
            ++ expectedCallees DescriptorSets (conditions w4)
            ++ ["buildCommandBuffers"])
    /\ (completed r = false ->
        prepared (base (app (world r))) = prepared (base (app w))).
Proof.
  intros h w. cbv zeta. split; [|apply (prepare_steps h w)].
  intros Hc.
  destruct (proj1 (prepare_steps h w) Hc)
    as (A1 & A2 & A3 & A4 & A5 & A6 & A7 & A8 & A9 & A10 & A11).
  repeat (split; [assumption|]).
  pose proof (prepare_callees h w Hc) as Hall.
  unfold afterSBT, afterPipeline, afterTLAS, afterBLAS, afterFrames in *.
  unfold prepare in Hc. rewrite !completed_seq in Hc.
  repeat match goal with
         | H : _ && _ = true |- _ => apply andb_true_iff in H as [? ?]
         end.
  split; [apply prepareFrameObjects_spec; assumption|].
  split; [|exact Hall].
  match goal with
  | H : completed (prepareFrameObjects h w) = true |- _ =>
      destruct (prepareFrameObjects_ready h w H) as [Hf Hs]
  end.
  set (w0 := world (prepareFrameObjects h w)) in *.
  pose proof (createBottomLevelAccelerationStructure_extends h w0) as E1.
  set (w1 := world (createBottomLevelAccelerationStructure h w0)) in *.
  pose proof (createTopLevelAccelerationStructure_extends h w1) as E2.
  set (w2 := world (createTopLevelAccelerationStructure h w1)) in *.
  pose proof (createRayTracingPipeline_extends h w2) as E3.
  set (w3 := world (createRayTracingPipeline h w2)) in *.
  pose proof (createShaderBindingTables_extends h w3) as E4.
  set (w4 := world (createShaderBindingTables h w3)) in *.
  assert (E : extends w0 w4)
    by (repeat (eapply extends_trans; [eassumption|]); apply extends_refl).
  pose proof (framesReady_extends _ _ E Hf) as [Hl _].
  destruct E as (Hs4 & _ & _).
  assert (Hn : swapChain_imageCount (base (app w4)) =
               swapChain_imageCount (base (app w))).
  { unfold swapChainOf in Hs, Hs4. cbv zeta in Hs, Hs4. congruence. }
  rewrite <- Hn, <- Hl.
  apply createDescriptorSets_spec. assumption.
Qed.

Lemma prepare_order_witness :
  completed (prepare okHost exampleWorld) = true /\
  callees (createDescriptorSets okHost (afterSBT okHost exampleWorld)) =
    "vkCreateDescriptorPool"
    :: List.concat
         (repeat ["vkAllocateDescriptorSets"; "vkUpdateDescriptorSets"]
                 (Z.to_nat (swapChain_imageCount (base (app exampleWorld))))).
Proof.
  assert (H : completed (prepare okHost exampleWorld) = true)
    by (vm_compute; reflexivity).
  split; [exact H|].
  destruct (prepare_order okHost exampleWorld) as [H1 _].
  destruct (H1 H) as (_ & _ & _ & _ & _ & _ & _ & _ & _ & _ & _ & _ & H13 & _).
  exact H13.
Defined.
